(** * Webhook-Processor: the retry-level scheduler, its queue store and its worker pool

    A shallow embedding of the Go sources
    - [internal/domain/enums] (webhook status, [MaxRetryAttempts]),
    - [internal/domain/entities/webhook_queue.go],
    - [internal/infrastructure/models] (GORM model and its hooks),
    - [internal/infrastructure/repositories/webhook_queue_repository_impl.go],
    - [internal/application/usecases/webhook_processor.go],
    - [internal/application/workers/webhook_worker.go] and [worker_pool.go],
    followed by the properties proved about them.

    Conventions of the embedding.
    - [time.Time] is an integer number of nanoseconds counted from Go's zero
      instant, so [time.Time{}] is [0] and [IsZero] is a test against [0];
      [time.Duration] is an integer number of nanoseconds.
    - every [time.Now()] of the source is an explicit argument;
    - every database call takes the error the driver reports for it, if any
      ([None]: the call goes through); a failing call leaves the table as it was;
    - the table [webhook_queue] is the list of its rows, in insertion order;
      statements run one at a time, so [SKIP LOCKED] never has a locked row to
      skip;
    - the Go [error] is its message. *)

From Stdlib Require Import ZArith QArith Qround String Ascii List Lia Bool.
From Stdlib Require Import DecimalString Relations Lqa.
Import ListNotations.

Open Scope string_scope.
Open Scope Z_scope.

(** Case analysis on a tier: the literals 0 to 6, and the rest. *)
Ltac tier_split k :=
  destruct k as [|k|k]; [| do 3 (try destruct k as [k|k|]) |].

(** ** Go library types *)

Definition time_Time := Z.
Definition time_Duration := Z.

Definition time_IsZero (t : time_Time) : bool := t =? 0.

Definition time_Millisecond : time_Duration := 1000000.
Definition time_Second : time_Duration := 1000 * time_Millisecond.
Definition time_Minute : time_Duration := 60 * time_Second.
Definition time_Hour : time_Duration := 60 * time_Minute.

(** [d.Milliseconds()]: integer division truncated toward zero. *)
Definition time_Milliseconds (d : time_Duration) : Z := Z.quot d 1000000.

(** [t.Add(d)] and [t.Sub(u)]. *)
Definition time_Add (t : time_Time) (d : time_Duration) : time_Time := t + d.
Definition time_Sub (t u : time_Time) : time_Duration := t - u.

(** [uuid.UUID] is sixteen bytes, read here as one 128-bit number;
    [uuid.Nil] is all zeroes. *)
Definition uuid_UUID := N.
Definition uuid_Nil : uuid_UUID := 0%N.

(** The [%d] verb of [fmt.Sprintf]. *)
Definition fmt_d (z : Z) : string := NilZero.string_of_int (Z.to_int z).

(** Outcome of a fallible call: the value, or the error message. *)
Inductive result (A : Type) : Type :=
| Ok (a : A)
| Err (msg : string).
Arguments Ok {A} a.
Arguments Err {A} msg.

(** [fmt.Errorf("<ctx>: %w", err)]. *)
Definition fmt_Errorf_w (ctx err : string) : string := ctx ++ ": " ++ err.

(** ** internal/domain/enums *)

Module enums.

(** [type WebhookStatus string] and [type EventType string]. *)
Definition WebhookStatus := string.
Definition EventType := string.

Definition WebhookStatusPending : WebhookStatus := "PENDING".
Definition WebhookStatusProcessing : WebhookStatus := "PROCESSING".
Definition WebhookStatusCompleted : WebhookStatus := "COMPLETED".
Definition WebhookStatusFailed : WebhookStatus := "FAILED".

Definition EventTypeCredit : EventType := "CREDIT".
Definition EventTypeDebit : EventType := "DEBIT".

Definition MaxRetryAttempts : Z := 6.

Definition IsCompleted (s : WebhookStatus) : bool :=
  String.eqb s WebhookStatusCompleted.

End enums.

(** ** internal/domain/entities/webhook_queue.go

    The six columns [retry_k_started_at], [retry_k_completed_at],
    [retry_k_duration_ms], [retry_k_http_status], [retry_k_response_body],
    [retry_k_error] of tier [k] are grouped in one [RetryAttempt]; the seven
    groups [Retry0] .. [Retry6] are the record [RetryHistory].  The Go struct
    lists the same forty-two pointers flat. *)

Record RetryAttempt : Type := mkRetryAttempt {
  RetryStartedAt : option time_Time;
  RetryCompletedAt : option time_Time;
  RetryDurationMs : option Z;
  RetryHTTPStatus : option Z;
  RetryResponseBody : option string;
  RetryError : option string
}.

Definition emptyAttempt : RetryAttempt :=
  mkRetryAttempt None None None None None None.

Record RetryHistory : Type := mkRetryHistory {
  Retry0 : RetryAttempt;
  Retry1 : RetryAttempt;
  Retry2 : RetryAttempt;
  Retry3 : RetryAttempt;
  Retry4 : RetryAttempt;
  Retry5 : RetryAttempt;
  Retry6 : RetryAttempt
}.

Definition emptyHistory : RetryHistory :=
  mkRetryHistory emptyAttempt emptyAttempt emptyAttempt emptyAttempt
                 emptyAttempt emptyAttempt emptyAttempt.

(** [entities.WebhookQueue]; [models.WebhookQueueModel] has the same fields
    with the same types, and is the same record here. *)
Record WebhookQueue : Type := mkWebhookQueue {
  ID : Z;
  QueueID : uuid_UUID;
  EventType : enums.EventType;
  EventID : string;
  ConfigID : Z;
  WebhookURL : string;
  Status : enums.WebhookStatus;
  RetryCount : Z;
  NextRetryAt : time_Time;
  Retries : RetryHistory;
  LastError : string;
  LastHTTPStatus : Z;
  CreatedAt : time_Time;
  UpdatedAt : time_Time;
  ProcessingStartedAt : option time_Time;
  CompletedAt : option time_Time;
  DeletedAt : option time_Time
}.

(** [CanRetry]. *)
Definition CanRetry (w : WebhookQueue) : bool :=
  (RetryCount w <? enums.MaxRetryAttempts) && negb (enums.IsCompleted (Status w)).

(** *** Field assignments *)

Definition set_ID (v : Z) (w : WebhookQueue) : WebhookQueue :=
  mkWebhookQueue v (QueueID w) (EventType w) (EventID w) (ConfigID w)
    (WebhookURL w) (Status w) (RetryCount w) (NextRetryAt w) (Retries w)
    (LastError w) (LastHTTPStatus w) (CreatedAt w) (UpdatedAt w)
    (ProcessingStartedAt w) (CompletedAt w) (DeletedAt w).

Definition set_QueueID (v : uuid_UUID) (w : WebhookQueue) : WebhookQueue :=
  mkWebhookQueue (ID w) v (EventType w) (EventID w) (ConfigID w)
    (WebhookURL w) (Status w) (RetryCount w) (NextRetryAt w) (Retries w)
    (LastError w) (LastHTTPStatus w) (CreatedAt w) (UpdatedAt w)
    (ProcessingStartedAt w) (CompletedAt w) (DeletedAt w).

Definition set_Status (v : enums.WebhookStatus) (w : WebhookQueue) : WebhookQueue :=
  mkWebhookQueue (ID w) (QueueID w) (EventType w) (EventID w) (ConfigID w)
    (WebhookURL w) v (RetryCount w) (NextRetryAt w) (Retries w)
    (LastError w) (LastHTTPStatus w) (CreatedAt w) (UpdatedAt w)
    (ProcessingStartedAt w) (CompletedAt w) (DeletedAt w).

Definition set_RetryCount (v : Z) (w : WebhookQueue) : WebhookQueue :=
  mkWebhookQueue (ID w) (QueueID w) (EventType w) (EventID w) (ConfigID w)
    (WebhookURL w) (Status w) v (NextRetryAt w) (Retries w)
    (LastError w) (LastHTTPStatus w) (CreatedAt w) (UpdatedAt w)
    (ProcessingStartedAt w) (CompletedAt w) (DeletedAt w).

Definition set_NextRetryAt (v : time_Time) (w : WebhookQueue) : WebhookQueue :=
  mkWebhookQueue (ID w) (QueueID w) (EventType w) (EventID w) (ConfigID w)
    (WebhookURL w) (Status w) (RetryCount w) v (Retries w)
    (LastError w) (LastHTTPStatus w) (CreatedAt w) (UpdatedAt w)
    (ProcessingStartedAt w) (CompletedAt w) (DeletedAt w).

Definition set_Retries (v : RetryHistory) (w : WebhookQueue) : WebhookQueue :=
  mkWebhookQueue (ID w) (QueueID w) (EventType w) (EventID w) (ConfigID w)
    (WebhookURL w) (Status w) (RetryCount w) (NextRetryAt w) v
    (LastError w) (LastHTTPStatus w) (CreatedAt w) (UpdatedAt w)
    (ProcessingStartedAt w) (CompletedAt w) (DeletedAt w).

Definition set_LastError (v : string) (w : WebhookQueue) : WebhookQueue :=
  mkWebhookQueue (ID w) (QueueID w) (EventType w) (EventID w) (ConfigID w)
    (WebhookURL w) (Status w) (RetryCount w) (NextRetryAt w) (Retries w)
    v (LastHTTPStatus w) (CreatedAt w) (UpdatedAt w)
    (ProcessingStartedAt w) (CompletedAt w) (DeletedAt w).

Definition set_LastHTTPStatus (v : Z) (w : WebhookQueue) : WebhookQueue :=
  mkWebhookQueue (ID w) (QueueID w) (EventType w) (EventID w) (ConfigID w)
    (WebhookURL w) (Status w) (RetryCount w) (NextRetryAt w) (Retries w)
    (LastError w) v (CreatedAt w) (UpdatedAt w)
    (ProcessingStartedAt w) (CompletedAt w) (DeletedAt w).

Definition set_CreatedAt (v : time_Time) (w : WebhookQueue) : WebhookQueue :=
  mkWebhookQueue (ID w) (QueueID w) (EventType w) (EventID w) (ConfigID w)
    (WebhookURL w) (Status w) (RetryCount w) (NextRetryAt w) (Retries w)
    (LastError w) (LastHTTPStatus w) v (UpdatedAt w)
    (ProcessingStartedAt w) (CompletedAt w) (DeletedAt w).

Definition set_UpdatedAt (v : time_Time) (w : WebhookQueue) : WebhookQueue :=
  mkWebhookQueue (ID w) (QueueID w) (EventType w) (EventID w) (ConfigID w)
    (WebhookURL w) (Status w) (RetryCount w) (NextRetryAt w) (Retries w)
    (LastError w) (LastHTTPStatus w) (CreatedAt w) v
    (ProcessingStartedAt w) (CompletedAt w) (DeletedAt w).

Definition set_ProcessingStartedAt (v : option time_Time) (w : WebhookQueue)
  : WebhookQueue :=
  mkWebhookQueue (ID w) (QueueID w) (EventType w) (EventID w) (ConfigID w)
    (WebhookURL w) (Status w) (RetryCount w) (NextRetryAt w) (Retries w)
    (LastError w) (LastHTTPStatus w) (CreatedAt w) (UpdatedAt w)
    v (CompletedAt w) (DeletedAt w).

Definition set_CompletedAt (v : option time_Time) (w : WebhookQueue)
  : WebhookQueue :=
  mkWebhookQueue (ID w) (QueueID w) (EventType w) (EventID w) (ConfigID w)
    (WebhookURL w) (Status w) (RetryCount w) (NextRetryAt w) (Retries w)
    (LastError w) (LastHTTPStatus w) (CreatedAt w) (UpdatedAt w)
    (ProcessingStartedAt w) v (DeletedAt w).

(** The history slot of tier [k]; tiers outside [0..6] have no slot. *)
Definition getAttempt (k : Z) (h : RetryHistory) : option RetryAttempt :=
  match k with
  | 0 => Some (Retry0 h)
  | 1 => Some (Retry1 h)
  | 2 => Some (Retry2 h)
  | 3 => Some (Retry3 h)
  | 4 => Some (Retry4 h)
  | 5 => Some (Retry5 h)
  | 6 => Some (Retry6 h)
  | _ => None
  end.

Definition setAttempt (k : Z) (a : RetryAttempt) (h : RetryHistory) : RetryHistory :=
  match k with
  | 0 => mkRetryHistory a (Retry1 h) (Retry2 h) (Retry3 h) (Retry4 h) (Retry5 h) (Retry6 h)
  | 1 => mkRetryHistory (Retry0 h) a (Retry2 h) (Retry3 h) (Retry4 h) (Retry5 h) (Retry6 h)
  | 2 => mkRetryHistory (Retry0 h) (Retry1 h) a (Retry3 h) (Retry4 h) (Retry5 h) (Retry6 h)
  | 3 => mkRetryHistory (Retry0 h) (Retry1 h) (Retry2 h) a (Retry4 h) (Retry5 h) (Retry6 h)
  | 4 => mkRetryHistory (Retry0 h) (Retry1 h) (Retry2 h) (Retry3 h) a (Retry5 h) (Retry6 h)
  | 5 => mkRetryHistory (Retry0 h) (Retry1 h) (Retry2 h) (Retry3 h) (Retry4 h) a (Retry6 h)
  | 6 => mkRetryHistory (Retry0 h) (Retry1 h) (Retry2 h) (Retry3 h) (Retry4 h) (Retry5 h) a
  | _ => h
  end.

(** Apply [f] to the slot of tier [k] of a row. *)
Definition updAttempt (k : Z) (f : RetryAttempt -> RetryAttempt) (w : WebhookQueue)
  : WebhookQueue :=
  match getAttempt k (Retries w) with
  | Some a => set_Retries (setAttempt k (f a) (Retries w)) w
  | None => w
  end.

(** ** internal/infrastructure/models, and the GORM calls the repository makes *)

Definition error := option string.

(** The database: the rows of [webhook_queue] and the next value of the
    [BIGSERIAL] sequence behind [id]. *)
Record DB : Type := mkDB {
  webhook_queue : list WebhookQueue;
  id_seq : Z
}.

Definition set_rows (rows : list WebhookQueue) (db : DB) : DB :=
  mkDB rows (id_seq db).

(** One entry of the [map[string]interface{}] given to [Updates]: a column of
    [webhook_queue] and the value written to it. *)
Inductive Assignment : Type :=
| col_status (v : enums.WebhookStatus)
| col_updated_at (v : time_Time)
| col_last_http_status (v : Z)
| col_last_error (v : string)
| col_processing_started_at (v : time_Time)
| col_completed_at (v : time_Time)
| col_retry_started_at (k : Z) (v : time_Time)
| col_retry_completed_at (k : Z) (v : time_Time)
| col_retry_duration_ms (k : Z) (v : Z)
| col_retry_http_status (k : Z) (v : Z)
| col_retry_response_body (k : Z) (v : string)
| col_retry_error (k : Z) (v : string).

Definition assign (a : Assignment) (w : WebhookQueue) : WebhookQueue :=
  match a with
  | col_status v => set_Status v w
  | col_updated_at v => set_UpdatedAt v w
  | col_last_http_status v => set_LastHTTPStatus v w
  | col_last_error v => set_LastError v w
  | col_processing_started_at v => set_ProcessingStartedAt (Some v) w
  | col_completed_at v => set_CompletedAt (Some v) w
  | col_retry_started_at k v =>
      updAttempt k (fun a => mkRetryAttempt (Some v) (RetryCompletedAt a)
        (RetryDurationMs a) (RetryHTTPStatus a) (RetryResponseBody a) (RetryError a)) w
  | col_retry_completed_at k v =>
      updAttempt k (fun a => mkRetryAttempt (RetryStartedAt a) (Some v)
        (RetryDurationMs a) (RetryHTTPStatus a) (RetryResponseBody a) (RetryError a)) w
  | col_retry_duration_ms k v =>
      updAttempt k (fun a => mkRetryAttempt (RetryStartedAt a) (RetryCompletedAt a)
        (Some v) (RetryHTTPStatus a) (RetryResponseBody a) (RetryError a)) w
  | col_retry_http_status k v =>
      updAttempt k (fun a => mkRetryAttempt (RetryStartedAt a) (RetryCompletedAt a)
        (RetryDurationMs a) (Some v) (RetryResponseBody a) (RetryError a)) w
  | col_retry_response_body k v =>
      updAttempt k (fun a => mkRetryAttempt (RetryStartedAt a) (RetryCompletedAt a)
        (RetryDurationMs a) (RetryHTTPStatus a) (Some v) (RetryError a)) w
  | col_retry_error k v =>
      updAttempt k (fun a => mkRetryAttempt (RetryStartedAt a) (RetryCompletedAt a)
        (RetryDurationMs a) (RetryHTTPStatus a) (RetryResponseBody a) (Some v)) w
  end.

Definition applyUpdates (updates : list Assignment) (w : WebhookQueue) : WebhookQueue :=
  fold_left (fun w' a => assign a w') updates w.

Module gorm.

(** [db.Model(..).Where("id = ?", id).Updates(updates)]:
    [UPDATE webhook_queue SET ... WHERE id = ?].  A map writes every one of
    its keys, zero values included; no matching row is no error. *)
Definition Updates (id : Z) (updates : list Assignment) (db : DB) : DB :=
  set_rows (map (fun r => if ID r =? id then applyUpdates updates r else r)
                (webhook_queue db)) db.

(** [db.Where("id = ?", id).First(&m)]: [None] is [gorm.ErrRecordNotFound]. *)
Definition FirstByID (id : Z) (db : DB) : option WebhookQueue :=
  find (fun r => ID r =? id) (webhook_queue db).

Definition ErrRecordNotFound : string := "record not found".

(** [ORDER BY next_retry_at ASC] followed by the primary key, which [First]
    appends to the ordering. *)
Definition precedes (a b : WebhookQueue) : bool :=
  (NextRetryAt a <? NextRetryAt b)
  || ((NextRetryAt a =? NextRetryAt b) && (ID a <? ID b)).

(** The first row of a result set under that ordering ([LIMIT 1]). *)
Fixpoint firstOrdered (rows : list WebhookQueue) : option WebhookQueue :=
  match rows with
  | [] => None
  | r :: rest =>
      match firstOrdered rest with
      | None => Some r
      | Some b => if precedes b r then Some b else Some r
      end
  end.

(** [tx.Where(cond).Order("next_retry_at ASC").First(&m)]. *)
Definition FirstWhere (cond : WebhookQueue -> bool) (db : DB) : option WebhookQueue :=
  firstOrdered (filter cond (webhook_queue db)).

(** [BeforeUpdate] of [WebhookQueueModel]: [w.UpdatedAt = time.Now().UTC()]. *)
Definition BeforeUpdate (now : time_Time) (w : WebhookQueue) : WebhookQueue :=
  set_UpdatedAt now w.

(** [db.Save(&m)] of a row read by [First]: the hook runs, then every column
    of the row with [m]'s primary key is written. *)
Definition Save (now : time_Time) (m : WebhookQueue) (db : DB) : DB :=
  let m' := BeforeUpdate now m in
  set_rows (map (fun r => if ID r =? ID m' then m' else r) (webhook_queue db)) db.

(** [BeforeCreate] of [WebhookQueueModel]: a nil [QueueID] gets [uuid.New()]. *)
Definition BeforeCreate (new_uuid : uuid_UUID) (w : WebhookQueue) : WebhookQueue :=
  if N.eqb (QueueID w) uuid_Nil then set_QueueID new_uuid w else w.

(** Column defaults of the model's tags, taken when the field is zero:
    [status] ['PENDING'], [next_retry_at], [created_at] and [updated_at]
    [NOW()] ([retry_count]'s default is its zero). *)
Definition columnDefaults (now : time_Time) (w : WebhookQueue) : WebhookQueue :=
  let w1 := if String.eqb (Status w) "" then set_Status enums.WebhookStatusPending w else w in
  let w2 := if time_IsZero (NextRetryAt w1) then set_NextRetryAt now w1 else w1 in
  let w3 := if time_IsZero (CreatedAt w2) then set_CreatedAt now w2 else w2 in
  if time_IsZero (UpdatedAt w3) then set_UpdatedAt now w3 else w3.

(** [db.Create(&m)]: the hook, the defaults, then the [INSERT].  A zero [ID]
    takes the next value of the sequence.  [id] is the primary key and
    [queue_id] is [UNIQUE]: a value already in the table is refused.  The
    refusal reaches the program as the driver's error, whose text is the
    database's and is written nowhere in the program: [violation] is that
    text, whatever it is.  A refused [INSERT] is a failing call and, like
    every failing call, is taken to leave the database as it was.  (PostgreSQL
    keeps the value it drew from the sequence for a refused row, so that later
    ids skip it; the embedding does not follow the sequence through a refused
    insert, and [CreateWebhookEntry], which draws every id from the sequence
    and every [queue_id] afresh, meets a refusal only on a table that was
    filled by other means.)  The model comes back with the columns the
    database filled in. *)
Definition Create (violation : string) (now : time_Time) (new_uuid : uuid_UUID)
  (m : WebhookQueue) (db : DB) : result (WebhookQueue * DB) :=
  let m1 := columnDefaults now (BeforeCreate new_uuid m) in
  let fromSeq := ID m1 =? 0 in
  let m2 := if fromSeq then set_ID (id_seq db) m1 else m1 in
  let seq' := if fromSeq then id_seq db + 1 else id_seq db in
  if existsb (fun r => (ID r =? ID m2) || N.eqb (QueueID r) (QueueID m2))
             (webhook_queue db)
  then Err violation
  else Ok (m2, mkDB (webhook_queue db ++ [m2]) seq').

End gorm.

(** ** internal/infrastructure/repositories/webhook_queue_repository_impl.go *)

Module WebhookQueueRepository.

(** [entityToModel] and [modelToEntity] copy field by field. *)
Definition entityToModel (webhook : WebhookQueue) : WebhookQueue :=
  mkWebhookQueue (ID webhook) (QueueID webhook) (EventType webhook)
    (EventID webhook) (ConfigID webhook) (WebhookURL webhook) (Status webhook)
    (RetryCount webhook) (NextRetryAt webhook) (Retries webhook)
    (LastError webhook) (LastHTTPStatus webhook) (CreatedAt webhook)
    (UpdatedAt webhook) (ProcessingStartedAt webhook) (CompletedAt webhook)
    (DeletedAt webhook).

Definition modelToEntity (model : WebhookQueue) : WebhookQueue :=
  mkWebhookQueue (ID model) (QueueID model) (EventType model)
    (EventID model) (ConfigID model) (WebhookURL model) (Status model)
    (RetryCount model) (NextRetryAt model) (Retries model)
    (LastError model) (LastHTTPStatus model) (CreatedAt model)
    (UpdatedAt model) (ProcessingStartedAt model) (CompletedAt model)
    (DeletedAt model).

(** [Create]: the entity gets the [ID] and [QueueID] of the inserted model.
    [fault] is a driver error that has nothing to do with the row,
    [violation] the driver's text for a key that is taken. *)
Definition Create (fault : error) (violation : string) (now : time_Time)
  (new_uuid : uuid_UUID) (webhook : WebhookQueue) (db : DB)
  : error * WebhookQueue * DB :=
  let model := entityToModel webhook in
  match fault with
  | Some e => (Some (fmt_Errorf_w "failed to create webhook queue entry" e), webhook, db)
  | None =>
      match gorm.Create violation now new_uuid model db with
      | Err e => (Some (fmt_Errorf_w "failed to create webhook queue entry" e), webhook, db)
      | Ok (model', db') =>
          (None, set_QueueID (QueueID model') (set_ID (ID model') webhook), db')
      end
  end.

(** [mergeWebhookIntoModel]: each guard reads [update] only and each field is
    assigned by one guard, so the sequence of [if]s is one record. *)
Definition mergeWebhookIntoModel (model update : WebhookQueue) : WebhookQueue :=
  let overwritePair :=
    negb (RetryCount update =? 0) || negb (time_IsZero (NextRetryAt update)) in
  mkWebhookQueue
    (ID model)
    (if N.eqb (QueueID update) uuid_Nil then QueueID model else QueueID update)
    (if String.eqb (EventType update) "" then EventType model else EventType update)
    (if String.eqb (EventID update) "" then EventID model else EventID update)
    (if ConfigID update =? 0 then ConfigID model else ConfigID update)
    (if String.eqb (WebhookURL update) "" then WebhookURL model else WebhookURL update)
    (if String.eqb (Status update) "" then Status model else Status update)
    (if overwritePair then RetryCount update else RetryCount model)
    (if overwritePair then NextRetryAt update else NextRetryAt model)
    (Retries model)
    (if String.eqb (LastError update) "" then LastError model else LastError update)
    (if LastHTTPStatus update =? 0 then LastHTTPStatus model else LastHTTPStatus update)
    (CreatedAt model)
    (if time_IsZero (UpdatedAt update) then UpdatedAt model else UpdatedAt update)
    (match ProcessingStartedAt update with
     | Some t => Some t
     | None => ProcessingStartedAt model
     end)
    (match CompletedAt update with
     | Some t => Some t
     | None => CompletedAt model
     end)
    (match DeletedAt update with
     | Some t => Some t
     | None => DeletedAt model
     end).

(** [Update]: read the current row, merge, save.  [firstFault] and
    [saveFault] are the driver errors of the two calls. *)
Definition Update (firstFault saveFault : error) (now : time_Time)
  (webhook : WebhookQueue) (db : DB) : error * DB :=
  let found :=
    match firstFault with
    | Some e => Err e
    | None =>
        match gorm.FirstByID (ID webhook) db with
        | None => Err gorm.ErrRecordNotFound
        | Some m => Ok m
        end
    end in
  match found with
  | Err e => (Some (fmt_Errorf_w "failed to get current webhook state" e), db)
  | Ok currentModel =>
      let merged := mergeWebhookIntoModel currentModel webhook in
      match saveFault with
      | Some e => (Some (fmt_Errorf_w "failed to update webhook queue entry" e), db)
      | None => (None, gorm.Save now merged db)
      end
  end.

(** The driver errors of the four calls of the claim transaction. *)
Record ClaimFaults : Type := mkClaimFaults {
  beginFault : error;
  selectFault : error;
  updateFault : error;
  commitFault : error
}.

Definition noClaimFaults : ClaimFaults := mkClaimFaults None None None None.

(** The [WHERE] clause of the claim. *)
Definition eligible (retryLevel : Z) (now : time_Time) (r : WebhookQueue) : bool :=
  String.eqb (Status r) enums.WebhookStatusPending
  && (RetryCount r =? retryLevel)
  && (NextRetryAt r <=? now).

Definition retryLevelError (what : string) (retryLevel : Z) (e : string) : string :=
  fmt_Errorf_w (what ++ " for retry level " ++ fmt_d retryLevel) e.

(** [GetNextWebhookForProcessing]: the transaction is rolled back on every
    error return, so those leave the table as it was. *)
Definition GetNextWebhookForProcessing (faults : ClaimFaults) (now : time_Time)
  (retryLevel : Z) (db : DB) : option WebhookQueue * error * DB :=
  match beginFault faults with
  | Some e => (None, Some (fmt_Errorf_w "failed to start transaction" e), db)
  | None =>
      match selectFault faults with
      | Some e =>
          (None, Some (retryLevelError "failed to get next webhook" retryLevel e), db)
      | None =>
          match gorm.FirstWhere (eligible retryLevel now) db with
          | None => (None, None, db)
          | Some model =>
              let updates := [col_status enums.WebhookStatusProcessing;
                              col_updated_at now] in
              match updateFault faults with
              | Some e =>
                  (None, Some (retryLevelError "failed to update webhook status" retryLevel e), db)
              | None =>
                  match commitFault faults with
                  | Some e =>
                      (None, Some (retryLevelError "failed to commit transaction" retryLevel e), db)
                  | None =>
                      let db' := gorm.Updates (ID model) updates db in
                      let model1 := set_Status enums.WebhookStatusProcessing model in
                      let model2 := set_UpdatedAt now model1 in
                      (Some (modelToEntity model2), None, db')
                  end
              end
          end
      end
  end.

(** The assignments of one [case] of the [switch] in [UpdateRetryAttempt]. *)
Definition attemptUpdates (k : Z) (startedAt : time_Time)
  (completedAt : option time_Time) (durationMs httpStatus : Z)
  (responseBody errorMsg : string) : list Assignment :=
  [col_retry_started_at k startedAt]
  ++ match completedAt with
     | Some c => [col_retry_completed_at k c]
     | None => []
     end
  ++ [col_retry_duration_ms k durationMs;
      col_retry_http_status k httpStatus;
      col_retry_response_body k responseBody]
  ++ (if String.eqb errorMsg "" then [] else [col_retry_error k errorMsg]).

(** The [updates] map [UpdateRetryAttempt] builds. *)
Definition retryAttemptUpdates (now : time_Time) (retryLevel : Z)
  (startedAt : time_Time) (completedAt : option time_Time)
  (durationMs httpStatus : Z) (responseBody errorMsg : string) : list Assignment :=
  let slot k :=
    attemptUpdates k startedAt completedAt durationMs httpStatus responseBody errorMsg in
  [col_updated_at now; col_last_http_status httpStatus]
  ++ (if String.eqb errorMsg "" then [] else [col_last_error errorMsg])
  ++ match retryLevel with
     | 0 => slot 0
     | 1 => slot 1
     | 2 => slot 2
     | 3 => slot 3
     | 4 => slot 4
     | 5 => slot 5
     | 6 => slot 6
     | _ => []
     end.

Definition UpdateRetryAttempt (fault : error) (now : time_Time) (webhookID retryLevel : Z)
  (startedAt : time_Time) (completedAt : option time_Time)
  (durationMs httpStatus : Z) (responseBody errorMsg : string) (db : DB)
  : error * DB :=
  let updates := retryAttemptUpdates now retryLevel startedAt completedAt
                   durationMs httpStatus responseBody errorMsg in
  match fault with
  | Some e => (Some (fmt_Errorf_w "failed to update retry attempt" e), db)
  | None => (None, gorm.Updates webhookID updates db)
  end.

Definition MarkCompleted (fault : error) (now : time_Time) (webhookID : Z)
  (processingStartedAt : time_Time) (db : DB) : error * DB :=
  match fault with
  | Some e => (Some (fmt_Errorf_w "failed to mark webhook as completed" e), db)
  | None =>
      (None, gorm.Updates webhookID
               [col_status enums.WebhookStatusCompleted;
                col_processing_started_at processingStartedAt;
                col_completed_at now;
                col_updated_at now] db)
  end.

Definition MarkFailed (fault : error) (now : time_Time) (webhookID : Z)
  (errorMsg : string) (db : DB) : error * DB :=
  match fault with
  | Some e => (Some (fmt_Errorf_w "failed to mark webhook as failed" e), db)
  | None =>
      (None, gorm.Updates webhookID
               [col_status enums.WebhookStatusFailed;
                col_last_error errorMsg;
                col_updated_at now] db)
  end.

End WebhookQueueRepository.

(** ** internal/domain/services and internal/domain/entities/webhook_config.go *)

(** [services.WebhookResponse]. *)
Record WebhookResponse : Type := mkWebhookResponse {
  StatusCode : Z;
  Body : string;
  Duration : time_Duration;
  Error : error
}.

(** What [SendWebhook] returns: the response pointer (possibly nil) and the
    error. *)
Definition SendResult : Type := option WebhookResponse * error.

Module WebhookConfig.

Record t : Type := mk {
  ID : Z;
  Name : string;
  EventType : enums.EventType;
  WebhookURL : string;
  IsActive : bool;
  TimeoutMs : Z
}.

End WebhookConfig.

(** ** internal/application/usecases/webhook_processor.go *)

Module WebhookProcessor.

(** The readings of [time.Now()] during one [ProcessWebhook], in the order
    of the source. *)
Record Clock : Type := mkClock {
  attemptStartTime : time_Time;  (* before [SendWebhook] *)
  attemptEndTime : time_Time;    (* after [SendWebhook] *)
  recordNow : time_Time;         (* in [UpdateRetryAttempt] *)
  backoffNow : time_Time;        (* in [calculateNextRetryTime] *)
  updatedNow : time_Time;        (* [webhook.UpdatedAt = time.Now().UTC()] *)
  writeNow : time_Time           (* in [MarkCompleted], [MarkFailed], or the save of [Update] *)
}.

(** The driver errors of the database calls of one [ProcessWebhook]:
    [UpdateRetryAttempt], the read of [Update], and the final write
    ([MarkCompleted], the save of [Update], or [MarkFailed]). *)
Record Faults : Type := mkFaults {
  recordFault : error;
  readFault : error;
  writeFault : error
}.

Definition noFaults : Faults := mkFaults None None None.

Definition isSuccessfulResponse (statusCode : Z) : bool :=
  (200 <=? statusCode) && (statusCode <? 300).

(** The [switch] of [calculateNextRetryTime]. *)
Definition baseDelay (retryCount : Z) : time_Duration :=
  match retryCount with
  | 0 => 1 * time_Minute
  | 1 => 5 * time_Minute
  | 2 => 10 * time_Minute
  | 3 => 30 * time_Minute
  | 4 => 60 * time_Minute
  | 5 => 120 * time_Minute
  | _ => 4 * time_Hour
  end.

(** [time.Duration(x)] of a [float64]: the fraction is dropped. *)
Definition Duration_of_float (x : Q) : time_Duration :=
  if Qle_bool 0 x then Qfloor x else Qceiling x.

Section Processor.

(** [float64] arithmetic is arithmetic on rationals followed by a rounding to
    the nearest representable number; [float64] is that rounding.
    [http_StatusText] is [net/http]'s table of reason phrases. *)
Variable float64 : Q -> Q.
Variable http_StatusText : Z -> string.

(** [finalDelay] of [calculateNextRetryTime]; [sample] is what
    [rand.Float64()] returned. *)
Definition finalDelay (retryCount : Z) (sample : Q) : time_Duration :=
  let base := baseDelay retryCount in
  let jitterRange := float64 (float64 (inject_Z base) * 0.25%Q) in
  let jitter :=
    Duration_of_float
      (float64 (float64 (float64 (sample * jitterRange) * 2) - jitterRange)) in
  let final := base + jitter in
  if final <? time_Minute then time_Minute else final.

Definition calculateNextRetryTime (now : time_Time) (sample : Q) (retryCount : Z)
  : time_Time :=
  time_Add now (finalDelay retryCount sample).

(** [CreateWebhookEntry]; [lookup] is what [webhookConfigRepo.GetByID]
    returned, [n1], [n2], [n3] the three readings of the clock, [fault] and
    [violation] the driver errors of the insert. *)
Definition CreateWebhookEntry (lookup : option WebhookConfig.t * error)
  (fault : error) (violation : string) (n1 n2 n3 createNow : time_Time)
  (new_uuid : uuid_UUID)
  (eventType : enums.EventType) (eventID : string) (configID : Z) (db : DB)
  : error * DB :=
  match lookup with
  | (_, Some e) => (Some (fmt_Errorf_w "failed to get webhook config" e), db)
  | (None, None) => (Some ("webhook config not found: " ++ fmt_d configID), db)
  | (Some config, None) =>
      if negb (WebhookConfig.IsActive config)
      then (Some ("webhook config is not active: " ++ fmt_d configID), db)
      else
        let webhook :=
          mkWebhookQueue 0 uuid_Nil eventType eventID configID
            (WebhookConfig.WebhookURL config) enums.WebhookStatusPending 0 n1
            emptyHistory "" 0 n2 n3 None None None in
        match WebhookQueueRepository.Create fault violation createNow new_uuid
                webhook db with
        | (Some e, _, db') =>
            (Some (fmt_Errorf_w "failed to create webhook queue entry" e), db')
        | (None, _, db') => (None, db')
        end
  end.

(** The locals [httpStatus], [responseBody] and [errorMsg] of
    [ProcessWebhook], the test of its success branch, and [finalErrorMsg];
    [send] is what [SendWebhook] returned. *)
Definition httpStatusOf (send : SendResult) : Z :=
  match fst send with
  | Some r => StatusCode r
  | None => 0
  end.

Definition responseBodyOf (send : SendResult) : string :=
  match fst send with
  | Some r => Body r
  | None => ""
  end.

Definition errorMsgOf (send : SendResult) : string :=
  match snd send, fst send with
  | Some e, _ => e
  | None, Some r =>
      if negb (isSuccessfulResponse (StatusCode r))
      then "HTTP " ++ fmt_d (StatusCode r) ++ ": " ++ http_StatusText (StatusCode r)
      else ""
  | None, None => ""
  end.

Definition succeeded (send : SendResult) : bool :=
  match snd send, fst send with
  | None, Some r => isSuccessfulResponse (StatusCode r)
  | _, _ => false
  end.

Definition finalErrorMsgOf (send : SendResult) : string :=
  match snd send, fst send with
  | Some e, _ => "max retries exceeded: " ++ e
  | None, Some r => "max retries exceeded: HTTP " ++ fmt_d (StatusCode r)
  | None, None => "max retries exceeded"
  end.

(** The entity after [webhook.LastHTTPStatus = httpStatus] and the guarded
    [webhook.LastError = errorMsg]. *)
Definition withLastStatus (send : SendResult) (webhook : WebhookQueue) : WebhookQueue :=
  let webhook1 := set_LastHTTPStatus (httpStatusOf send) webhook in
  if String.eqb (errorMsgOf send) "" then webhook1
  else set_LastError (errorMsgOf send) webhook1.

(** The entity as the retry branch leaves it. *)
Definition rescheduled (clk : Clock) (sample : Q) (webhook : WebhookQueue)
  : WebhookQueue :=
  let nextRetryAt :=
    calculateNextRetryTime (backoffNow clk) sample (RetryCount webhook) in
  set_UpdatedAt (updatedNow clk)
    (set_Status enums.WebhookStatusPending
       (set_NextRetryAt nextRetryAt
          (set_RetryCount (RetryCount webhook + 1) webhook))).

(** [ProcessWebhook].  The entity is passed by pointer in the source and is
    returned here as the call leaves it. *)
Definition ProcessWebhook (send : SendResult) (clk : Clock) (flt : Faults)
  (sample : Q) (webhook : WebhookQueue) (db : DB) : error * WebhookQueue * DB :=
  let durationMs :=
    time_Milliseconds (time_Sub (attemptEndTime clk) (attemptStartTime clk)) in
  let db1 :=
    snd (WebhookQueueRepository.UpdateRetryAttempt (recordFault flt) (recordNow clk)
           (ID webhook) (RetryCount webhook) (attemptStartTime clk)
           (Some (attemptEndTime clk)) durationMs (httpStatusOf send)
           (responseBodyOf send) (errorMsgOf send) db) in
  let webhook2 := withLastStatus send webhook in
  if succeeded send then
    let '(e, db2) :=
      WebhookQueueRepository.MarkCompleted (writeFault flt) (writeNow clk)
        (ID webhook2) (attemptStartTime clk) db1 in
    (e, webhook2, db2)
  else if CanRetry webhook2 then
    let webhook3 := rescheduled clk sample webhook2 in
    let '(e, db2) :=
      WebhookQueueRepository.Update (readFault flt) (writeFault flt) (writeNow clk)
        webhook3 db1 in
    (e, webhook3, db2)
  else
    let '(e, db2) :=
      WebhookQueueRepository.MarkFailed (writeFault flt) (writeNow clk)
        (ID webhook2) (finalErrorMsgOf send) db1 in
    (e, webhook2, db2).

End Processor.

(** [GetNextWebhookForProcessing] hands the call to the repository. *)
Definition GetNextWebhookForProcessing
  (faults : WebhookQueueRepository.ClaimFaults) (now : time_Time)
  (retryLevel : Z) (db : DB) : option WebhookQueue * error * DB :=
  WebhookQueueRepository.GetNextWebhookForProcessing faults now retryLevel db.

(** [ResetWebhookToPending]. *)
Definition ResetWebhookToPending (readFault' saveFault : error)
  (now saveNow : time_Time) (webhook : WebhookQueue) (db : DB)
  : error * WebhookQueue * DB :=
  let webhook' := set_UpdatedAt now (set_Status enums.WebhookStatusPending webhook) in
  let '(e, db') :=
    WebhookQueueRepository.Update readFault' saveFault saveNow webhook' db in
  (e, webhook', db').

End WebhookProcessor.

(** ** internal/application/workers/webhook_worker.go *)

Module WebhookWorker.

(** The worker: its tier, its period, whether it runs, and whether its
    context has been cancelled.  The [id] is a label for the log. *)
Record t : Type := mk {
  id : string;
  retryLevel : Z;
  pollInterval : time_Duration;
  cancelled : bool;
  running : bool
}.

(** [NewWebhookWorker]; [uuid8] is the first eight characters of
    [uuid.New().String()]. *)
Definition NewWebhookWorker (uuid8 : string) (retryLevel' : Z)
  (pollInterval' : time_Duration) : t :=
  mk ("retry-" ++ fmt_d retryLevel' ++ "-" ++ uuid8) retryLevel' pollInterval'
     false false.

Definition Start (w : t) : error * t :=
  if running w
  then (Some ("worker " ++ id w ++ " is already running"), w)
  else (None, mk (id w) (retryLevel w) (pollInterval w) (cancelled w) true).

(** [Stop]: cancel the context, wait for the loop, clear the flag. *)
Definition Stop (w : t) : error * t :=
  if negb (running w)
  then (Some ("worker " ++ id w ++ " is not running"), w)
  else (None, mk (id w) (retryLevel w) (pollInterval w) true false).

(** What the environment hands to one tick of a worker: clock readings,
    driver errors, the answer of the endpoint and the jitter sample. *)
Record Tick : Type := mkTick {
  claimFaults : WebhookQueueRepository.ClaimFaults;
  claimNow : time_Time;
  send : WebhookQueue -> SendResult;
  clock : WebhookProcessor.Clock;
  faults : WebhookProcessor.Faults;
  sample : Q;
  resetReadFault : error;
  resetSaveFault : error;
  resetNow : time_Time;
  resetSaveNow : time_Time
}.

Section Worker.

Variable float64 : Q -> Q.
Variable http_StatusText : Z -> string.

(** [processNextWebhook], without its metrics: claim one row of the tier,
    process it, and put it back to pending when processing reports an error. *)
Definition processNextWebhook (w : t) (env : Tick) (db : DB) : DB :=
  match WebhookProcessor.GetNextWebhookForProcessing
          (claimFaults env) (claimNow env) (retryLevel w) db with
  | (_, Some _, db1) => db1
  | (None, None, db1) => db1
  | (Some webhook, None, db1) =>
      match WebhookProcessor.ProcessWebhook float64 http_StatusText
              (send env webhook) (clock env) (faults env) (sample env) webhook db1 with
      | (Some _, webhook', db2) =>
          let '(_, _, db3) :=
            WebhookProcessor.ResetWebhookToPending (resetReadFault env)
              (resetSaveFault env) (resetNow env) (resetSaveNow env) webhook' db2 in
          db3
      | (None, _, db2) => db2
      end
  end.

End Worker.

End WebhookWorker.

(** ** internal/application/workers/worker_pool.go *)

Module WorkerPool.

(** [config.WorkerConfig]. *)
Record WorkerConfig : Type := mkWorkerConfig {
  RetryLevel : Z;
  PollInterval : time_Duration;
  Description : string
}.

(** The workers live on the Go heap and the pool holds pointers to them: the
    heap is the list of the workers allocated so far, a pointer is a position
    in it. *)
Definition Heap : Type := list WebhookWorker.t.

Definition alloc (h : Heap) (w : WebhookWorker.t) : nat * Heap :=
  (List.length h, (h ++ [w])%list).

Fixpoint write (h : Heap) (p : nat) (w : WebhookWorker.t) : Heap :=
  match h, p with
  | [], _ => []
  | _ :: rest, O => w :: rest
  | x :: rest, S p' => x :: write rest p' w
  end.

Record t : Type := mk {
  workers : list nat;
  config : list WorkerConfig;
  running : bool
}.

(** [NewWorkerPool]. *)
Definition NewWorkerPool (config' : list WorkerConfig) : t := mk [] config' false.

(** One goroutine of [stopWorkers]: [w.Stop()], its error only logged. *)
Definition stopWorker (h : Heap) (p : nat) : Heap :=
  match nth_error h p with
  | Some w => write h p (snd (WebhookWorker.Stop w))
  | None => h
  end.

(** [stopWorkers]: every worker of the slice is stopped (each goroutine
    touches its own worker, and all are awaited), then the slice is cleared. *)
Definition stopWorkers (h : Heap) (wp : t) : Heap * t :=
  (fold_left stopWorker (workers wp) h, mk [] (config wp) (running wp)).

Section Pool.

(** The worker the loop of [Start] builds for a roster entry.  The source
    calls [NewWebhookWorker], whose workers are not running; the constructor
    is a parameter so that the branch of a failing [worker.Start()] can run. *)
Variable newWorker : WorkerConfig -> WebhookWorker.t.

(** The [for] loop of [Start]. *)
Fixpoint startLoop (cfgs : list WorkerConfig) (h : Heap) (wp : t) : error * Heap * t :=
  match cfgs with
  | [] => (None, h, wp)
  | workerConfig :: rest =>
      let '(p, h1) := alloc h (newWorker workerConfig) in
      match WebhookWorker.Start (newWorker workerConfig) with
      | (Some e, _) =>
          let '(h2, wp2) := stopWorkers h1 wp in
          (Some (fmt_Errorf_w ("failed to start worker for level "
                               ++ fmt_d (RetryLevel workerConfig)) e), h2, wp2)
      | (None, worker) =>
          startLoop rest (write h1 p worker)
                    (mk (workers wp ++ [p])%list (config wp) (running wp))
      end
  end.

Definition Start (h : Heap) (wp : t) : error * Heap * t :=
  if running wp
  then (Some "worker pool is already running", h, wp)
  else
    match startLoop (config wp) h wp with
    | (Some e, h', wp') => (Some e, h', wp')
    | (None, h', wp') => (None, h', mk (workers wp') (config wp') true)
    end.

End Pool.

Definition Stop (h : Heap) (wp : t) : error * Heap * t :=
  if negb (running wp)
  then (Some "worker pool is not running", h, wp)
  else
    let '(h', wp') := stopWorkers h wp in
    (None, h', mk (workers wp') (config wp') false).

(** The constructor of the source: [uuid8 cfg] is the identifier drawn for
    the roster entry [cfg]. *)
Definition sourceWorker (uuid8 : WorkerConfig -> string) (cfg : WorkerConfig)
  : WebhookWorker.t :=
  WebhookWorker.NewWebhookWorker (uuid8 cfg) (RetryLevel cfg) (PollInterval cfg).


End WorkerPool.

(** ** The system as a transition relation

    The table changes by worker ticks and by accepted intake requests. *)

Section System.

Variable float64 : Q -> Q.
Variable http_StatusText : Z -> string.

Inductive step : DB -> DB -> Prop :=
| step_tick (w : WebhookWorker.t) (env : WebhookWorker.Tick) (db : DB) :
    step db (WebhookWorker.processNextWebhook float64 http_StatusText w env db)
| step_intake (lookup : option WebhookConfig.t * error) (fault : error)
    (violation : string) (n1 n2 n3 createNow : time_Time) (new_uuid : uuid_UUID)
    (eventType : enums.EventType) (eventID : string) (configID : Z) (db : DB) :
    step db (snd (WebhookProcessor.CreateWebhookEntry lookup fault violation
                    n1 n2 n3 createNow new_uuid eventType eventID configID db)).

Definition steps : DB -> DB -> Prop := clos_refl_trans_1n DB step.

End System.

(** [id] is the primary key. *)
Definition primaryKey (db : DB) : Prop := NoDup (map ID (webhook_queue db)).

(** Every [retry_count] is within [0, MaxRetryAttempts]. *)
Definition retryCountsBounded (db : DB) : Prop :=
  forall r, In r (webhook_queue db) -> 0 <= RetryCount r <= enums.MaxRetryAttempts.

(** Every row of [db] is still in [db'], with a [retry_count] that is not
    smaller. *)
Definition retryCountsAdvance (db db' : DB) : Prop :=
  forall id r, gorm.FirstByID id db = Some r ->
    exists r', gorm.FirstByID id db' = Some r' /\ RetryCount r <= RetryCount r'.


(** ** Sample data

    A freshly accepted delivery, and small tables built from it; the
    instances below are run on them. *)

Definition sampleRow (id : Z) (status : enums.WebhookStatus) (retryCount : Z)
  (nextRetryAt : time_Time) : WebhookQueue :=
  mkWebhookQueue id (Z.to_N id) enums.EventTypeCredit "e1" 1
    "https://example.com/hook" status retryCount nextRetryAt emptyHistory
    "" 0 100 100 None None None.

(** Three rows: tier 0 eligible at 100, tier 0 eligible at 90, tier 1. *)
Definition sampleDB : DB :=
  mkDB [sampleRow 1 enums.WebhookStatusPending 0 100;
        sampleRow 2 enums.WebhookStatusPending 0 90;
        sampleRow 3 enums.WebhookStatusPending 1 50] 4.

(** The row the claim of tier 0 at time 200 returns on [sampleDB], and the
    table it leaves. *)
Definition sampleClaimed : WebhookQueue :=
  set_UpdatedAt 200 (sampleRow 2 enums.WebhookStatusProcessing 0 90).

Definition sampleClaimedDB : DB :=
  mkDB [sampleRow 1 enums.WebhookStatusPending 0 100;
        sampleClaimed;
        sampleRow 3 enums.WebhookStatusPending 1 50] 4.

(** A row claimed for its last attempt, tier 6. *)
Definition sampleLast : WebhookQueue :=
  set_LastError "HTTP 503: Service Unavailable"
    (sampleRow 7 enums.WebhookStatusProcessing 6 90).

Definition sampleLastDB : DB := mkDB [sampleLast] 8.

(** Exact arithmetic in place of [float64]: a rounding that rounds nothing. *)
Definition exactFloat64 (x : Q) : Q := x.

(** A few lines of [http.StatusText]; unknown codes give the empty string. *)
Definition sampleStatusText (code : Z) : string :=
  match code with
  | 200 => "OK"
  | 404 => "Not Found"
  | 500 => "Internal Server Error"
  | 503 => "Service Unavailable"
  | _ => ""
  end.

Definition sampleClock : WebhookProcessor.Clock :=
  WebhookProcessor.mkClock 210 220 221 222 223 224.

(** Three answers of the endpoint: a 200, a 503, and a refused connection. *)
Definition send200 : SendResult :=
  (Some (mkWebhookResponse 200 "ok" 10 None), None).

Definition send503 : SendResult :=
  (Some (mkWebhookResponse 503 "busy" 10 None), None).

Definition sendRefused : SendResult :=
  (Some (mkWebhookResponse 0 "" 10 (Some "connection refused")),
   Some "failed to send webhook request: connection refused").

(** A stored row at tier 3, and three update entities for it: one with a
    zero [RetryCount] and a set [NextRetryAt], one with a set [RetryCount] and
    a zero [NextRetryAt], and one with another [CreatedAt] and a tier-0
    history. *)
Definition sampleStored : WebhookQueue :=
  sampleRow 5 enums.WebhookStatusProcessing 3 90.

Definition sampleStoredDB : DB := mkDB [sampleStored] 6.

Definition blankUpdate (id : Z) : WebhookQueue :=
  mkWebhookQueue id uuid_Nil "" "" 0 "" "" 0 0 emptyHistory "" 0 0 0
    None None None.

Definition updateZeroCount : WebhookQueue :=
  set_NextRetryAt 500 (blankUpdate 5).

Definition updateZeroTime : WebhookQueue :=
  set_RetryCount 4 (blankUpdate 5).

Definition updateCreatedAt : WebhookQueue :=
  set_Retries
    (setAttempt 0 (mkRetryAttempt (Some 1) (Some 2) (Some 3) (Some 200)
                     (Some "ok") None) emptyHistory)
    (set_CreatedAt 777 (blankUpdate 5)).

(** The entity [CreateWebhookEntry] builds at time 100, and an empty table. *)
Definition freshEntity : WebhookQueue :=
  mkWebhookQueue 0 uuid_Nil enums.EventTypeCredit "e1" 1
    "https://example.com/hook" enums.WebhookStatusPending 0 100 emptyHistory
    "" 0 100 100 None None None.

Definition emptyDB : DB := mkDB [] 1.

(** A table whose only eligible tier-0 row is due later than [freshEntity]. *)
Definition sampleLaterDB : DB :=
  mkDB [sampleRow 1 enums.WebhookStatusPending 0 150;
        sampleRow 3 enums.WebhookStatusPending 1 50] 4.

(** A roster of four workers, and a constructor that hands out a worker
    already running for tier 2 (the source's constructor never does). *)
Definition sampleRoster : list WorkerPool.WorkerConfig :=
  [WorkerPool.mkWorkerConfig 0 (5 * time_Second) "immediate";
   WorkerPool.mkWorkerConfig 1 (30 * time_Second) "first retry";
   WorkerPool.mkWorkerConfig 2 (2 * time_Minute) "second retry";
   WorkerPool.mkWorkerConfig 3 (5 * time_Minute) "third retry"].

Definition sampleUUID8 (cfg : WorkerPool.WorkerConfig) : string := "0a1b2c3d".

Definition startedElsewhere (cfg : WorkerPool.WorkerConfig) : WebhookWorker.t :=
  let w := WorkerPool.sourceWorker sampleUUID8 cfg in
  if WorkerPool.RetryLevel cfg =? 2
  then WebhookWorker.mk (WebhookWorker.id w) (WebhookWorker.retryLevel w)
         (WebhookWorker.pollInterval w) false true
  else w.

(** A tier-0 worker and a tier-6 worker; a tick whose endpoint answers 503
    and whose storage works; a tick whose endpoint refuses the connection and
    whose final write fails. *)
Definition sampleWorker0 : WebhookWorker.t :=
  WebhookWorker.mk "retry-0-0a1b2c3d" 0 (5 * time_Second) false true.

Definition sampleWorker6 : WebhookWorker.t :=
  WebhookWorker.mk "retry-6-0a1b2c3d" 6 (60 * time_Minute) false true.

Definition sampleTick503 : WebhookWorker.Tick :=
  WebhookWorker.mkTick WebhookQueueRepository.noClaimFaults 200
    (fun _ => send503) sampleClock WebhookProcessor.noFaults (1 # 2)
    None None 230 231.

Definition sampleTickLostWrite : WebhookWorker.Tick :=
  WebhookWorker.mkTick WebhookQueueRepository.noClaimFaults 200
    (fun _ => sendRefused) sampleClock
    (WebhookProcessor.mkFaults None None (Some "connection lost")) (1 # 2)
    None None 230 231.

(** A table with one row due for its last attempt. *)
Definition sampleDueLastDB : DB :=
  mkDB [sampleRow 7 enums.WebhookStatusPending 6 90] 8.

(** ** Frames

    [touchesOnly id db db']: the two tables have the same rows in the same
    places under the same ids, and only rows with id [id] may differ; the id
    sequence is the same. *)
Definition touchesOnly (id : Z) (db db' : DB) : Prop :=
  id_seq db' = id_seq db
  /\ Forall2 (fun r r' => ID r' = ID r /\ (ID r <> id -> r' = r))
       (webhook_queue db) (webhook_queue db').

(** Every history slot of a tier above the row's retry count is empty. *)
Definition laterSlotsEmpty (db : DB) : Prop :=
  forall r j a,
    In r (webhook_queue db) -> RetryCount r < j ->
    getAttempt j (Retries r) = Some a -> a = emptyAttempt.

(** ** internal/domain/enums/event_type.go *)

Module event_type.

Definition IsValid (e : enums.EventType) : bool :=
  String.eqb e enums.EventTypeCredit || String.eqb e enums.EventTypeDebit.

(** [Validate]: the message is
    [invalid event type: <e> (must be one of: CREDIT, DEBIT)]. *)
Definition Validate (e : enums.EventType) : error :=
  if negb (IsValid e)
  then Some ("invalid event type: " ++ e ++ " (must be one of: "
             ++ enums.EventTypeCredit ++ ", " ++ enums.EventTypeDebit ++ ")")
  else None.

End event_type.

(** ** internal/infrastructure/models: [WebhookConfigModel], and
    internal/domain/entities/webhook_config.go with all its fields *)

Module WebhookConfigModel.

Record t : Type := mk {
  ID : Z;
  Name : string;
  EventType : enums.EventType;
  WebhookURL : string;
  IsActive : bool;
  TimeoutMs : Z;
  CreatedAt : time_Time;
  UpdatedAt : time_Time;
  DeletedAt : option time_Time
}.

End WebhookConfigModel.

Module WebhookConfigEntity.

Record t : Type := mk {
  ID : Z;
  Name : string;
  EventType : enums.EventType;
  WebhookURL : string;
  IsActive : bool;
  TimeoutMs : Z;
  CreatedAt : time_Time;
  UpdatedAt : time_Time
}.

(** The entity as [CreateWebhookEntry] takes it: the processor reads nothing
    of the two timestamps. *)
Definition withoutTimestamps (c : t) : WebhookConfig.t :=
  WebhookConfig.mk (ID c) (Name c) (EventType c) (WebhookURL c) (IsActive c)
    (TimeoutMs c).

End WebhookConfigEntity.

(** ** internal/infrastructure/repositories/webhook_config_repository_impl.go *)

Module WebhookConfigRepository.

Definition modelToEntity (model : WebhookConfigModel.t) : WebhookConfigEntity.t :=
  WebhookConfigEntity.mk (WebhookConfigModel.ID model)
    (WebhookConfigModel.Name model) (WebhookConfigModel.EventType model)
    (WebhookConfigModel.WebhookURL model) (WebhookConfigModel.IsActive model)
    (WebhookConfigModel.TimeoutMs model) (WebhookConfigModel.CreatedAt model)
    (WebhookConfigModel.UpdatedAt model).

(** [GetByID]: [db.First(&model, id)] on the table [webhook_configs].
    [deleted_at] is a plain nullable column of the model, so the query does
    not look at it.  A missing row is [(nil, nil)]; [fault] is the driver
    error of the query. *)
Definition GetByID (fault : error) (id : Z) (webhook_configs : list WebhookConfigModel.t)
  : option WebhookConfigEntity.t * error :=
  match fault with
  | Some e => (None, Some (fmt_Errorf_w "failed to get webhook config by ID" e))
  | None =>
      match find (fun m => WebhookConfigModel.ID m =? id) webhook_configs with
      | None => (None, None)
      | Some model => (Some (modelToEntity model), None)
      end
  end.

End WebhookConfigRepository.

(** ** internal/infrastructure/services/webhook_service_impl.go *)

Module WebhookService.

(** What the network does with the one [GET] that [SendWebhook] issues:
    [http.NewRequestWithContext] refuses the URL, [httpClient.Do] fails, the
    body cannot be read, or status and body arrive. *)
Inductive Exchange : Type :=
| requestRefused (e : string)
| transportFailed (e : string)
| bodyUnreadable (statusCode : Z) (e : string)
| answered (statusCode : Z) (body : string).

(** [SendWebhook]: [net] answers for a URL; [startTime] is the first reading
    of the clock and [now] the reading of the one [time.Since] the call
    makes. *)
Definition SendWebhook (net : string -> Exchange) (startTime now : time_Time)
  (webhook : WebhookQueue) : SendResult :=
  let fullURL := WebhookURL webhook in
  let duration := time_Sub now startTime in
  match net fullURL with
  | requestRefused e =>
      (Some (mkWebhookResponse 0 "" duration (Some e)),
       Some (fmt_Errorf_w "failed to create HTTP request" e))
  | transportFailed e =>
      (Some (mkWebhookResponse 0 "" duration (Some e)),
       Some (fmt_Errorf_w "failed to send webhook request" e))
  | bodyUnreadable statusCode e =>
      (Some (mkWebhookResponse statusCode "" duration (Some e)),
       Some (fmt_Errorf_w "failed to read response body" e))
  | answered statusCode body =>
      (Some (mkWebhookResponse statusCode body duration None), None)
  end.

End WebhookService.

(** ** internal/infrastructure/metrics, and the metrics of
    [processNextWebhook] *)

Module metrics.

(** One call of [RecordWorkerProcessing]: the two label values and the
    duration handed to the histogram; the counter of the label pair is the
    number of such entries. *)
Record Observation : Type := mkObservation {
  status_code : string;
  retry_level : string;
  duration : time_Duration
}.

Definition WebhookMetrics : Type := list Observation.

Definition strconv_Itoa (z : Z) : string := fmt_d z.

Definition RecordWorkerProcessing (statusCode retryLevel : Z)
  (duration' : time_Duration) (m : WebhookMetrics) : WebhookMetrics :=
  (m ++ [mkObservation (strconv_Itoa statusCode) (strconv_Itoa retryLevel)
           duration'])%list.

Section Worker.

Variable float64 : Q -> Q.
Variable http_StatusText : Z -> string.

(** The local [finalStatusCode] of [processNextWebhook] when the deferred
    function runs.  [ResetWebhookToPending] does not touch
    [webhook.LastHTTPStatus]. *)
Definition finalStatusCode (w : WebhookWorker.t) (env : WebhookWorker.Tick) (db : DB)
  : Z :=
  match WebhookProcessor.GetNextWebhookForProcessing
          (WebhookWorker.claimFaults env) (WebhookWorker.claimNow env)
          (WebhookWorker.retryLevel w) db with
  | (_, Some _, _) => 0
  | (None, None, _) => 0
  | (Some webhook, None, db1) =>
      match WebhookProcessor.ProcessWebhook float64 http_StatusText
              (WebhookWorker.send env webhook) (WebhookWorker.clock env)
              (WebhookWorker.faults env) (WebhookWorker.sample env) webhook db1 with
      | (Some _, webhook', _) =>
          if negb (LastHTTPStatus webhook' =? 0) then LastHTTPStatus webhook'
          else 500
      | (None, webhook', _) => LastHTTPStatus webhook'
      end
  end.

(** The deferred function of [processNextWebhook]; [startTime] and [endTime]
    are the readings of the clock at entry and in [time.Since]. *)
Definition processNextWebhook_deferred (w : WebhookWorker.t)
  (env : WebhookWorker.Tick) (startTime endTime : time_Time) (db : DB)
  (m : WebhookMetrics) : WebhookMetrics :=
  if negb (finalStatusCode w env db =? 0)
  then RecordWorkerProcessing (finalStatusCode w env db)
         (WebhookWorker.retryLevel w) (time_Sub endTime startTime) m
  else m.

End Worker.

End metrics.

(** ** internal/application/services/webhook_application_service.go *)

Module services.

Record CreateWebhookCommand : Type := mkCreateWebhookCommand {
  EventType : enums.EventType;
  EventID : string;
  ConfigID : Z
}.

Record CreateWebhookResult : Type := mkCreateWebhookResult {
  Success : bool;
  Message : string;
  QueueID : string;
  CreatedAt : time_Time
}.

(** The readings of the clock and the driver errors of one [CreateWebhook]:
    the query of [GetByID], the three [time.Now()] of [CreateWebhookEntry],
    the insert with its [NOW()] and its fresh uuid, and the [time.Now()] of
    the result.  [createViolation] is the driver's text for a key that is
    taken. *)
Record Intake : Type := mkIntake {
  lookupFault : error;
  createFault : error;
  createViolation : string;
  nextRetryNow : time_Time;
  createdNow : time_Time;
  updatedNow : time_Time;
  insertNow : time_Time;
  new_uuid : uuid_UUID;
  resultNow : time_Time
}.

(** What [webhookConfigRepo.GetByID] hands to [CreateWebhookEntry]. *)
Definition lookup (env : Intake) (configID : Z)
  (webhook_configs : list WebhookConfigModel.t) : option WebhookConfig.t * error :=
  let '(config, err) :=
    WebhookConfigRepository.GetByID (lookupFault env) configID webhook_configs in
  (option_map WebhookConfigEntity.withoutTimestamps config, err).

Definition CreateWebhook (env : Intake) (webhook_configs : list WebhookConfigModel.t)
  (cmd : CreateWebhookCommand) (db : DB) : CreateWebhookResult * error * DB :=
  match event_type.Validate (EventType cmd) with
  | Some err =>
      (mkCreateWebhookResult false ("Invalid event type: " ++ err) "" 0,
       Some err, db)
  | None =>
      match WebhookProcessor.CreateWebhookEntry
              (lookup env (ConfigID cmd) webhook_configs) (createFault env)
              (createViolation env)
              (nextRetryNow env) (createdNow env) (updatedNow env) (insertNow env)
              (new_uuid env) (EventType cmd) (EventID cmd) (ConfigID cmd) db with
      | (Some err, db') =>
          (mkCreateWebhookResult false ("Failed to create webhook: " ++ err) "" 0,
           Some err, db')
      | (None, db') =>
          (mkCreateWebhookResult true "Webhook created successfully" ""
             (resultNow env),
           None, db')
      end
  end.

End services.

(** ** internal/transport/http: dtos.go and service.go *)

Module transport.

Record CreateWebhookRequest : Type := mkCreateWebhookRequest {
  EventType : enums.EventType;
  EventID : string;
  ConfigID : Z
}.

Record CreateWebhookResponse : Type := mkCreateWebhookResponse {
  Success : bool;
  Message : string;
  QueueID : string;
  CreatedAt : string
}.

Definition ToApplicationCommand (r : CreateWebhookRequest)
  : services.CreateWebhookCommand :=
  services.mkCreateWebhookCommand (EventType r) (EventID r) (ConfigID r).

Section Service.

(** [t.Format(time.RFC3339)]. *)
Variable time_Format_RFC3339 : time_Time -> string.

(** [FromApplicationResult] assigns to the receiver [r]. *)
Definition FromApplicationResult (r : CreateWebhookResponse)
  (result : services.CreateWebhookResult) : CreateWebhookResponse :=
  mkCreateWebhookResponse (services.Success result) (services.Message result)
    (services.QueueID result)
    (if negb (time_IsZero (services.CreatedAt result))
     then time_Format_RFC3339 (services.CreatedAt result)
     else CreatedAt r).

Definition CreateWebhook (env : services.Intake)
  (webhook_configs : list WebhookConfigModel.t) (req : CreateWebhookRequest)
  (db : DB) : CreateWebhookResponse * error * DB :=
  let cmd := ToApplicationCommand req in
  match services.CreateWebhook env webhook_configs cmd db with
  | (_, Some err, db') =>
      (mkCreateWebhookResponse false ("Failed to create webhook: " ++ err) "" "",
       Some err, db')
  | (result, None, db') =>
      (FromApplicationResult (mkCreateWebhookResponse false "" "" "") result,
       None, db')
  end.

End Service.

End transport.

(** ** internal/config/config.go *)

Module config.

Record DatabaseConfig : Type := mkDatabaseConfig {
  Host : string;
  Port : Z;
  User : string;
  Password : string;
  DBName : string;
  SSLMode : string;
  MaxOpenConns : Z;
  MaxIdleConns : Z;
  ConnMaxLifetime : time_Duration
}.

Record HTTPClientConfig : Type := mkHTTPClientConfig {
  Timeout : time_Duration;
  ClientMaxIdleConns : Z;
  IdleConnTimeout : time_Duration
}.

Record HTTPServerConfig : Type := mkHTTPServerConfig {
  ServerPort : Z;
  ReadTimeout : time_Duration;
  WriteTimeout : time_Duration;
  IdleTimeout : time_Duration
}.

Record Config : Type := mkConfig {
  Database : DatabaseConfig;
  HTTPClient : HTTPClientConfig;
  HTTPServer : HTTPServerConfig
}.

Definition Validate (c : Config) : error :=
  if String.eqb (Host (Database c)) "" then Some "database host is required"
  else if String.eqb (User (Database c)) "" then Some "database user is required"
  else if String.eqb (DBName (Database c)) "" then Some "database name is required"
  else if Timeout (HTTPClient c) <=? 0
       then Some "HTTP client timeout must be positive"
  else if (ServerPort (HTTPServer c) <=? 0) || (ServerPort (HTTPServer c) >? 65535)
       then Some "HTTP server port must be between 1 and 65535"
  else None.

(** [GetDatabaseDSN]. *)
Definition GetDatabaseDSN (c : Config) : string :=
  "host=" ++ Host (Database c) ++ " port=" ++ fmt_d (Port (Database c))
  ++ " user=" ++ User (Database c) ++ " password=" ++ Password (Database c)
  ++ " dbname=" ++ DBName (Database c) ++ " sslmode=" ++ SSLMode (Database c)
  ++ " timezone=UTC".

Section Environment.

(** [os.Getenv], after [godotenv.Load]: an unset variable reads as the empty
    string.  [strconv.Atoi] and [time.ParseDuration], [None] for their
    errors. *)
Variable os_Getenv : string -> string.
Variable strconv_Atoi : string -> option Z.
Variable time_ParseDuration : string -> option time_Duration.

Definition getEnv (key defaultValue : string) : string :=
  if negb (String.eqb (os_Getenv key) "") then os_Getenv key else defaultValue.

Definition getEnvAsInt (key : string) (defaultValue : Z) : Z :=
  if negb (String.eqb (os_Getenv key) "")
  then match strconv_Atoi (os_Getenv key) with
       | Some intValue => intValue
       | None => defaultValue
       end
  else defaultValue.

Definition getEnvAsDuration (key : string) (defaultValue : time_Duration)
  : time_Duration :=
  if negb (String.eqb (os_Getenv key) "")
  then match time_ParseDuration (os_Getenv key) with
       | Some duration => duration
       | None => defaultValue
       end
  else defaultValue.

Definition LoadConfig : result Config :=
  let config :=
    mkConfig
      (mkDatabaseConfig
         (getEnv "DB_HOST" "localhost")
         (getEnvAsInt "DB_PORT" 5432)
         (getEnv "DB_USER" "postgres")
         (getEnv "DB_PASSWORD" "root")
         (getEnv "DB_NAME" "webhook_processor")
         (getEnv "DB_SSL_MODE" "disable")
         (getEnvAsInt "DB_MAX_OPEN_CONNS" 25)
         (getEnvAsInt "DB_MAX_IDLE_CONNS" 5)
         (getEnvAsDuration "DB_CONN_MAX_LIFETIME" (5 * time_Minute)))
      (mkHTTPClientConfig
         (getEnvAsDuration "HTTP_CLIENT_TIMEOUT" (30 * time_Second))
         (getEnvAsInt "HTTP_CLIENT_MAX_IDLE_CONNS" 100)
         (getEnvAsDuration "HTTP_CLIENT_IDLE_CONN_TIMEOUT" (90 * time_Second)))
      (mkHTTPServerConfig
         (getEnvAsInt "API_PORT" 8080)
         (getEnvAsDuration "HTTP_SERVER_READ_TIMEOUT" (30 * time_Second))
         (getEnvAsDuration "HTTP_SERVER_WRITE_TIMEOUT" (30 * time_Second))
         (getEnvAsDuration "HTTP_SERVER_IDLE_TIMEOUT" (120 * time_Second))) in
  match Validate config with
  | Some err => Err (fmt_Errorf_w "invalid configuration" err)
  | None => Ok config
  end.

End Environment.

Definition GetDefaultWorkerPoolConfig : list WorkerPool.WorkerConfig :=
  [WorkerPool.mkWorkerConfig 0 (5 * time_Second)
     "Level 0 Worker #1 - Immediate webhook attempts";
   WorkerPool.mkWorkerConfig 0 (5 * time_Second)
     "Level 0 Worker #2 - Immediate webhook attempts";
   WorkerPool.mkWorkerConfig 0 (5 * time_Second)
     "Level 0 Worker #3 - Immediate webhook attempts";
   WorkerPool.mkWorkerConfig 1 (30 * time_Second)
     "Level 1 Worker - First retry attempts (1 min delay)";
   WorkerPool.mkWorkerConfig 2 (2 * time_Minute)
     "Level 2 Worker - Second retry attempts (5 min delay)";
   WorkerPool.mkWorkerConfig 3 (5 * time_Minute)
     "Level 3 Worker - Third retry attempts (10 min delay)";
   WorkerPool.mkWorkerConfig 4 (15 * time_Minute)
     "Level 4 Worker - Fourth retry attempts (30 min delay)";
   WorkerPool.mkWorkerConfig 5 (30 * time_Minute)
     "Level 5 Worker - Fifth retry attempts (1 hour delay)";
   WorkerPool.mkWorkerConfig 6 (60 * time_Minute)
     "Level 6 Worker - Final retry attempts (2 hour delay)"].

End config.

(** ** More sample data *)

(** Two configurations, the second inactive; an intake without faults at
    time 100; an environment that sets the port and a timeout. *)
Definition sampleConfigs : list WebhookConfigModel.t :=
  [WebhookConfigModel.mk 1 "credit postback" enums.EventTypeCredit
     "https://example.com/hook" true 30000 10 10 None;
   WebhookConfigModel.mk 2 "debit postback" enums.EventTypeDebit
     "https://example.com/debit" false 30000 10 10 None].

(** A text a driver could answer for a key that is taken. *)
Definition sampleViolation : string :=
  "ERROR: duplicate key value violates unique constraint (SQLSTATE 23505)".

Definition sampleIntake : services.Intake :=
  services.mkIntake None None sampleViolation 100 100 100 100 42%N 101.

Definition sampleFormat (t : time_Time) : string := "t" ++ fmt_d t.

Definition sampleNet (url : string) : WebhookService.Exchange :=
  if String.eqb url "https://example.com/hook"
  then WebhookService.bodyUnreadable 200 "unexpected EOF"
  else WebhookService.transportFailed "connection refused".

Definition sampleGetenv (key : string) : string :=
  if String.eqb key "API_PORT" then "70000"
  else if String.eqb key "DB_HOST" then "db.internal"
  else "".

Definition sampleAtoi (s : string) : option Z :=
  if String.eqb s "70000" then Some 70000 else None.

Definition sampleParseDuration (s : string) : option time_Duration := None.

(** A tick whose endpoint refuses the connection and whose storage works. *)
Definition sampleTickRefused : WebhookWorker.Tick :=
  WebhookWorker.mkTick WebhookQueueRepository.noClaimFaults 200
    (fun _ => sendRefused) sampleClock WebhookProcessor.noFaults (1 # 2)
    None None 230 231.

(** * Properties *)

(** ** Rows, assignments and lookups *)

Lemma status_eqb_eq (a b : string) : String.eqb a b = true <-> a = b.
Proof. apply String.eqb_eq. Qed.

Lemma ID_assign (a : Assignment) (w : WebhookQueue) : ID (assign a w) = ID w.
Proof.
  destruct a; simpl; try reflexivity;
    unfold updAttempt; destruct (getAttempt k (Retries w)); reflexivity.
Qed.

Lemma ID_applyUpdates (us : list Assignment) (w : WebhookQueue) :
  ID (applyUpdates us w) = ID w.
Proof.
  unfold applyUpdates. revert w.
  induction us as [|a us IH]; intro w; simpl; [reflexivity|].
  rewrite IH. apply ID_assign.
Qed.

Lemma RetryCount_assign (a : Assignment) (w : WebhookQueue) :
  RetryCount (assign a w) = RetryCount w.
Proof.
  destruct a; simpl; try reflexivity;
    unfold updAttempt; destruct (getAttempt k (Retries w)); reflexivity.
Qed.

Lemma RetryCount_applyUpdates (us : list Assignment) (w : WebhookQueue) :
  RetryCount (applyUpdates us w) = RetryCount w.
Proof.
  unfold applyUpdates. revert w.
  induction us as [|a us IH]; intro w; simpl; [reflexivity|].
  rewrite IH. apply RetryCount_assign.
Qed.

(** The rows keep their primary keys through an [UPDATE]. *)
Lemma ids_Updates (id : Z) (us : list Assignment) (db : DB) :
  map ID (webhook_queue (gorm.Updates id us db)) = map ID (webhook_queue db).
Proof.
  unfold gorm.Updates. simpl. rewrite map_map.
  apply map_ext. intro r. destruct (ID r =? id); [apply ID_applyUpdates|reflexivity].
Qed.

Lemma find_map_keep_id (f : WebhookQueue -> WebhookQueue) (id : Z)
  (rows : list WebhookQueue) :
  (forall r, ID (f r) = ID r) ->
  find (fun r => ID r =? id) (map f rows)
  = option_map f (find (fun r => ID r =? id) rows).
Proof.
  intro Hf. induction rows as [|r rows IH]; simpl; [reflexivity|].
  rewrite Hf. destruct (ID r =? id); [reflexivity|exact IH].
Qed.

(** Reading a row back after an [UPDATE ... WHERE id = ?]. *)
Lemma FirstByID_Updates (id id' : Z) (us : list Assignment) (db : DB) :
  gorm.FirstByID id' (gorm.Updates id us db)
  = option_map (fun r => if id' =? id then applyUpdates us r else r)
               (gorm.FirstByID id' db).
Proof.
  unfold gorm.FirstByID, gorm.Updates. simpl.
  rewrite find_map_keep_id.
  - destruct (find (fun r => ID r =? id') (webhook_queue db)) as [r|] eqn:E;
      simpl; [|reflexivity].
    apply find_some in E. destruct E as [_ E]. apply Z.eqb_eq in E. rewrite E.
    reflexivity.
  - intro r. destruct (ID r =? id); [apply ID_applyUpdates|reflexivity].
Qed.

Lemma FirstByID_In (id : Z) (db : DB) (r : WebhookQueue) :
  gorm.FirstByID id db = Some r -> In r (webhook_queue db) /\ ID r = id.
Proof.
  unfold gorm.FirstByID. intro E. apply find_some in E.
  destruct E as [Hin E]. apply Z.eqb_eq in E. split; assumption.
Qed.

(** Under the primary key, a row of the table is the one found by its id. *)
Lemma In_FirstByID (rows : list WebhookQueue) (r : WebhookQueue) :
  NoDup (map ID rows) -> In r rows ->
  find (fun x => ID x =? ID r) rows = Some r.
Proof.
  induction rows as [|x rows IH]; intros Hnd Hin; [destruct Hin|].
  simpl in *. inversion Hnd as [|? ? Hx Hnd']; subst.
  destruct Hin as [->|Hin].
  - rewrite Z.eqb_refl. reflexivity.
  - destruct (ID x =? ID r) eqn:E.
    + apply Z.eqb_eq in E. exfalso. apply Hx. rewrite E. apply in_map. exact Hin.
    + apply IH; assumption.
Qed.

Lemma same_id_same_row (rows : list WebhookQueue) (r x : WebhookQueue) :
  NoDup (map ID rows) -> In r rows -> In x rows -> ID x = ID r -> x = r.
Proof.
  intros Hnd Hr Hx E.
  pose proof (In_FirstByID rows r Hnd Hr) as F1.
  pose proof (In_FirstByID rows x Hnd Hx) as F2.
  rewrite E in F2. congruence.
Qed.

(** ** The ordering of the claim *)

Lemma firstOrdered_None (l : list WebhookQueue) :
  gorm.firstOrdered l = None -> l = [].
Proof.
  destruct l as [|r rest]; [reflexivity|]. simpl.
  destruct (gorm.firstOrdered rest) as [b|]; [|discriminate].
  destruct (gorm.precedes b r); discriminate.
Qed.

Lemma firstOrdered_least (l : list WebhookQueue) (m : WebhookQueue) :
  gorm.firstOrdered l = Some m ->
  In m l /\ forall x, In x l -> NextRetryAt m <= NextRetryAt x.
Proof.
  revert m. induction l as [|r rest IH]; intros m E; [discriminate|].
  simpl in E. destruct (gorm.firstOrdered rest) as [b|] eqn:Eb.
  - destruct (IH b eq_refl) as [Hin Hle].
    destruct (gorm.precedes b r) eqn:P; inversion E; subst; clear E.
    + split; [right; exact Hin|]. intros x [<-|Hx]; [|apply Hle; exact Hx].
      unfold gorm.precedes in P. apply orb_true_iff in P.
      destruct P as [P|P]; [apply Z.ltb_lt in P; lia|].
      apply andb_true_iff in P. destruct P as [P _]. apply Z.eqb_eq in P. lia.
    + split; [left; reflexivity|]. intros x [<-|Hx]; [lia|].
      unfold gorm.precedes in P. apply orb_false_iff in P. destruct P as [P _].
      apply Z.ltb_ge in P. specialize (Hle x Hx). lia.
  - inversion E; subst. apply firstOrdered_None in Eb. subst rest.
    split; [left; reflexivity|]. intros x [<-|[]]. lia.
Qed.

Lemma eligible_iff (retryLevel : Z) (now : time_Time) (r : WebhookQueue) :
  WebhookQueueRepository.eligible retryLevel now r = true <->
  Status r = enums.WebhookStatusPending /\ RetryCount r = retryLevel
  /\ NextRetryAt r <= now.
Proof.
  unfold WebhookQueueRepository.eligible.
  rewrite !andb_true_iff, status_eqb_eq, Z.eqb_eq, Z.leb_le. tauto.
Qed.

(** ** The claim *)

(** C1. [GetNextWebhookForProcessing] (ClaimNext), for every tier and every
    table with its primary key: when it returns a row, that row is a PENDING
    row of the table with [retry_count] equal to the tier and
    [next_retry_at <= now], no eligible row has a smaller [next_retry_at], the
    row is returned with [status] PROCESSING and [updated_at] [now], and the
    table differs only in that row, which is stored as returned; when it
    returns none, the error is nil, no row is eligible and the table is
    unchanged. *)
Theorem C1_ClaimNext_selects_and_marks :
  forall (now : time_Time) (retryLevel : Z) (db : DB),
    NoDup (map ID (webhook_queue db)) ->
    let '(claimed, err, db') :=
      WebhookQueueRepository.GetNextWebhookForProcessing
        WebhookQueueRepository.noClaimFaults now retryLevel db in
    err = None /\
    match claimed with
    | Some row =>
        exists m,
          In m (webhook_queue db)
          /\ Status m = enums.WebhookStatusPending
          /\ RetryCount m = retryLevel
          /\ NextRetryAt m <= now
          /\ (forall x, In x (webhook_queue db) ->
                Status x = enums.WebhookStatusPending ->
                RetryCount x = retryLevel -> NextRetryAt x <= now ->
                NextRetryAt m <= NextRetryAt x)
          /\ row = set_UpdatedAt now (set_Status enums.WebhookStatusProcessing m)
          /\ db' = set_rows (map (fun r => if ID r =? ID m then row else r)
                                 (webhook_queue db)) db
    | None =>
        db' = db
        /\ forall x, In x (webhook_queue db) ->
             ~ (Status x = enums.WebhookStatusPending
                /\ RetryCount x = retryLevel /\ NextRetryAt x <= now)
    end.
Proof.
  intros now retryLevel db Hpk.
  unfold WebhookQueueRepository.GetNextWebhookForProcessing. simpl.
  destruct (gorm.FirstWhere (WebhookQueueRepository.eligible retryLevel now) db)
    as [m|] eqn:E; unfold gorm.FirstWhere in E.
  - split; [reflexivity|].
    apply firstOrdered_least in E. destruct E as [Hin Hle].
    apply filter_In in Hin. destruct Hin as [Hin Hel].
    apply eligible_iff in Hel. destruct Hel as (Hs & Hrc & Hnr).
    exists m. do 4 (split; [assumption|]). split; [|split].
    + intros x Hx Hxs Hxrc Hxnr. apply Hle. apply filter_In.
      split; [exact Hx|]. apply eligible_iff. auto.
    + reflexivity.
    + unfold gorm.Updates. f_equal. apply map_ext_in. intros r Hr.
      destruct (ID r =? ID m) eqn:Eid; [|reflexivity].
      apply Z.eqb_eq in Eid.
      rewrite (same_id_same_row _ m r Hpk Hin Hr Eid). reflexivity.
  - split; [reflexivity|]. split; [reflexivity|].
    apply firstOrdered_None in E. intros x Hx Hel.
    apply eligible_iff in Hel.
    assert (Hf : In x (filter (WebhookQueueRepository.eligible retryLevel now)
                              (webhook_queue db)))
      by (apply filter_In; split; assumption).
    rewrite E in Hf. destruct Hf.
Qed.

Lemma C1_ClaimNext_witness :
  NoDup (map ID (webhook_queue sampleDB))
  /\ let '(claimed, err, db') :=
       WebhookQueueRepository.GetNextWebhookForProcessing
         WebhookQueueRepository.noClaimFaults 200 0 sampleDB in
     err = None /\
     match claimed with
     | Some row =>
         exists m,
           In m (webhook_queue sampleDB)
           /\ Status m = enums.WebhookStatusPending
           /\ RetryCount m = 0
           /\ NextRetryAt m <= 200
           /\ (forall x, In x (webhook_queue sampleDB) ->
                 Status x = enums.WebhookStatusPending ->
                 RetryCount x = 0 -> NextRetryAt x <= 200 ->
                 NextRetryAt m <= NextRetryAt x)
           /\ row = set_UpdatedAt 200 (set_Status enums.WebhookStatusProcessing m)
           /\ db' = set_rows (map (fun r => if ID r =? ID m then row else r)
                                  (webhook_queue sampleDB)) sampleDB
     | None =>
         db' = sampleDB
         /\ forall x, In x (webhook_queue sampleDB) ->
              ~ (Status x = enums.WebhookStatusPending
                 /\ RetryCount x = 0 /\ NextRetryAt x <= 200)
     end.
Proof.
  assert (Hpk : NoDup (map ID (webhook_queue sampleDB))).
  { simpl. repeat constructor; simpl; intuition discriminate. }
  split; [exact Hpk|].
  exact (C1_ClaimNext_selects_and_marks 200 0 sampleDB Hpk).
Defined.

(** The claim on the sample table: the tier-0 row with the older
    [next_retry_at] is taken, and only it changes. *)
Example claim_sample :
  WebhookQueueRepository.GetNextWebhookForProcessing
    WebhookQueueRepository.noClaimFaults 200 0 sampleDB
  = (Some (set_UpdatedAt 200 (sampleRow 2 enums.WebhookStatusProcessing 0 90)),
     None,
     mkDB [sampleRow 1 enums.WebhookStatusPending 0 100;
           set_UpdatedAt 200 (sampleRow 2 enums.WebhookStatusProcessing 0 90);
           sampleRow 3 enums.WebhookStatusPending 1 50] 4).
Proof. reflexivity. Qed.

(** ** Single-row updates *)

Lemma Forall2_map_self (R : WebhookQueue -> WebhookQueue -> Prop)
  (f : WebhookQueue -> WebhookQueue) (l : list WebhookQueue) :
  (forall x, In x l -> R x (f x)) -> Forall2 R l (map f l).
Proof.
  induction l as [|x l IH]; intro H; simpl; constructor.
  - apply H. left. reflexivity.
  - apply IH. intros y Hy. apply H. right. exact Hy.
Qed.

(** What an [UPDATE ... WHERE id = ?] does, row by row. *)
Lemma Updates_rowwise (R : WebhookQueue -> WebhookQueue -> Prop) (id : Z)
  (us : list Assignment) (db : DB) :
  (forall r, ID r = id -> R r (applyUpdates us r)) ->
  (forall r, ID r <> id -> R r r) ->
  Forall2 R (webhook_queue db) (webhook_queue (gorm.Updates id us db)).
Proof.
  intros Hhit Hmiss. unfold gorm.Updates. simpl.
  apply Forall2_map_self. intros r _.
  destruct (ID r =? id) eqn:E.
  - apply Hhit. apply Z.eqb_eq. exact E.
  - apply Hmiss. apply Z.eqb_neq. exact E.
Qed.

(** C10. [MarkCompleted], for every id, start time and table: the row with
    that id gets [status] COMPLETED, [processing_started_at] the supplied value,
    [completed_at] and [updated_at] [now]; its [retry_count], [next_retry_at],
    [last_error], [last_http_status], its seven history slots and all its other
    fields stay as they were; every other row, and the id sequence, are
    unchanged. *)
Theorem C10_MarkCompleted_frame :
  forall (now : time_Time) (webhookID : Z) (processingStartedAt : time_Time) (db : DB),
    let '(err, db') :=
      WebhookQueueRepository.MarkCompleted None now webhookID processingStartedAt db in
    err = None
    /\ id_seq db' = id_seq db
    /\ Forall2
         (fun r r' =>
            (ID r = webhookID ->
               Status r' = enums.WebhookStatusCompleted
               /\ ProcessingStartedAt r' = Some processingStartedAt
               /\ CompletedAt r' = Some now
               /\ UpdatedAt r' = now
               /\ RetryCount r' = RetryCount r
               /\ NextRetryAt r' = NextRetryAt r
               /\ LastError r' = LastError r
               /\ LastHTTPStatus r' = LastHTTPStatus r
               /\ Retries r' = Retries r
               /\ ID r' = ID r
               /\ QueueID r' = QueueID r
               /\ EventType r' = EventType r
               /\ EventID r' = EventID r
               /\ ConfigID r' = ConfigID r
               /\ WebhookURL r' = WebhookURL r
               /\ CreatedAt r' = CreatedAt r
               /\ DeletedAt r' = DeletedAt r)
            /\ (ID r <> webhookID -> r' = r))
         (webhook_queue db) (webhook_queue db').
Proof.
  intros now webhookID processingStartedAt db.
  unfold WebhookQueueRepository.MarkCompleted. cbv beta iota.
  split; [reflexivity|]. split; [reflexivity|].
  apply Updates_rowwise.
  - intros r Hr. split; [|intro H; contradiction].
    intros _. simpl. repeat split; reflexivity.
  - intros r Hr. split; [intro H; contradiction|reflexivity].
Qed.

Example markCompleted_sample :
  WebhookQueueRepository.MarkCompleted None 300 2 250 sampleDB
  = (None,
     mkDB [sampleRow 1 enums.WebhookStatusPending 0 100;
           set_UpdatedAt 300
             (set_CompletedAt (Some 300)
                (set_ProcessingStartedAt (Some 250)
                   (sampleRow 2 enums.WebhookStatusCompleted 0 90)));
           sampleRow 3 enums.WebhookStatusPending 1 50] 4).
Proof. reflexivity. Qed.

(** The tiers that have a history slot. *)
Lemma tier_cases (k : Z) :
  0 <= k <= 6 -> k = 0 \/ k = 1 \/ k = 2 \/ k = 3 \/ k = 4 \/ k = 5 \/ k = 6.
Proof. lia. Qed.

(** What [UpdateRetryAttempt] writes to the row it addresses, for a tier
    with a slot. *)
Lemma retryAttemptUpdates_row (now : time_Time) (k : Z) (startedAt : time_Time)
  (completedAt : option time_Time) (durationMs httpStatus : Z)
  (responseBody errorMsg : string) (r : WebhookQueue) :
  0 <= k <= 6 ->
  let r' := applyUpdates
              (WebhookQueueRepository.retryAttemptUpdates now k startedAt
                 completedAt durationMs httpStatus responseBody errorMsg) r in
  exists a a',
    getAttempt k (Retries r) = Some a
    /\ getAttempt k (Retries r') = Some a'
    /\ RetryStartedAt a' = Some startedAt
    /\ RetryCompletedAt a' = match completedAt with
                             | Some c => Some c
                             | None => RetryCompletedAt a
                             end
    /\ RetryDurationMs a' = Some durationMs
    /\ RetryHTTPStatus a' = Some httpStatus
    /\ RetryResponseBody a' = Some responseBody
    /\ LastHTTPStatus r' = httpStatus
    /\ UpdatedAt r' = now
    /\ (errorMsg = "" -> LastError r' = LastError r /\ RetryError a' = RetryError a)
    /\ (errorMsg <> "" -> LastError r' = errorMsg /\ RetryError a' = Some errorMsg)
    /\ Status r' = Status r
    /\ RetryCount r' = RetryCount r
    /\ NextRetryAt r' = NextRetryAt r.
Proof.
  intros Hk r'. subst r'.
  unfold WebhookQueueRepository.retryAttemptUpdates,
    WebhookQueueRepository.attemptUpdates.
  destruct (String.eqb errorMsg "") eqn:E.
  - apply String.eqb_eq in E.
    destruct (tier_cases k Hk) as [->|[->|[->|[->|[->|[->| ->]]]]]];
      destruct completedAt; simpl; eexists; eexists;
      (split; [reflexivity|]); (split; [reflexivity|]); simpl;
      repeat split; try reflexivity; try contradiction.
  - apply String.eqb_neq in E.
    destruct (tier_cases k Hk) as [->|[->|[->|[->|[->|[->| ->]]]]]];
      destruct completedAt; simpl; eexists; eexists;
      (split; [reflexivity|]); (split; [reflexivity|]); simpl;
      repeat split; try reflexivity; try contradiction.
Qed.

(** ** The attempt processor *)

Lemma Status_retryAttemptUpdates (now : time_Time) (k : Z) (startedAt : time_Time)
  (completedAt : option time_Time) (durationMs httpStatus : Z)
  (responseBody errorMsg : string) (r : WebhookQueue) :
  Status (applyUpdates
            (WebhookQueueRepository.retryAttemptUpdates now k startedAt completedAt
               durationMs httpStatus responseBody errorMsg) r) = Status r.
Proof.
  unfold WebhookQueueRepository.retryAttemptUpdates,
    WebhookQueueRepository.attemptUpdates.
  tier_split k; destruct completedAt; destruct (String.eqb errorMsg "");
    reflexivity.
Qed.

Lemma NextRetryAt_retryAttemptUpdates (now : time_Time) (k : Z)
  (startedAt : time_Time) (completedAt : option time_Time)
  (durationMs httpStatus : Z) (responseBody errorMsg : string) (r : WebhookQueue) :
  NextRetryAt (applyUpdates
                 (WebhookQueueRepository.retryAttemptUpdates now k startedAt
                    completedAt durationMs httpStatus responseBody errorMsg) r)
  = NextRetryAt r.
Proof.
  unfold WebhookQueueRepository.retryAttemptUpdates,
    WebhookQueueRepository.attemptUpdates.
  tier_split k; destruct completedAt; destruct (String.eqb errorMsg "");
    reflexivity.
Qed.

Lemma LastError_retryAttemptUpdates (now : time_Time) (k : Z)
  (startedAt : time_Time) (completedAt : option time_Time)
  (durationMs httpStatus : Z) (responseBody : string) (r : WebhookQueue) :
  LastError (applyUpdates
               (WebhookQueueRepository.retryAttemptUpdates now k startedAt
                  completedAt durationMs httpStatus responseBody "") r)
  = LastError r.
Proof.
  unfold WebhookQueueRepository.retryAttemptUpdates,
    WebhookQueueRepository.attemptUpdates.
  tier_split k; destruct completedAt; reflexivity.
Qed.

(** The addressed row after [UpdateRetryAttempt], whether the call failed or
    not: same status, count and eligibility time; same [last_error] when the
    attempt has no error message. *)
Lemma recorded_row (fault : error) (now : time_Time) (id k : Z)
  (startedAt : time_Time) (completedAt : option time_Time)
  (durationMs httpStatus : Z) (responseBody errorMsg : string)
  (db : DB) (r : WebhookQueue) :
  gorm.FirstByID id db = Some r ->
  exists r1,
    gorm.FirstByID id
      (snd (WebhookQueueRepository.UpdateRetryAttempt fault now id k startedAt
              completedAt durationMs httpStatus responseBody errorMsg db)) = Some r1
    /\ Status r1 = Status r
    /\ RetryCount r1 = RetryCount r
    /\ NextRetryAt r1 = NextRetryAt r
    /\ (errorMsg = "" -> LastError r1 = LastError r).
Proof.
  intro Hr. unfold WebhookQueueRepository.UpdateRetryAttempt.
  destruct fault as [e|]; simpl snd.
  - exists r. repeat split; try reflexivity. exact Hr.
  - rewrite FirstByID_Updates, Hr. cbn [option_map]. rewrite Z.eqb_refl.
    eexists. split; [reflexivity|].
    split; [apply Status_retryAttemptUpdates|].
    split; [apply RetryCount_applyUpdates|].
    split; [apply NextRetryAt_retryAttemptUpdates|].
    intros ->. apply LastError_retryAttemptUpdates.
Qed.

(** Reading a row back after [Save]. *)
Lemma FirstByID_Save (id : Z) (now : time_Time) (m : WebhookQueue) (db : DB) :
  gorm.FirstByID id (gorm.Save now m db)
  = option_map (fun r => if id =? ID m then gorm.BeforeUpdate now m else r)
               (gorm.FirstByID id db).
Proof.
  unfold gorm.FirstByID, gorm.Save. simpl.
  rewrite find_map_keep_id.
  - destruct (find (fun r => ID r =? id) (webhook_queue db)) as [r|] eqn:E;
      simpl; [|reflexivity].
    apply find_some in E. destruct E as [_ E]. apply Z.eqb_eq in E. rewrite E.
    reflexivity.
  - intro r. destruct (ID r =? ID m) eqn:E; [|reflexivity].
    apply Z.eqb_eq in E. simpl. symmetry. exact E.
Qed.

Lemma isSuccessfulResponse_iff (statusCode : Z) :
  WebhookProcessor.isSuccessfulResponse statusCode = true
  <-> 200 <= statusCode < 300.
Proof.
  unfold WebhookProcessor.isSuccessfulResponse.
  rewrite andb_true_iff, Z.leb_le, Z.ltb_lt. tauto.
Qed.

(** The success test of [ProcessWebhook]: no transport error, and a 2xx
    status. *)
Lemma succeeded_iff (send : SendResult) :
  WebhookProcessor.succeeded send = true
  <-> snd send = None
      /\ exists resp, fst send = Some resp /\ 200 <= StatusCode resp < 300.
Proof.
  unfold WebhookProcessor.succeeded.
  destruct send as [[resp|] [e|]]; simpl; split.
  - discriminate.
  - intros [H _]. discriminate.
  - intro H. split; [reflexivity|]. exists resp. split; [reflexivity|].
    apply isSuccessfulResponse_iff. exact H.
  - intros [_ [resp' [H1 H2]]]. inversion H1; subst.
    apply isSuccessfulResponse_iff. exact H2.
  - discriminate.
  - intros [H _]. discriminate.
  - discriminate.
  - intros [_ [resp' [H1 _]]]. discriminate.
Qed.

Section ProcessorFacts.

Variable float64 : Q -> Q.
Variable http_StatusText : Z -> string.

Lemma withLastStatus_fields (send : SendResult) (w : WebhookQueue) :
  ID (WebhookProcessor.withLastStatus http_StatusText send w) = ID w
  /\ Status (WebhookProcessor.withLastStatus http_StatusText send w) = Status w
  /\ RetryCount (WebhookProcessor.withLastStatus http_StatusText send w) = RetryCount w
  /\ NextRetryAt (WebhookProcessor.withLastStatus http_StatusText send w) = NextRetryAt w.
Proof.
  unfold WebhookProcessor.withLastStatus.
  destruct (String.eqb (WebhookProcessor.errorMsgOf http_StatusText send) "");
    repeat split; reflexivity.
Qed.

(** C2. [ProcessWebhook] on a row that is stored and not yet COMPLETED (a
    claimed row is PROCESSING), for every outcome of the send, every clock and
    every storage fault: the row is stored COMPLETED afterwards only if the
    send returned no transport error and an HTTP status in [200, 300), and
    then [processing_started_at] is the attempt's start time; conversely,
    with no transport error and such a status, and the final write going
    through, the call returns no error and the row is stored COMPLETED. *)
Theorem C2_completed_iff_2xx :
  forall (send : SendResult) (clk : WebhookProcessor.Clock)
         (flt : WebhookProcessor.Faults) (sample : Q)
         (webhook : WebhookQueue) (db : DB) (r : WebhookQueue),
    gorm.FirstByID (ID webhook) db = Some r ->
    Status r <> enums.WebhookStatusCompleted ->
    let '(e, _, db') :=
      WebhookProcessor.ProcessWebhook float64 http_StatusText send clk flt sample
        webhook db in
    exists r',
      gorm.FirstByID (ID webhook) db' = Some r'
      /\ (Status r' = enums.WebhookStatusCompleted ->
            snd send = None
            /\ (exists resp, fst send = Some resp /\ 200 <= StatusCode resp < 300)
            /\ ProcessingStartedAt r' = Some (WebhookProcessor.attemptStartTime clk))
      /\ (snd send = None ->
          (exists resp, fst send = Some resp /\ 200 <= StatusCode resp < 300) ->
          WebhookProcessor.writeFault flt = None ->
          e = None /\ Status r' = enums.WebhookStatusCompleted).
Proof.
  intros send clk flt sample webhook db r Hr Hnc.
  unfold WebhookProcessor.ProcessWebhook.
  destruct (recorded_row (WebhookProcessor.recordFault flt)
              (WebhookProcessor.recordNow clk) (ID webhook) (RetryCount webhook)
              (WebhookProcessor.attemptStartTime clk)
              (Some (WebhookProcessor.attemptEndTime clk))
              (time_Milliseconds
                 (time_Sub (WebhookProcessor.attemptEndTime clk)
                    (WebhookProcessor.attemptStartTime clk)))
              (WebhookProcessor.httpStatusOf send)
              (WebhookProcessor.responseBodyOf send)
              (WebhookProcessor.errorMsgOf http_StatusText send) db r Hr)
    as (r1 & Hr1 & Hs1 & _).
  cbv zeta.
  match type of Hr1 with gorm.FirstByID _ ?d = _ => set (db1 := d) in * end.
  destruct (withLastStatus_fields send webhook) as (Hid & Hst & Hrc & _).
  destruct (WebhookProcessor.succeeded send) eqn:Es.
  - apply succeeded_iff in Es. destruct Es as [Herr Hresp].
    unfold WebhookQueueRepository.MarkCompleted. rewrite Hid.
    destruct (WebhookProcessor.writeFault flt) as [e|].
    + exists r1. split; [exact Hr1|]. split.
      * intro H. exfalso. apply Hnc. congruence.
      * intros _ _ H. discriminate.
    + eexists. split.
      * rewrite FirstByID_Updates, Hr1. cbn [option_map].
        rewrite Z.eqb_refl. reflexivity.
      * split; [intros _|intros _ _ _]; repeat split; auto.
  - assert (Hno : ~ (snd send = None
                     /\ exists resp, fst send = Some resp
                                     /\ 200 <= StatusCode resp < 300)).
    { intro H. apply succeeded_iff in H. congruence. }
    destruct (CanRetry (WebhookProcessor.withLastStatus http_StatusText send webhook)) eqn:Ec.
    + unfold WebhookQueueRepository.Update.
      change (ID (WebhookProcessor.rescheduled float64 clk sample
                    (WebhookProcessor.withLastStatus http_StatusText send webhook)))
        with (ID (WebhookProcessor.withLastStatus http_StatusText send webhook)).
      rewrite Hid, Hr1.
      destruct (WebhookProcessor.readFault flt) as [e|].
      * exists r1. split; [exact Hr1|]. split.
        -- intro H. exfalso. apply Hnc. congruence.
        -- intros H1 H2 _. exfalso. apply Hno. split; assumption.
      * destruct (WebhookProcessor.writeFault flt) as [e|].
        -- exists r1. split; [exact Hr1|]. split.
           ++ intro H. exfalso. apply Hnc. congruence.
           ++ intros H1 H2 _. exfalso. apply Hno. split; assumption.
        -- eexists. split.
           ++ rewrite FirstByID_Save, Hr1. cbn [option_map].
              apply FirstByID_In in Hr1. destruct Hr1 as [_ Hid1].
              change (ID (WebhookQueueRepository.mergeWebhookIntoModel r1
                            (WebhookProcessor.rescheduled float64 clk sample
                               (WebhookProcessor.withLastStatus http_StatusText
                                  send webhook))))
                with (ID r1).
              rewrite Hid1, Z.eqb_refl. reflexivity.
           ++ split.
              ** simpl. discriminate.
              ** intros H1 H2 _. exfalso. apply Hno. split; assumption.
    + unfold WebhookQueueRepository.MarkFailed. rewrite Hid.
      destruct (WebhookProcessor.writeFault flt) as [e|].
      * exists r1. split; [exact Hr1|]. split.
        -- intro H. exfalso. apply Hnc. congruence.
        -- intros H1 H2 _. exfalso. apply Hno. split; assumption.
      * eexists. split.
        -- rewrite FirstByID_Updates, Hr1. cbn [option_map].
           rewrite Z.eqb_refl. reflexivity.
        -- split.
           ++ simpl. discriminate.
           ++ intros H1 H2 _. exfalso. apply Hno. split; assumption.
Qed.

(** The clamp of [calculateNextRetryTime]: never less than a minute. *)
Lemma finalDelay_min (retryCount : Z) (sample : Q) :
  time_Minute <= WebhookProcessor.finalDelay float64 retryCount sample.
Proof.
  unfold WebhookProcessor.finalDelay. cbv zeta.
  match goal with |- context [if ?c then _ else _] => destruct c eqn:E end.
  - lia.
  - apply Z.ltb_ge in E. exact E.
Qed.

(** The merge of a rescheduled entity into the stored row. *)
Lemma merge_rescheduled (clk : WebhookProcessor.Clock) (sample : Q)
  (cur w : WebhookQueue) (now : time_Time) :
  0 <= RetryCount w ->
  let m := gorm.BeforeUpdate now
             (WebhookQueueRepository.mergeWebhookIntoModel cur
                (WebhookProcessor.rescheduled float64 clk sample w)) in
  ID m = ID cur
  /\ RetryCount m = RetryCount w + 1
  /\ Status m = enums.WebhookStatusPending
  /\ NextRetryAt m
     = time_Add (WebhookProcessor.backoffNow clk)
         (WebhookProcessor.finalDelay float64 (RetryCount w) sample).
Proof.
  intros Hge m. subst m.
  assert (Hnz : (RetryCount w + 1 =? 0) = false) by (apply Z.eqb_neq; lia).
  unfold WebhookQueueRepository.mergeWebhookIntoModel,
    WebhookProcessor.rescheduled, gorm.BeforeUpdate. cbn.
  rewrite Hnz. cbn. repeat split; reflexivity.
Qed.

(** C3. [ProcessWebhook] on a claimed row (the entity is PROCESSING and
    carries the stored [retry_count], which is not negative) whose attempt
    failed (a transport error, or no 2xx status), with the read and the write
    of the final update going through: when [retry_count < 6] the row is stored
    with [retry_count + 1], status PENDING and [next_retry_at] the scheduling
    instant plus the backoff delay, which is later than that instant; when
    [retry_count = 6] the row is stored FAILED with a [last_error] that starts
    with "max retries exceeded" and continues with ": " and the transport
    error message, or with ": HTTP <code>" when there is a response and no
    transport error. *)
Theorem C3_failed_attempt_reschedules_or_fails :
  forall (send : SendResult) (clk : WebhookProcessor.Clock)
         (flt : WebhookProcessor.Faults) (sample : Q)
         (webhook : WebhookQueue) (db : DB) (r : WebhookQueue),
    gorm.FirstByID (ID webhook) db = Some r ->
    Status webhook = enums.WebhookStatusProcessing ->
    RetryCount webhook = RetryCount r ->
    0 <= RetryCount r ->
    ~ (snd send = None
       /\ exists resp, fst send = Some resp /\ 200 <= StatusCode resp < 300) ->
    WebhookProcessor.readFault flt = None ->
    WebhookProcessor.writeFault flt = None ->
    let '(e, _, db') :=
      WebhookProcessor.ProcessWebhook float64 http_StatusText send clk flt sample
        webhook db in
    e = None
    /\ exists r',
         gorm.FirstByID (ID webhook) db' = Some r'
         /\ (RetryCount r < 6 ->
               RetryCount r' = RetryCount r + 1
               /\ Status r' = enums.WebhookStatusPending
               /\ NextRetryAt r'
                  = time_Add (WebhookProcessor.backoffNow clk)
                      (WebhookProcessor.finalDelay float64 (RetryCount r) sample)
               /\ WebhookProcessor.backoffNow clk < NextRetryAt r')
         /\ (RetryCount r = 6 ->
               Status r' = enums.WebhookStatusFailed
               /\ RetryCount r' = 6
               /\ String.prefix "max retries exceeded" (LastError r') = true
               /\ match send with
                  | (_, Some msg) =>
                      LastError r' = "max retries exceeded: " ++ msg
                  | (Some resp, None) =>
                      LastError r'
                      = "max retries exceeded: HTTP " ++ fmt_d (StatusCode resp)
                  | (None, None) => LastError r' = "max retries exceeded"
                  end).
Proof.
  intros send clk flt sample webhook db r Hr Hst Hrc Hge Hfail Hrf Hwf.
  unfold WebhookProcessor.ProcessWebhook.
  destruct (recorded_row (WebhookProcessor.recordFault flt)
              (WebhookProcessor.recordNow clk) (ID webhook) (RetryCount webhook)
              (WebhookProcessor.attemptStartTime clk)
              (Some (WebhookProcessor.attemptEndTime clk))
              (time_Milliseconds
                 (time_Sub (WebhookProcessor.attemptEndTime clk)
                    (WebhookProcessor.attemptStartTime clk)))
              (WebhookProcessor.httpStatusOf send)
              (WebhookProcessor.responseBodyOf send)
              (WebhookProcessor.errorMsgOf http_StatusText send) db r Hr)
    as (r1 & Hr1 & Hs1 & Hrc1 & _).
  cbv zeta.
  match type of Hr1 with gorm.FirstByID _ ?d = _ => set (db1 := d) in * end.
  destruct (withLastStatus_fields send webhook) as (Hid & Hst2 & Hrc2 & _).
  destruct (WebhookProcessor.succeeded send) eqn:Es.
  { exfalso. apply Hfail. apply succeeded_iff. exact Es. }
  unfold CanRetry. rewrite Hst2, Hrc2, Hst, Hrc.
  change (enums.IsCompleted enums.WebhookStatusProcessing) with false.
  cbn [negb]. rewrite andb_true_r.
  destruct (RetryCount r <? enums.MaxRetryAttempts) eqn:Elt.
  - apply Z.ltb_lt in Elt. unfold enums.MaxRetryAttempts in Elt.
    unfold WebhookQueueRepository.Update.
    change (ID (WebhookProcessor.rescheduled float64 clk sample
                  (WebhookProcessor.withLastStatus http_StatusText send webhook)))
      with (ID (WebhookProcessor.withLastStatus http_StatusText send webhook)).
    rewrite Hid, Hr1, Hrf, Hwf.
    split; [reflexivity|]. eexists. split.
    + rewrite FirstByID_Save, Hr1. cbn [option_map].
      apply FirstByID_In in Hr1. destruct Hr1 as [_ Hid1].
      change (ID (WebhookQueueRepository.mergeWebhookIntoModel r1
                    (WebhookProcessor.rescheduled float64 clk sample
                       (WebhookProcessor.withLastStatus http_StatusText send
                          webhook))))
        with (ID r1).
      rewrite Hid1, Z.eqb_refl. reflexivity.
    + split; [|intro H; exfalso; lia]. intros _.
      assert (Hge2 : 0 <= RetryCount (WebhookProcessor.withLastStatus
                                        http_StatusText send webhook)) by lia.
      destruct (merge_rescheduled clk sample r1
                  (WebhookProcessor.withLastStatus http_StatusText send webhook)
                  (WebhookProcessor.writeNow clk) Hge2) as (_ & M1 & M2 & M3).
      rewrite M1, M2, M3, Hrc2, Hrc.
      split; [reflexivity|]. split; [reflexivity|]. split; [reflexivity|].
      unfold time_Add.
      pose proof (finalDelay_min (RetryCount r) sample) as Hmin.
      unfold time_Minute, time_Second, time_Millisecond in Hmin. lia.
  - apply Z.ltb_ge in Elt. unfold enums.MaxRetryAttempts in Elt.
    unfold WebhookQueueRepository.MarkFailed. rewrite Hid, Hwf.
    split; [reflexivity|]. eexists. split.
    + rewrite FirstByID_Updates, Hr1. cbn [option_map].
      rewrite Z.eqb_refl. reflexivity.
    + split; [intro H; exfalso; lia|]. intros H6.
      split; [reflexivity|]. split; [cbn; lia|].
      destruct send as [[resp|] [msg|]]; split; reflexivity.
Qed.

End ProcessorFacts.

(** ** The backoff schedule *)

Section Backoff.

Variable float64 : Q -> Q.

(** What the proof needs of rounding to [float64]: it is monotone, and every
    integer of magnitude at most [2^53] is representable.  Rounding to
    nearest, as IEEE 754 binary64 does, has both properties. *)
Hypothesis float64_monotone :
  forall x y : Q, (x <= y)%Q -> (float64 x <= float64 y)%Q.
Hypothesis float64_exact :
  forall z : Z, Z.abs z <= 2 ^ 53 -> (float64 (inject_Z z) == inject_Z z)%Q.

Lemma float64_between (x : Q) (lo hi : Z) :
  Z.abs lo <= 2 ^ 53 -> Z.abs hi <= 2 ^ 53 ->
  (inject_Z lo <= x)%Q -> (x <= inject_Z hi)%Q ->
  (inject_Z lo <= float64 x)%Q /\ (float64 x <= inject_Z hi)%Q.
Proof.
  intros Hlo Hhi H1 H2. split.
  - rewrite <- (float64_exact lo Hlo). apply float64_monotone. exact H1.
  - rewrite <- (float64_exact hi Hhi). apply float64_monotone. exact H2.
Qed.

Lemma Duration_of_float_between (x : Q) (q : Z) :
  0 <= q -> (inject_Z (- q) <= x)%Q -> (x <= inject_Z q)%Q ->
  - q <= WebhookProcessor.Duration_of_float x <= q.
Proof.
  intros Hq H1 H2. unfold WebhookProcessor.Duration_of_float.
  destruct (Qle_bool 0 x) eqn:E.
  - apply Qle_bool_iff in E.
    pose proof (Qfloor_resp_le _ _ E) as F1.
    pose proof (Qfloor_resp_le _ _ H2) as F2.
    rewrite Qfloor_Z in F2. change 0%Q with (inject_Z 0) in F1.
    rewrite Qfloor_Z in F1. lia.
  - assert (Hneg : (x <= 0)%Q).
    { apply Qnot_lt_le. intro H. apply Qlt_le_weak in H.
      apply Qle_bool_iff in H. congruence. }
    pose proof (Qceiling_resp_le _ _ H1) as F1.
    pose proof (Qceiling_resp_le _ _ Hneg) as F2.
    rewrite Qceiling_Z in F1. change 0%Q with (inject_Z 0) in F2.
    rewrite Qceiling_Z in F2. lia.
Qed.

(** The jitter is within a quarter of the base delay, for a base delay
    [4 * q] that [float64] holds exactly. *)
Lemma jitter_between (q : Z) (sample : Q) :
  0 <= q -> 8 * q <= 2 ^ 53 ->
  (0 <= sample)%Q -> (sample <= 1)%Q ->
  let jitterRange := float64 (float64 (inject_Z (4 * q)) * 0.25%Q) in
  - q <= WebhookProcessor.Duration_of_float
           (float64 (float64 (float64 (sample * jitterRange) * 2) - jitterRange))
      <= q.
Proof.
  intros Hq Hq8 Hs0 Hs1 jitterRange.
  assert (B4 : Z.abs (4 * q) <= 2 ^ 53) by lia.
  assert (B2 : Z.abs (2 * q) <= 2 ^ 53) by lia.
  assert (B1 : Z.abs q <= 2 ^ 53) by lia.
  assert (Bn : Z.abs (- q) <= 2 ^ 53) by lia.
  assert (B0 : Z.abs 0 <= 2 ^ 53) by (simpl; lia).
  assert (Q0 : (0 <= inject_Z q)%Q).
  { change 0%Q with (inject_Z 0). rewrite <- Zle_Qle. exact Hq. }
  assert (M4 : (inject_Z (4 * q) == 4 * inject_Z q)%Q)
    by (rewrite inject_Z_mult; reflexivity).
  assert (M2 : (inject_Z (2 * q) == 2 * inject_Z q)%Q)
    by (rewrite inject_Z_mult; reflexivity).
  assert (Mn : (inject_Z (- q) == - inject_Z q)%Q)
    by (rewrite inject_Z_opp; reflexivity).
  assert (M0 : (inject_Z 0 == 0)%Q) by reflexivity.
  destruct (float64_between (inject_Z (4 * q)) (4 * q) (4 * q) B4 B4
              (Qle_refl _) (Qle_refl _)) as [A1 A2].
  destruct (float64_between (float64 (inject_Z (4 * q)) * 0.25%Q) q q B1 B1)
    as [J1 J2]; [lra|lra|].
  fold jitterRange in J1, J2.
  destruct (float64_between (sample * jitterRange) 0 q B0 B1)
    as [T1a T1b]; [nra|nra|].
  destruct (float64_between (float64 (sample * jitterRange) * 2) 0 (2 * q) B0 B2)
    as [T2a T2b]; [lra|lra|].
  destruct (float64_between
              (float64 (float64 (sample * jitterRange) * 2) - jitterRange)
              (- q) q Bn B1) as [T3a T3b]; [lra|lra|].
  apply Duration_of_float_between; assumption.
Qed.

(** Every base delay of the table is four times a whole number of
    nanoseconds between a quarter of a minute and an hour. *)
Lemma baseDelay_quarter (retryCount : Z) :
  exists q, WebhookProcessor.baseDelay retryCount = 4 * q
            /\ 15000000000 <= q <= 3600000000000.
Proof.
  exists (WebhookProcessor.baseDelay retryCount / 4).
  tier_split retryCount; vm_compute; repeat split; discriminate.
Qed.

(** C4. [calculateNextRetryTime]: the base delay is 1, 5, 10, 30, 60 and 120
    minutes for [retry_count] 0 to 5 and 4 hours for every other value; for
    every [retry_count] and every jitter sample of [rand.Float64()] (a number
    in [0, 1)), the delay added to the current time is at least 0.75 times and
    at most 1.25 times the base delay, and at least one minute. *)
Theorem C4_backoff_delay_bounds :
  forall (retryCount : Z) (sample : Q) (now : time_Time),
    (0 <= sample)%Q -> (sample < 1)%Q ->
    let base := WebhookProcessor.baseDelay retryCount in
    let delay :=
      time_Sub (WebhookProcessor.calculateNextRetryTime float64 now sample retryCount)
               now in
    (inject_Z base * 0.75 <= inject_Z delay)%Q
    /\ (inject_Z delay <= inject_Z base * 1.25)%Q
    /\ time_Minute <= delay
    /\ base = match retryCount with
              | 0 => 1 * time_Minute
              | 1 => 5 * time_Minute
              | 2 => 10 * time_Minute
              | 3 => 30 * time_Minute
              | 4 => 60 * time_Minute
              | 5 => 120 * time_Minute
              | _ => 4 * time_Hour
              end.
Proof.
  intros retryCount sample now Hs0 Hs1 base delay.
  assert (Hd : delay = WebhookProcessor.finalDelay float64 retryCount sample).
  { unfold delay, WebhookProcessor.calculateNextRetryTime, time_Sub, time_Add. lia. }
  destruct (baseDelay_quarter retryCount) as (q & Hb & Hq1 & Hq2).
  fold base in Hb.
  assert (Hj : - q <= delay - base <= q \/ (delay = time_Minute /\ base - q <= delay)).
  { rewrite Hd. unfold WebhookProcessor.finalDelay. cbv zeta. fold base.
    pose proof (jitter_between q sample) as J. cbv zeta in J.
    rewrite <- Hb in J.
    assert (J' := J ltac:(lia) ltac:(lia) Hs0 (Qlt_le_weak _ _ Hs1)).
    match goal with |- context [if ?c then _ else _] => destruct c eqn:E end.
    - right. split; [reflexivity|]. apply Z.ltb_lt in E. lia.
    - left. lia. }
  assert (Hmin : time_Minute <= delay) by (rewrite Hd; apply finalDelay_min).
  assert (Z1 : 3 * q <= delay).
  { destruct Hj as [Hj|[_ Hj]]; lia. }
  assert (Z2 : delay <= 5 * q).
  { destruct Hj as [Hj|[Hj _]]; [lia|].
    rewrite Hj. unfold time_Minute, time_Second, time_Millisecond. lia. }
  split; [|split; [|split]].
  - rewrite Hb, inject_Z_mult. rewrite Zle_Qle in Z1.
    rewrite inject_Z_mult in Z1. change (inject_Z 3) with 3%Q in Z1.
    change (inject_Z 4) with 4%Q. lra.
  - rewrite Hb, inject_Z_mult. rewrite Zle_Qle in Z2.
    rewrite inject_Z_mult in Z2. change (inject_Z 5) with 5%Q in Z2.
    change (inject_Z 4) with 4%Q. lra.
  - exact Hmin.
  - reflexivity.
Qed.

End Backoff.

(** ** Instances on the sample data *)

Lemma C2_completed_iff_2xx_witness :
  gorm.FirstByID (ID sampleClaimed) sampleClaimedDB = Some sampleClaimed
  /\ Status sampleClaimed <> enums.WebhookStatusCompleted
  /\ let '(e, _, db') :=
       WebhookProcessor.ProcessWebhook exactFloat64 sampleStatusText send200
         sampleClock WebhookProcessor.noFaults (1 # 2) sampleClaimed
         sampleClaimedDB in
     exists r',
       gorm.FirstByID (ID sampleClaimed) db' = Some r'
       /\ (Status r' = enums.WebhookStatusCompleted ->
             snd send200 = None
             /\ (exists resp, fst send200 = Some resp
                              /\ 200 <= StatusCode resp < 300)
             /\ ProcessingStartedAt r'
                = Some (WebhookProcessor.attemptStartTime sampleClock))
       /\ (snd send200 = None ->
           (exists resp, fst send200 = Some resp /\ 200 <= StatusCode resp < 300) ->
           WebhookProcessor.writeFault WebhookProcessor.noFaults = None ->
           e = None /\ Status r' = enums.WebhookStatusCompleted).
Proof.
  split; [reflexivity|]. split; [discriminate|].
  apply (C2_completed_iff_2xx exactFloat64 sampleStatusText send200 sampleClock
           WebhookProcessor.noFaults (1 # 2) sampleClaimed sampleClaimedDB
           sampleClaimed).
  - reflexivity.
  - discriminate.
Defined.

(** A 200 at tier 0: the row is COMPLETED in one attempt, with the tier-0
    slot filled and the start time of the attempt. *)
Example process_200_sample :
  WebhookProcessor.ProcessWebhook exactFloat64 sampleStatusText send200
    sampleClock WebhookProcessor.noFaults (1 # 2) sampleClaimed sampleClaimedDB
  = (None,
     set_LastHTTPStatus 200 sampleClaimed,
     mkDB [sampleRow 1 enums.WebhookStatusPending 0 100;
           mkWebhookQueue 2 2%N enums.EventTypeCredit "e1" 1
             "https://example.com/hook" enums.WebhookStatusCompleted 0 90
             (mkRetryHistory
                (mkRetryAttempt (Some 210) (Some 220) (Some 0) (Some 200)
                   (Some "ok") None)
                emptyAttempt emptyAttempt emptyAttempt emptyAttempt
                emptyAttempt emptyAttempt)
             "" 200 100 224 (Some 210) (Some 224) None;
           sampleRow 3 enums.WebhookStatusPending 1 50] 4).
Proof. vm_compute. reflexivity. Qed.

Lemma C3_failed_attempt_witness :
  gorm.FirstByID (ID sampleClaimed) sampleClaimedDB = Some sampleClaimed
  /\ Status sampleClaimed = enums.WebhookStatusProcessing
  /\ RetryCount sampleClaimed = RetryCount sampleClaimed
  /\ 0 <= RetryCount sampleClaimed
  /\ ~ (snd send503 = None
        /\ exists resp, fst send503 = Some resp /\ 200 <= StatusCode resp < 300)
  /\ WebhookProcessor.readFault WebhookProcessor.noFaults = None
  /\ WebhookProcessor.writeFault WebhookProcessor.noFaults = None
  /\ let '(e, _, db') :=
       WebhookProcessor.ProcessWebhook exactFloat64 sampleStatusText send503
         sampleClock WebhookProcessor.noFaults (1 # 2) sampleClaimed
         sampleClaimedDB in
     e = None
     /\ exists r',
          gorm.FirstByID (ID sampleClaimed) db' = Some r'
          /\ (RetryCount sampleClaimed < 6 ->
                RetryCount r' = RetryCount sampleClaimed + 1
                /\ Status r' = enums.WebhookStatusPending
                /\ NextRetryAt r'
                   = time_Add (WebhookProcessor.backoffNow sampleClock)
                       (WebhookProcessor.finalDelay exactFloat64
                          (RetryCount sampleClaimed) (1 # 2))
                /\ WebhookProcessor.backoffNow sampleClock < NextRetryAt r')
          /\ (RetryCount sampleClaimed = 6 ->
                Status r' = enums.WebhookStatusFailed
                /\ RetryCount r' = 6
                /\ String.prefix "max retries exceeded" (LastError r') = true
                /\ match send503 with
                   | (_, Some msg) =>
                       LastError r' = "max retries exceeded: " ++ msg
                   | (Some resp, None) =>
                       LastError r'
                       = "max retries exceeded: HTTP " ++ fmt_d (StatusCode resp)
                   | (None, None) => LastError r' = "max retries exceeded"
                   end).
Proof.
  assert (Hfail : ~ (snd send503 = None
                     /\ exists resp, fst send503 = Some resp
                                     /\ 200 <= StatusCode resp < 300)).
  { intros [_ [resp [H1 H2]]]. inversion H1; subst. simpl in H2. lia. }
  split; [reflexivity|]. split; [reflexivity|]. split; [reflexivity|].
  split; [simpl; lia|]. split; [exact Hfail|].
  split; [reflexivity|]. split; [reflexivity|].
  apply (C3_failed_attempt_reschedules_or_fails exactFloat64 sampleStatusText
           send503 sampleClock WebhookProcessor.noFaults (1 # 2) sampleClaimed
           sampleClaimedDB sampleClaimed);
    try reflexivity; try exact Hfail; try (simpl; lia).
Defined.

(** A 503 at tier 0, jitter sample one half: the row goes back to PENDING at
    tier 1, eligible one minute after the scheduling instant 222. *)
Example process_503_sample :
  let '(e, _, db') :=
    WebhookProcessor.ProcessWebhook exactFloat64 sampleStatusText send503
      sampleClock WebhookProcessor.noFaults (1 # 2) sampleClaimed sampleClaimedDB in
  e = None
  /\ option_map (fun r => (Status r, RetryCount r, NextRetryAt r, LastError r,
                           LastHTTPStatus r, RetryError (Retry0 (Retries r))))
                (gorm.FirstByID 2 db')
     = Some (enums.WebhookStatusPending, 1, 222 + 60000000000,
             "HTTP 503: Service Unavailable", 503,
             Some "HTTP 503: Service Unavailable").
Proof. vm_compute. split; reflexivity. Qed.

(** A refused connection at tier 6: the row is FAILED. *)
Example process_refused_last_sample :
  let '(e, _, db') :=
    WebhookProcessor.ProcessWebhook exactFloat64 sampleStatusText sendRefused
      sampleClock WebhookProcessor.noFaults (1 # 2) sampleLast sampleLastDB in
  e = None
  /\ option_map (fun r => (Status r, RetryCount r, LastError r))
                (gorm.FirstByID 7 db')
     = Some (enums.WebhookStatusFailed, 6,
             "max retries exceeded: failed to send webhook request: connection refused").
Proof. vm_compute. split; reflexivity. Qed.

Lemma C4_backoff_delay_bounds_witness :
  (forall x y : Q, (x <= y)%Q -> (exactFloat64 x <= exactFloat64 y)%Q)
  /\ (forall z : Z, Z.abs z <= 2 ^ 53 ->
        (exactFloat64 (inject_Z z) == inject_Z z)%Q)
  /\ (0 <= 1 # 10)%Q /\ (1 # 10 < 1)%Q
  /\ let base := WebhookProcessor.baseDelay 0 in
     let delay :=
       time_Sub (WebhookProcessor.calculateNextRetryTime exactFloat64 1000 (1 # 10) 0)
                1000 in
     (inject_Z base * 0.75 <= inject_Z delay)%Q
     /\ (inject_Z delay <= inject_Z base * 1.25)%Q
     /\ time_Minute <= delay
     /\ base = 1 * time_Minute.
Proof.
  assert (Hm : forall x y : Q, (x <= y)%Q -> (exactFloat64 x <= exactFloat64 y)%Q)
    by (intros x y H; exact H).
  assert (He : forall z : Z, Z.abs z <= 2 ^ 53 ->
                 (exactFloat64 (inject_Z z) == inject_Z z)%Q)
    by (intros z _; apply Qeq_refl).
  assert (H0 : (0 <= 1 # 10)%Q) by (unfold Qle; simpl; lia).
  assert (H1 : (1 # 10 < 1)%Q) by (unfold Qlt; simpl; lia).
  split; [exact Hm|]. split; [exact He|]. split; [exact H0|]. split; [exact H1|].
  exact (C4_backoff_delay_bounds exactFloat64 Hm He 0 (1 # 10) 1000 H0 H1).
Defined.

(** With sample 1/10 the jitter is minus a fifth of a minute, the sum is 48 s
    and the clamp raises the delay to the minute. *)
Example backoff_sample_clamped :
  WebhookProcessor.finalDelay exactFloat64 0 (1 # 10) = time_Minute
  /\ WebhookProcessor.finalDelay exactFloat64 3 (1 # 10) = 24 * time_Minute
  /\ WebhookProcessor.finalDelay exactFloat64 9 (9 # 10) = 288 * time_Minute.
Proof. vm_compute. repeat split; reflexivity. Qed.

(** ** The merge-update *)

(** C6, as stated, fails on the code.  [retry_count] and [next_retry_at] are
    guarded together: a zero [RetryCount] overwrites the stored count when
    [NextRetryAt] is set, and a zero [NextRetryAt] overwrites the stored time
    when [RetryCount] is set.  [created_at] and the history slots are never
    merged, so their non-zero values do not overwrite.  [Update] stamps
    [updated_at] with the time of the save, whatever the entity holds. *)
Lemma C6_zero_overwrites_counterexample :
  (RetryCount updateZeroCount = 0
   /\ RetryCount sampleStored = 3
   /\ RetryCount
        (WebhookQueueRepository.mergeWebhookIntoModel sampleStored updateZeroCount)
      = 0)
  /\ (time_IsZero (NextRetryAt updateZeroTime) = true
      /\ NextRetryAt sampleStored = 90
      /\ NextRetryAt
           (WebhookQueueRepository.mergeWebhookIntoModel sampleStored updateZeroTime)
         = 0)
  /\ (CreatedAt updateCreatedAt = 777
      /\ CreatedAt
           (WebhookQueueRepository.mergeWebhookIntoModel sampleStored updateCreatedAt)
         = 100
      /\ Retry0 (Retries updateCreatedAt) <> emptyAttempt
      /\ Retry0 (Retries
                   (WebhookQueueRepository.mergeWebhookIntoModel sampleStored
                      updateCreatedAt))
         = emptyAttempt)
  /\ (UpdatedAt updateZeroCount = 0
      /\ UpdatedAt sampleStored = 100
      /\ option_map (fun r => (RetryCount r, UpdatedAt r))
           (gorm.FirstByID 5
              (snd (WebhookQueueRepository.Update None None 300 updateZeroCount
                      sampleStoredDB)))
         = Some (0, 300)).
Proof.
  repeat split; try reflexivity. discriminate.
Defined.

(** C6, amended.  For every stored row [P] and update entity [U], the merge
    [M] of [U] into [P] takes, for each of [queue_id], [event_type],
    [event_id], [config_id], [webhook_url], [status], [last_error],
    [last_http_status], [updated_at], [processing_started_at], [completed_at]
    and [deleted_at], the value of [P] when [U]'s is zero and the value of [U]
    otherwise; [retry_count] and [next_retry_at] are taken together, from [P]
    when both are zero in [U] and from [U] otherwise; [id], [created_at] and
    the history slots are always [P]'s.  [Update] of a stored row stores [M]
    with [updated_at] set to the time of the save, and leaves every other id
    as it was. *)
Theorem C6_merge_update_amended :
  forall (P U : WebhookQueue) (now : time_Time) (db : DB),
    gorm.FirstByID (ID U) db = Some P ->
    let M := WebhookQueueRepository.mergeWebhookIntoModel P U in
    ((QueueID U = uuid_Nil -> QueueID M = QueueID P)
     /\ (QueueID U <> uuid_Nil -> QueueID M = QueueID U))
    /\ ((EventType U = "" -> EventType M = EventType P)
        /\ (EventType U <> "" -> EventType M = EventType U))
    /\ ((EventID U = "" -> EventID M = EventID P)
        /\ (EventID U <> "" -> EventID M = EventID U))
    /\ ((ConfigID U = 0 -> ConfigID M = ConfigID P)
        /\ (ConfigID U <> 0 -> ConfigID M = ConfigID U))
    /\ ((WebhookURL U = "" -> WebhookURL M = WebhookURL P)
        /\ (WebhookURL U <> "" -> WebhookURL M = WebhookURL U))
    /\ ((Status U = "" -> Status M = Status P)
        /\ (Status U <> "" -> Status M = Status U))
    /\ ((LastError U = "" -> LastError M = LastError P)
        /\ (LastError U <> "" -> LastError M = LastError U))
    /\ ((LastHTTPStatus U = 0 -> LastHTTPStatus M = LastHTTPStatus P)
        /\ (LastHTTPStatus U <> 0 -> LastHTTPStatus M = LastHTTPStatus U))
    /\ ((UpdatedAt U = 0 -> UpdatedAt M = UpdatedAt P)
        /\ (UpdatedAt U <> 0 -> UpdatedAt M = UpdatedAt U))
    /\ ((ProcessingStartedAt U = None -> ProcessingStartedAt M = ProcessingStartedAt P)
        /\ (ProcessingStartedAt U <> None ->
            ProcessingStartedAt M = ProcessingStartedAt U))
    /\ ((CompletedAt U = None -> CompletedAt M = CompletedAt P)
        /\ (CompletedAt U <> None -> CompletedAt M = CompletedAt U))
    /\ ((DeletedAt U = None -> DeletedAt M = DeletedAt P)
        /\ (DeletedAt U <> None -> DeletedAt M = DeletedAt U))
    /\ ((RetryCount U = 0 /\ NextRetryAt U = 0 ->
         RetryCount M = RetryCount P /\ NextRetryAt M = NextRetryAt P)
        /\ (RetryCount U <> 0 \/ NextRetryAt U <> 0 ->
            RetryCount M = RetryCount U /\ NextRetryAt M = NextRetryAt U))
    /\ ID M = ID P
    /\ CreatedAt M = CreatedAt P
    /\ Retries M = Retries P
    /\ (let '(e, db') := WebhookQueueRepository.Update None None now U db in
        e = None
        /\ gorm.FirstByID (ID U) db' = Some (set_UpdatedAt now M)
        /\ forall id, id <> ID U -> gorm.FirstByID id db' = gorm.FirstByID id db).
Proof.
  intros P U now db HP M.
  assert (HU : let '(e, db') := WebhookQueueRepository.Update None None now U db in
               e = None
               /\ gorm.FirstByID (ID U) db' = Some (set_UpdatedAt now M)
               /\ forall id, id <> ID U ->
                             gorm.FirstByID id db' = gorm.FirstByID id db).
  { unfold WebhookQueueRepository.Update. rewrite HP. fold M.
    assert (HidM : ID M = ID U).
    { apply FirstByID_In in HP. destruct HP as [_ HP]. exact HP. }
    split; [reflexivity|]. split.
    - rewrite FirstByID_Save, HP. cbn [option_map].
      rewrite HidM, Z.eqb_refl. reflexivity.
    - intros id Hid. rewrite FirstByID_Save, HidM.
      apply Z.eqb_neq in Hid. rewrite Hid.
      destruct (gorm.FirstByID id db); reflexivity. }
  revert HU. generalize (WebhookQueueRepository.Update None None now U db).
  intros upd HU. subst M.
  unfold WebhookQueueRepository.mergeWebhookIntoModel in *.
  cbn -[Z.eqb N.eqb String.eqb].
  repeat match goal with
         | |- _ /\ _ => split
         end.
  all: try reflexivity.
  all: try (intro H; rewrite H; reflexivity).
  all: try (intro H; apply N.eqb_neq in H; rewrite H; reflexivity).
  all: try (intro H; apply String.eqb_neq in H; rewrite H; reflexivity).
  all: try (intro H; apply Z.eqb_neq in H; unfold time_IsZero; rewrite H;
            reflexivity).
  all: try (intro H; destruct (ProcessingStartedAt U); congruence).
  all: try (intro H; destruct (CompletedAt U); congruence).
  all: try (intro H; destruct (DeletedAt U); congruence).
  - intros [H1 H2]. unfold time_IsZero. rewrite H1, H2. split; reflexivity.
  - intros [H|H]; apply Z.eqb_neq in H; unfold time_IsZero; rewrite H;
      [split; reflexivity|]. rewrite orb_true_r. split; reflexivity.
  - exact HU.
Qed.

Lemma C6_merge_update_witness :
  gorm.FirstByID (ID updateZeroCount) sampleStoredDB = Some sampleStored
  /\ WebhookQueueRepository.Update None None 300 updateZeroCount sampleStoredDB
     = (None,
        mkDB [set_UpdatedAt 300
                (WebhookQueueRepository.mergeWebhookIntoModel sampleStored
                   updateZeroCount)] 6)
  /\ Status (WebhookQueueRepository.mergeWebhookIntoModel sampleStored
               updateZeroCount) = Status sampleStored.
Proof.
  split; [reflexivity|]. split; [reflexivity|].
  pose proof (C6_merge_update_amended sampleStored updateZeroCount 300
                sampleStoredDB eq_refl) as H.
  cbv zeta in H.
  destruct H as (_ & _ & _ & _ & _ & [H _] & _).
  apply H. reflexivity.
Defined.

(** ** Insert, then claim *)

(** C8, as stated, fails on the code: the claim also sets [updated_at], to
    the time of the claim.  On an empty table, the entity of
    [CreateWebhookEntry] inserted at time 100 and claimed at time 200 comes
    back with [updated_at] 200, not 100.  And on a table that already holds
    an eligible tier-0 row due earlier, the claim returns that row, not the
    inserted one. *)
Lemma C8_claim_changes_updated_at_counterexample :
  (let '(e1, inserted, db1) :=
     WebhookQueueRepository.Create None sampleViolation 100 42%N freshEntity emptyDB in
   let '(claimed, e2, _) :=
     WebhookQueueRepository.GetNextWebhookForProcessing
       WebhookQueueRepository.noClaimFaults 200 0 db1 in
   e1 = None /\ e2 = None
   /\ UpdatedAt inserted = 100
   /\ exists row,
        claimed = Some row
        /\ UpdatedAt row = 200
        /\ row <> set_Status enums.WebhookStatusProcessing inserted)
  /\ (let '(e1, inserted, db1) :=
        WebhookQueueRepository.Create None sampleViolation 100 42%N freshEntity sampleDB in
      let '(claimed, e2, _) :=
        WebhookQueueRepository.GetNextWebhookForProcessing
          WebhookQueueRepository.noClaimFaults 200 0 db1 in
      e1 = None /\ e2 = None
      /\ ID inserted = 4
      /\ option_map ID claimed = Some 2).
Proof.
  vm_compute. split.
  - repeat split. eexists. repeat split. discriminate.
  - repeat split.
Defined.

Lemma firstOrdered_new_last (l : list WebhookQueue) (m : WebhookQueue) :
  (forall x, In x l -> NextRetryAt m < NextRetryAt x) ->
  gorm.firstOrdered (l ++ [m]) = Some m.
Proof.
  induction l as [|x l IH]; intro H; [reflexivity|].
  simpl. rewrite IH by (intros y Hy; apply H; right; exact Hy).
  unfold gorm.precedes.
  assert (Hlt : NextRetryAt m < NextRetryAt x) by (apply H; left; reflexivity).
  apply Z.ltb_lt in Hlt. rewrite Hlt. reflexivity.
Qed.

(** An entity whose state and timestamps are set is stored as it is, under
    the id and queue id it gets. *)
Lemma Create_stores_entity (violation : string) (now : time_Time) (new_uuid : uuid_UUID)
  (webhook inserted : WebhookQueue) (db db1 : DB) :
  WebhookQueueRepository.Create None violation now new_uuid webhook db = (None, inserted, db1) ->
  Status webhook <> "" -> NextRetryAt webhook <> 0 ->
  CreatedAt webhook <> 0 -> UpdatedAt webhook <> 0 ->
  webhook_queue db1 = (webhook_queue db ++ [inserted])%list.
Proof.
  intros Hc Hs Hn Hca Hua.
  unfold WebhookQueueRepository.Create, gorm.Create in Hc.
  match type of Hc with
  | context [existsb ?f ?l] => destruct (existsb f l)
  end; [discriminate|].
  inversion Hc as [[Hi Hd]]. clear Hc Hi. simpl. f_equal. f_equal.
  apply String.eqb_neq in Hs. apply Z.eqb_neq in Hn, Hca, Hua.
  unfold gorm.columnDefaults, gorm.BeforeCreate, time_IsZero.
  destruct webhook as [i q et ei ci url st rc nr h le lh ca ua ps co de].
  simpl in *.
  destruct (N.eqb q uuid_Nil); simpl; rewrite Hs; simpl; rewrite Hn; simpl;
    rewrite Hca; simpl; rewrite Hua; simpl; destruct (i =? 0); reflexivity.
Qed.

(** C8, amended.  For every PENDING tier-0 entity with its timestamps set, as
    [CreateWebhookEntry] builds it: when [Create] stores it, no eligible
    tier-0 row already in the table is due at or before it, and the claim of
    tier 0 runs at or after its [next_retry_at], the claim returns the
    inserted row with [status] PROCESSING and [updated_at] the time of the
    claim, every other field as inserted. *)
Theorem C8_insert_then_claim_amended :
  forall (violation : string) (now claimNow : time_Time) (new_uuid : uuid_UUID)
         (webhook inserted : WebhookQueue) (db db1 : DB),
    WebhookQueueRepository.Create None violation now new_uuid webhook db
    = (None, inserted, db1) ->
    Status webhook = enums.WebhookStatusPending ->
    RetryCount webhook = 0 ->
    NextRetryAt webhook <> 0 ->
    CreatedAt webhook <> 0 ->
    UpdatedAt webhook <> 0 ->
    NextRetryAt webhook <= claimNow ->
    (forall r, In r (webhook_queue db) ->
       Status r = enums.WebhookStatusPending -> RetryCount r = 0 ->
       NextRetryAt r <= claimNow -> NextRetryAt webhook < NextRetryAt r) ->
    exists db2,
      WebhookQueueRepository.GetNextWebhookForProcessing
        WebhookQueueRepository.noClaimFaults claimNow 0 db1
      = (Some (set_UpdatedAt claimNow
                 (set_Status enums.WebhookStatusProcessing inserted)),
         None, db2).
Proof.
  intros violation now claimNow new_uuid webhook inserted db db1
    Hc Hs Hrc Hn Hca Hua Hdue Hfirst.
  assert (Hrows : webhook_queue db1 = (webhook_queue db ++ [inserted])%list).
  { apply (Create_stores_entity violation now new_uuid webhook inserted db db1 Hc);
      try assumption. rewrite Hs. discriminate. }
  assert (Hins : Status inserted = Status webhook
                 /\ RetryCount inserted = RetryCount webhook
                 /\ NextRetryAt inserted = NextRetryAt webhook).
  { unfold WebhookQueueRepository.Create in Hc.
    destruct (gorm.Create violation now new_uuid
                (WebhookQueueRepository.entityToModel webhook) db)
      as [[m d]|e]; inversion Hc; subst. repeat split; reflexivity. }
  destruct Hins as (Is & Irc & Inr).
  assert (Hel : WebhookQueueRepository.eligible 0 claimNow inserted = true).
  { apply eligible_iff. rewrite Is, Irc, Inr. auto. }
  unfold WebhookQueueRepository.GetNextWebhookForProcessing. simpl.
  unfold gorm.FirstWhere. rewrite Hrows, filter_app. simpl. rewrite Hel.
  rewrite firstOrdered_new_last.
  - eexists. reflexivity.
  - intros x Hx. apply filter_In in Hx. destruct Hx as [Hx Hxe].
    apply eligible_iff in Hxe. destruct Hxe as (X1 & X2 & X3).
    rewrite Inr. apply Hfirst; assumption.
Qed.

Lemma C8_insert_then_claim_witness :
  exists db2,
    WebhookQueueRepository.GetNextWebhookForProcessing
      WebhookQueueRepository.noClaimFaults 200 0
      (mkDB (webhook_queue sampleLaterDB
             ++ [set_QueueID 42%N (set_ID 4 freshEntity)]) 5)
    = (Some (set_UpdatedAt 200
               (set_Status enums.WebhookStatusProcessing
                  (set_QueueID 42%N (set_ID 4 freshEntity)))),
       None, db2).
Proof.
  apply (C8_insert_then_claim_amended sampleViolation 100 200 42%N freshEntity
           (set_QueueID 42%N (set_ID 4 freshEntity)) sampleLaterDB).
  - reflexivity.
  - reflexivity.
  - reflexivity.
  - discriminate.
  - discriminate.
  - discriminate.
  - simpl. lia.
  - intros r Hr Hs Hrc Hn. simpl in Hr.
    destruct Hr as [<-|[<-|[]]]; simpl in *; try discriminate; lia.
Defined.

(** ** The attempt record *)

Section AttemptRecord.

Variable float64 : Q -> Q.
Variable http_StatusText : Z -> string.

Lemma errorMsgOf_success (send : SendResult) :
  WebhookProcessor.succeeded send = true ->
  WebhookProcessor.errorMsgOf http_StatusText send = "".
Proof.
  unfold WebhookProcessor.succeeded, WebhookProcessor.errorMsgOf.
  destruct send as [[resp|] [e|]]; simpl; try discriminate.
  intros ->. reflexivity.
Qed.

(** C7. [UpdateRetryAttempt] for a tier [k] in 0..6, with the call going
    through: in the row with the given id, the tier-[k] slot gets the start
    time, the duration, the status and the body (and the completion time when
    one is given), [last_http_status] becomes the attempt's status, and
    [last_error] and [retry_k_error] become the message when it is not empty
    and keep their values when it is empty; other rows are unchanged.
    Consequently [ProcessWebhook] on a successful send, with no storage fault,
    stores the row COMPLETED with the [last_error] it had before. *)
Theorem C7_RecordAttempt_keeps_last_error_on_empty_message :
  forall (now : time_Time) (webhookID k : Z) (startedAt : time_Time)
         (completedAt : option time_Time) (durationMs httpStatus : Z)
         (responseBody errorMsg : string) (db : DB),
    0 <= k <= 6 ->
    (let '(e, db') :=
       WebhookQueueRepository.UpdateRetryAttempt None now webhookID k startedAt
         completedAt durationMs httpStatus responseBody errorMsg db in
     e = None
     /\ Forall2
          (fun r r' =>
             (ID r = webhookID ->
              exists a a',
                getAttempt k (Retries r) = Some a
                /\ getAttempt k (Retries r') = Some a'
                /\ RetryStartedAt a' = Some startedAt
                /\ RetryCompletedAt a' = match completedAt with
                                         | Some c => Some c
                                         | None => RetryCompletedAt a
                                         end
                /\ RetryDurationMs a' = Some durationMs
                /\ RetryHTTPStatus a' = Some httpStatus
                /\ RetryResponseBody a' = Some responseBody
                /\ LastHTTPStatus r' = httpStatus
                /\ (errorMsg = "" ->
                    LastError r' = LastError r /\ RetryError a' = RetryError a)
                /\ (errorMsg <> "" ->
                    LastError r' = errorMsg /\ RetryError a' = Some errorMsg))
             /\ (ID r <> webhookID -> r' = r))
          (webhook_queue db) (webhook_queue db'))
    /\ (forall (send : SendResult) (clk : WebhookProcessor.Clock) (sample : Q)
               (webhook r : WebhookQueue),
          ID webhook = webhookID ->
          gorm.FirstByID webhookID db = Some r ->
          snd send = None ->
          (exists resp, fst send = Some resp /\ 200 <= StatusCode resp < 300) ->
          let '(e, _, db') :=
            WebhookProcessor.ProcessWebhook float64 http_StatusText send clk
              WebhookProcessor.noFaults sample webhook db in
          e = None
          /\ exists r',
               gorm.FirstByID webhookID db' = Some r'
               /\ Status r' = enums.WebhookStatusCompleted
               /\ LastError r' = LastError r).
Proof.
  intros now webhookID k startedAt completedAt durationMs httpStatus
         responseBody errorMsg db Hk.
  split.
  - unfold WebhookQueueRepository.UpdateRetryAttempt. cbv beta iota zeta.
    split; [reflexivity|]. apply Updates_rowwise.
    + intros r Hr. split; [|intro H; contradiction]. intros _.
      destruct (retryAttemptUpdates_row now k startedAt completedAt durationMs
                  httpStatus responseBody errorMsg r Hk)
        as (a & a' & H1 & H2 & H3 & H4 & H5 & H6 & H7 & H8 & _ & H9 & H10 & _).
      exists a, a'. do 8 (split; [assumption|]). split; assumption.
    + intros r Hr. split; [intro H; contradiction|reflexivity].
  - intros send clk sample webhook r Hid Hr Herr Hresp.
    assert (Es : WebhookProcessor.succeeded send = true)
      by (apply succeeded_iff; split; assumption).
    unfold WebhookProcessor.ProcessWebhook. rewrite Es.
    rewrite (errorMsgOf_success send Es). subst webhookID.
    destruct (recorded_row (WebhookProcessor.recordFault WebhookProcessor.noFaults)
                (WebhookProcessor.recordNow clk) (ID webhook) (RetryCount webhook)
                (WebhookProcessor.attemptStartTime clk)
                (Some (WebhookProcessor.attemptEndTime clk))
                (time_Milliseconds
                   (time_Sub (WebhookProcessor.attemptEndTime clk)
                      (WebhookProcessor.attemptStartTime clk)))
                (WebhookProcessor.httpStatusOf send)
                (WebhookProcessor.responseBodyOf send) "" db r Hr)
      as (r1 & Hr1 & _ & _ & _ & Hle).
    cbv zeta.
    match type of Hr1 with gorm.FirstByID _ ?d = _ => set (db1 := d) in * end.
    destruct (withLastStatus_fields http_StatusText send webhook) as (Hid2 & _).
    unfold WebhookQueueRepository.MarkCompleted. rewrite Hid2.
    cbn [WebhookProcessor.writeFault WebhookProcessor.noFaults].
    split; [reflexivity|]. eexists. split.
    + rewrite FirstByID_Updates, Hr1. cbn [option_map].
      rewrite Z.eqb_refl. reflexivity.
    + split; [reflexivity|]. simpl. apply Hle. reflexivity.
Qed.

End AttemptRecord.

Lemma C7_RecordAttempt_witness :
  0 <= 1 <= 6
  /\ WebhookQueueRepository.UpdateRetryAttempt None 221 2 1 210 (Some 220) 10 200
       "ok" ""
       (mkDB [set_LastError "HTTP 503: Service Unavailable"
                (sampleRow 2 enums.WebhookStatusProcessing 1 90)] 3)
     = (None,
        mkDB [mkWebhookQueue 2 2%N enums.EventTypeCredit "e1" 1
                "https://example.com/hook" enums.WebhookStatusProcessing 1 90
                (mkRetryHistory emptyAttempt
                   (mkRetryAttempt (Some 210) (Some 220) (Some 10) (Some 200)
                      (Some "ok") None)
                   emptyAttempt emptyAttempt emptyAttempt emptyAttempt
                   emptyAttempt)
                "HTTP 503: Service Unavailable" 200 100 221 None None None] 3).
Proof.
  assert (Hk : 0 <= 1 <= 6) by lia.
  split; [exact Hk|].
  pose proof (C7_RecordAttempt_keeps_last_error_on_empty_message exactFloat64
                sampleStatusText 221 2 1 210 (Some 220) 10 200 "ok" ""
                (mkDB [set_LastError "HTTP 503: Service Unavailable"
                         (sampleRow 2 enums.WebhookStatusProcessing 1 90)] 3) Hk)
    as [H _].
  destruct (WebhookQueueRepository.UpdateRetryAttempt None 221 2 1 210 (Some 220)
              10 200 "ok" ""
              (mkDB [set_LastError "HTTP 503: Service Unavailable"
                       (sampleRow 2 enums.WebhookStatusProcessing 1 90)] 3))
    as [e db'] eqn:E.
  destruct H as [He _]. subst e.
  vm_compute in E. inversion E. reflexivity.
Defined.

(** ** The worker pool *)

Lemma length_write (h : WorkerPool.Heap) (p : nat) (w : WebhookWorker.t) :
  List.length (WorkerPool.write h p w) = List.length h.
Proof.
  revert p. induction h as [|x h IH]; intros [|p]; simpl; try reflexivity.
  rewrite IH. reflexivity.
Qed.

Lemma nth_error_write_same (h : WorkerPool.Heap) (p : nat) (w : WebhookWorker.t) :
  (p < List.length h)%nat -> nth_error (WorkerPool.write h p w) p = Some w.
Proof.
  revert p. induction h as [|x h IH]; intros [|p] Hp; simpl in *; try lia.
  - reflexivity.
  - apply IH. lia.
Qed.

Lemma nth_error_write_other (h : WorkerPool.Heap) (p p' : nat) (w : WebhookWorker.t) :
  p' <> p -> nth_error (WorkerPool.write h p w) p' = nth_error h p'.
Proof.
  revert p p'. induction h as [|x h IH]; intros [|p] [|p'] Hne; simpl;
    try reflexivity; try contradiction.
  apply IH. intro H. apply Hne. rewrite H. reflexivity.
Qed.


Lemma stopWorker_length (h : WorkerPool.Heap) (p : nat) :
  List.length (WorkerPool.stopWorker h p) = List.length h.
Proof.
  unfold WorkerPool.stopWorker. destruct (nth_error h p); [|reflexivity].
  apply length_write.
Qed.




Section PoolFacts.

Variable newWorker : WorkerPool.WorkerConfig -> WebhookWorker.t.

(** With a constructor whose workers are not running, as the source's, the
    loop never fails. *)
Lemma startLoop_fresh_workers (cfgs : list WorkerPool.WorkerConfig) :
  (forall cfg, WebhookWorker.running (newWorker cfg) = false) ->
  forall h wp, fst (fst (WorkerPool.startLoop newWorker cfgs h wp)) = None.
Proof.
  intro Hf. induction cfgs as [|cfg rest IH]; intros h wp; simpl; [reflexivity|].
  unfold WebhookWorker.Start. rewrite Hf. apply IH.
Qed.

End PoolFacts.

(** The failed start on the sample roster: the two workers started before
    tier 2 are stopped and cancelled, the tier-2 worker was running before the
    call, no worker was built for tier 3. *)
Example pool_failed_start_sample :
  WorkerPool.Start startedElsewhere [] (WorkerPool.NewWorkerPool sampleRoster)
  = (Some "failed to start worker for level 2: worker retry-2-0a1b2c3d is already running",
     [WebhookWorker.mk "retry-0-0a1b2c3d" 0 (5 * time_Second) true false;
      WebhookWorker.mk "retry-1-0a1b2c3d" 1 (30 * time_Second) true false;
      WebhookWorker.mk "retry-2-0a1b2c3d" 2 (2 * time_Minute) false true],
     WorkerPool.NewWorkerPool sampleRoster).
Proof. vm_compute. reflexivity. Qed.

(** ** The retry count over the life of a row *)

Lemma advance_refl (db : DB) : retryCountsAdvance db db.
Proof. intros id r H. exists r. split; [exact H|lia]. Qed.

Lemma advance_trans (a b c : DB) :
  retryCountsAdvance a b -> retryCountsAdvance b c -> retryCountsAdvance a c.
Proof.
  intros Hab Hbc id r H.
  destruct (Hab id r H) as (r1 & H1 & L1).
  destruct (Hbc id r1 H1) as (r2 & H2 & L2).
  exists r2. split; [exact H2|lia].
Qed.

(** An [UPDATE] of other columns keeps keys and counts. *)
Lemma Updates_keeps (id : Z) (us : list Assignment) (db : DB) :
  primaryKey db -> retryCountsBounded db ->
  primaryKey (gorm.Updates id us db)
  /\ retryCountsBounded (gorm.Updates id us db)
  /\ retryCountsAdvance db (gorm.Updates id us db).
Proof.
  intros Hpk Hb. split; [|split].
  - unfold primaryKey. rewrite ids_Updates. exact Hpk.
  - intros r' Hr'. unfold gorm.Updates in Hr'. simpl in Hr'.
    apply in_map_iff in Hr'. destruct Hr' as (r & <- & Hr).
    destruct (ID r =? id); [rewrite RetryCount_applyUpdates|]; apply Hb; exact Hr.
  - intros id' r H. rewrite FirstByID_Updates, H. cbn [option_map].
    eexists. split; [reflexivity|].
    destruct (id' =? id); [rewrite RetryCount_applyUpdates|]; lia.
Qed.

Lemma Updates_tracked (id : Z) (us : list Assignment) (db : DB) (cur : WebhookQueue) :
  gorm.FirstByID id db = Some cur ->
  exists cur', gorm.FirstByID id (gorm.Updates id us db) = Some cur'
               /\ RetryCount cur' = RetryCount cur.
Proof.
  intro H. rewrite FirstByID_Updates, H. cbn [option_map]. rewrite Z.eqb_refl.
  eexists. split; [reflexivity|]. apply RetryCount_applyUpdates.
Qed.

(** A [Save] of a row whose count does not go down, nor beyond the bound. *)
Lemma Save_keeps (now : time_Time) (m cur : WebhookQueue) (db : DB) :
  primaryKey db -> retryCountsBounded db ->
  gorm.FirstByID (ID m) db = Some cur ->
  RetryCount cur <= RetryCount m <= enums.MaxRetryAttempts ->
  primaryKey (gorm.Save now m db)
  /\ retryCountsBounded (gorm.Save now m db)
  /\ retryCountsAdvance db (gorm.Save now m db).
Proof.
  intros Hpk Hb Hcur Hrc.
  assert (Hc0 : 0 <= RetryCount cur).
  { apply FirstByID_In in Hcur. destruct Hcur as [Hin _]. apply Hb in Hin. lia. }
  split; [|split].
  - unfold primaryKey, gorm.Save. simpl. rewrite map_map.
    erewrite map_ext; [exact Hpk|]. intro r. simpl.
    destruct (ID r =? ID m) eqn:E; [|reflexivity].
    apply Z.eqb_eq in E. simpl. symmetry. exact E.
  - intros r' Hr'. unfold gorm.Save in Hr'. simpl in Hr'.
    apply in_map_iff in Hr'. destruct Hr' as (r & <- & Hr).
    destruct (ID r =? ID m); [simpl; lia|apply Hb; exact Hr].
  - intros id r H. rewrite FirstByID_Save, H. cbn [option_map].
    eexists. split; [reflexivity|].
    destruct (id =? ID m) eqn:E; [|lia].
    apply Z.eqb_eq in E. subst id. rewrite Hcur in H. inversion H; subst.
    simpl. lia.
Qed.

(** The repository's [Update] with an entity whose count is at least the
    stored one and within the bound. *)
Lemma Update_keeps (readFault saveFault : error) (now : time_Time)
  (w : WebhookQueue) (db : DB) :
  primaryKey db -> retryCountsBounded db ->
  (forall cur, gorm.FirstByID (ID w) db = Some cur ->
     RetryCount cur <= RetryCount w <= enums.MaxRetryAttempts) ->
  let db' := snd (WebhookQueueRepository.Update readFault saveFault now w db) in
  primaryKey db' /\ retryCountsBounded db' /\ retryCountsAdvance db db'.
Proof.
  intros Hpk Hb Hw db'. subst db'. unfold WebhookQueueRepository.Update.
  destruct readFault as [e|];
    [simpl; auto using advance_refl|].
  destruct (gorm.FirstByID (ID w) db) as [cur|] eqn:Hcur;
    [|simpl; auto using advance_refl].
  destruct saveFault as [e|]; [simpl; auto using advance_refl|].
  cbn [snd]. specialize (Hw cur eq_refl).
  assert (Hcb : 0 <= RetryCount cur <= enums.MaxRetryAttempts).
  { apply FirstByID_In in Hcur. destruct Hcur as [Hin _]. apply Hb. exact Hin. }
  apply Save_keeps with (cur := cur); try assumption.
  - change (ID (WebhookQueueRepository.mergeWebhookIntoModel cur w)) with (ID cur).
    destruct (FirstByID_In _ _ _ Hcur) as [_ Hid]. rewrite Hid. exact Hcur.
  - unfold WebhookQueueRepository.mergeWebhookIntoModel. cbn [RetryCount].
    match goal with |- context [if ?c then _ else _] => destruct c end; lia.
Qed.

Lemma Update_tracked (readFault saveFault : error) (now : time_Time)
  (w cur cur' : WebhookQueue) (db : DB) :
  gorm.FirstByID (ID w) db = Some cur ->
  gorm.FirstByID (ID w)
    (snd (WebhookQueueRepository.Update readFault saveFault now w db)) = Some cur' ->
  RetryCount cur' = RetryCount cur \/ RetryCount cur' = RetryCount w.
Proof.
  intros Hcur H. unfold WebhookQueueRepository.Update in H.
  destruct readFault as [e|]; [simpl in H; left; congruence|].
  rewrite Hcur in H.
  destruct saveFault as [e|]; [simpl in H; left; congruence|].
  cbn [snd] in H. rewrite FirstByID_Save, Hcur in H. cbn [option_map] in H.
  change (ID (WebhookQueueRepository.mergeWebhookIntoModel cur w)) with (ID cur) in H.
  destruct (FirstByID_In _ _ _ Hcur) as [_ Hid]. rewrite Hid, Z.eqb_refl in H.
  inversion H; subst; clear H.
  unfold WebhookQueueRepository.mergeWebhookIntoModel. cbn.
  match goal with |- context [if ?c then _ else _] => destruct c end; auto.
Qed.

Section LifeOfARow.

Variable float64 : Q -> Q.
Variable http_StatusText : Z -> string.

(** [ProcessWebhook] on an entity that carries the stored count: keys and
    bound are kept, no count goes down, and the entity it leaves carries a
    count that is at least the stored one and within the bound. *)
Lemma ProcessWebhook_keeps (send : SendResult) (clk : WebhookProcessor.Clock)
  (flt : WebhookProcessor.Faults) (sample : Q) (w c : WebhookQueue) (db : DB) :
  primaryKey db -> retryCountsBounded db ->
  gorm.FirstByID (ID w) db = Some c ->
  RetryCount c = RetryCount w ->
  let '(_, w', db') :=
    WebhookProcessor.ProcessWebhook float64 http_StatusText send clk flt sample w db in
  primaryKey db' /\ retryCountsBounded db' /\ retryCountsAdvance db db'
  /\ ID w' = ID w
  /\ forall cur, gorm.FirstByID (ID w) db' = Some cur ->
       RetryCount cur <= RetryCount w' <= enums.MaxRetryAttempts.
Proof.
  intros Hpk Hb Hc Hrc.
  assert (Hcb : 0 <= RetryCount w <= enums.MaxRetryAttempts).
  { rewrite <- Hrc. apply Hb. apply (FirstByID_In _ _ _ Hc). }
  unfold WebhookProcessor.ProcessWebhook. cbv zeta.
  (* the attempt record *)
  match goal with
  | |- context [snd (WebhookQueueRepository.UpdateRetryAttempt
                       ?f ?n ?i ?k ?s ?ct ?d ?hs ?b ?em db)] =>
      set (db1 := snd (WebhookQueueRepository.UpdateRetryAttempt
                         f n i k s ct d hs b em db));
      assert (H1 : primaryKey db1 /\ retryCountsBounded db1
                   /\ retryCountsAdvance db db1
                   /\ exists c1, gorm.FirstByID (ID w) db1 = Some c1
                                 /\ RetryCount c1 = RetryCount w)
  end.
  { subst db1. unfold WebhookQueueRepository.UpdateRetryAttempt.
    destruct (WebhookProcessor.recordFault flt) as [e|]; cbn [snd].
    - split; [exact Hpk|]. split; [exact Hb|]. split; [apply advance_refl|].
      exists c. auto.
    - match goal with
      | |- context [gorm.Updates ?i ?us db] =>
          destruct (Updates_keeps i us db Hpk Hb) as (K1 & K2 & K3);
          destruct (Updates_tracked i us db c Hc) as (c1 & T1 & T2)
      end.
      split; [exact K1|]. split; [exact K2|]. split; [exact K3|].
      exists c1. split; [exact T1|congruence]. }
  clearbody db1.
  destruct H1 as (Hpk1 & Hb1 & Ha1 & c1 & Hc1 & Hrc1).
  destruct (withLastStatus_fields http_StatusText send w) as (Hid & Hst & Hrc2 & _).
  set (w2 := WebhookProcessor.withLastStatus http_StatusText send w) in *.
  assert (Hfinal : forall us,
             primaryKey (gorm.Updates (ID w2) us db1)
             /\ retryCountsBounded (gorm.Updates (ID w2) us db1)
             /\ retryCountsAdvance db (gorm.Updates (ID w2) us db1)
             /\ ID w2 = ID w
             /\ forall cur, gorm.FirstByID (ID w) (gorm.Updates (ID w2) us db1)
                            = Some cur ->
                  RetryCount cur <= RetryCount w2 <= enums.MaxRetryAttempts).
  { intro us. destruct (Updates_keeps (ID w2) us db1 Hpk1 Hb1) as (K1 & K2 & K3).
    split; [exact K1|]. split; [exact K2|].
    split; [apply advance_trans with db1; assumption|]. split; [exact Hid|].
    intros cur H. rewrite Hid in H.
    destruct (Updates_tracked (ID w) us db1 c1 Hc1) as (c2 & T1 & T2).
    rewrite T1 in H. inversion H; subst. lia. }
  assert (Hsame : primaryKey db1 /\ retryCountsBounded db1
                  /\ retryCountsAdvance db db1 /\ ID w2 = ID w
                  /\ forall cur, gorm.FirstByID (ID w) db1 = Some cur ->
                       RetryCount cur <= RetryCount w2 <= enums.MaxRetryAttempts).
  { split; [exact Hpk1|]. split; [exact Hb1|]. split; [exact Ha1|].
    split; [exact Hid|].
    intros cur H. rewrite Hc1 in H. inversion H; subst. lia. }
  destruct (WebhookProcessor.succeeded send).
  - unfold WebhookQueueRepository.MarkCompleted.
    destruct (WebhookProcessor.writeFault flt) as [e|]; [exact Hsame|apply Hfinal].
  - destruct (CanRetry w2) eqn:Ec.
    + unfold CanRetry in Ec. apply andb_true_iff in Ec. destruct Ec as [Ec _].
      apply Z.ltb_lt in Ec.
      set (w3 := WebhookProcessor.rescheduled float64 clk sample w2).
      assert (Hid3 : ID w3 = ID w) by exact Hid.
      assert (Hrc3 : RetryCount w3 = RetryCount w + 1)
        by (unfold w3; simpl; lia).
      destruct (WebhookQueueRepository.Update (WebhookProcessor.readFault flt)
                  (WebhookProcessor.writeFault flt) (WebhookProcessor.writeNow clk)
                  w3 db1) as [e db2] eqn:EU.
      assert (Edb2 : db2 = snd (WebhookQueueRepository.Update
                                  (WebhookProcessor.readFault flt)
                                  (WebhookProcessor.writeFault flt)
                                  (WebhookProcessor.writeNow clk) w3 db1))
        by (rewrite EU; reflexivity).
      destruct (Update_keeps (WebhookProcessor.readFault flt)
                  (WebhookProcessor.writeFault flt) (WebhookProcessor.writeNow clk)
                  w3 db1 Hpk1 Hb1) as (K1 & K2 & K3).
      { intros cur Hcur. rewrite Hid3, Hc1 in Hcur. inversion Hcur; subst. lia. }
      rewrite <- Edb2 in K1, K2, K3.
      split; [exact K1|]. split; [exact K2|].
      split; [apply advance_trans with db1; assumption|]. split; [exact Hid3|].
      intros cur H. rewrite <- Hid3 in H. rewrite Edb2 in H.
      rewrite <- Hid3 in Hc1.
      destruct (Update_tracked _ _ _ _ _ _ _ Hc1 H) as [T|T]; lia.
    + unfold WebhookQueueRepository.MarkFailed.
      destruct (WebhookProcessor.writeFault flt) as [e|]; [exact Hsame|apply Hfinal].
Qed.

End LifeOfARow.

Lemma find_app_found (f : WebhookQueue -> bool) (l l' : list WebhookQueue)
  (r : WebhookQueue) :
  find f l = Some r -> find f (l ++ l') = Some r.
Proof.
  induction l as [|x l IH]; simpl; [discriminate|].
  destruct (f x); [auto|exact IH].
Qed.

(** An insert keeps the keys distinct, and the new row starts with the count
    of the entity. *)
Lemma Create_keeps (fault : error) (violation : string) (now : time_Time) (new_uuid : uuid_UUID)
  (webhook : WebhookQueue) (db : DB) :
  primaryKey db -> retryCountsBounded db ->
  0 <= RetryCount webhook <= enums.MaxRetryAttempts ->
  let db' := snd (WebhookQueueRepository.Create fault violation now new_uuid
                    webhook db) in
  primaryKey db' /\ retryCountsBounded db' /\ retryCountsAdvance db db'.
Proof.
  intros Hpk Hb Hw db'. subst db'. unfold WebhookQueueRepository.Create.
  destruct fault as [e|]; [simpl; auto using advance_refl|].
  unfold gorm.Create.
  match goal with
  | |- context [existsb ?f ?l] => destruct (existsb f l) eqn:Ex
  end; [simpl; auto using advance_refl|].
  cbn [snd webhook_queue].
  match goal with
  | |- context [(webhook_queue db ++ [?m])%list] => set (m2 := m) in *
  end.
  assert (Hrc : RetryCount m2 = RetryCount webhook).
  { subst m2. unfold gorm.columnDefaults, gorm.BeforeCreate.
    repeat match goal with
           | |- context [if ?c then _ else _] => destruct c
           end; reflexivity. }
  split; [|split].
  - unfold primaryKey. cbn [webhook_queue]. rewrite map_app. simpl.
    apply NoDup_app; [exact Hpk|repeat constructor; intros []|].
    intros i Hi [Hm|[]]. apply in_map_iff in Hi. destruct Hi as (r & Hr & Hin).
    assert (Hf : existsb (fun r0 => (ID r0 =? ID m2)
                                    || N.eqb (QueueID r0) (QueueID m2))
                         (webhook_queue db) = true).
    { apply existsb_exists. exists r. split; [exact Hin|].
      apply orb_true_iff. left. apply Z.eqb_eq. congruence. }
    congruence.
  - intros r Hr. cbn [webhook_queue] in Hr. apply in_app_or in Hr.
    destruct Hr as [Hr|[<-|[]]]; [apply Hb; exact Hr|]. rewrite Hrc. exact Hw.
  - intros id r H. exists r. split; [|lia].
    unfold gorm.FirstByID in *. cbn [webhook_queue].
    apply find_app_found. exact H.
Qed.

(** The claim keeps keys and counts, and the entity it returns carries the
    count of the row it names. *)
Lemma Claim_keeps (faults : WebhookQueueRepository.ClaimFaults) (now : time_Time)
  (retryLevel : Z) (db : DB) :
  primaryKey db -> retryCountsBounded db ->
  let '(claimed, _, db1) :=
    WebhookQueueRepository.GetNextWebhookForProcessing faults now retryLevel db in
  primaryKey db1 /\ retryCountsBounded db1 /\ retryCountsAdvance db db1
  /\ forall ent, claimed = Some ent ->
       exists c1, gorm.FirstByID (ID ent) db1 = Some c1
                  /\ RetryCount c1 = RetryCount ent.
Proof.
  intros Hpk Hb.
  assert (Hsame : primaryKey db /\ retryCountsBounded db
                  /\ retryCountsAdvance db db
                  /\ forall ent, @None WebhookQueue = Some ent ->
                       exists c1, gorm.FirstByID (ID ent) db = Some c1
                                  /\ RetryCount c1 = RetryCount ent).
  { split; [exact Hpk|]. split; [exact Hb|]. split; [apply advance_refl|].
    intros ent H. discriminate. }
  unfold WebhookQueueRepository.GetNextWebhookForProcessing.
  destruct (WebhookQueueRepository.beginFault faults); [exact Hsame|].
  destruct (WebhookQueueRepository.selectFault faults); [exact Hsame|].
  destruct (gorm.FirstWhere (WebhookQueueRepository.eligible retryLevel now) db)
    as [m|] eqn:E; [|exact Hsame].
  destruct (WebhookQueueRepository.updateFault faults); [exact Hsame|].
  destruct (WebhookQueueRepository.commitFault faults); [exact Hsame|].
  unfold gorm.FirstWhere in E. apply firstOrdered_least in E.
  destruct E as [Hin _]. apply filter_In in Hin. destruct Hin as [Hin _].
  match goal with
  | |- context [gorm.Updates ?i ?us db] =>
      destruct (Updates_keeps i us db Hpk Hb) as (K1 & K2 & K3);
      destruct (Updates_tracked i us db m (In_FirstByID _ _ Hpk Hin))
        as (c1 & T1 & T2)
  end.
  split; [exact K1|]. split; [exact K2|]. split; [exact K3|].
  intros ent H. inversion H; subst; clear H. exists c1. split; [exact T1|exact T2].
Qed.

Section Lifetime.

Variable float64 : Q -> Q.
Variable http_StatusText : Z -> string.

(** One tick of a worker of any tier. *)
Lemma tick_keeps (w : WebhookWorker.t) (env : WebhookWorker.Tick) (db : DB) :
  primaryKey db -> retryCountsBounded db ->
  let db' := WebhookWorker.processNextWebhook float64 http_StatusText w env db in
  primaryKey db' /\ retryCountsBounded db' /\ retryCountsAdvance db db'.
Proof.
  intros Hpk Hb db'. subst db'.
  unfold WebhookWorker.processNextWebhook,
    WebhookProcessor.GetNextWebhookForProcessing.
  pose proof (Claim_keeps (WebhookWorker.claimFaults env) (WebhookWorker.claimNow env)
                (WebhookWorker.retryLevel w) db Hpk Hb) as HC.
  destruct (WebhookQueueRepository.GetNextWebhookForProcessing
              (WebhookWorker.claimFaults env) (WebhookWorker.claimNow env)
              (WebhookWorker.retryLevel w) db) as [[claimed e] db1].
  destruct HC as (Hpk1 & Hb1 & Ha1 & Hent).
  destruct e as [e|];
    [destruct claimed; (split; [exact Hpk1|split; [exact Hb1|exact Ha1]])|].
  destruct claimed as [ent|];
    [|split; [exact Hpk1|split; [exact Hb1|exact Ha1]]].
  destruct (Hent ent eq_refl) as (c1 & Hc1 & Hrc1).
  pose proof (ProcessWebhook_keeps float64 http_StatusText
                (WebhookWorker.send env ent) (WebhookWorker.clock env)
                (WebhookWorker.faults env) (WebhookWorker.sample env)
                ent c1 db1 Hpk1 Hb1 Hc1 Hrc1) as HP.
  destruct (WebhookProcessor.ProcessWebhook float64 http_StatusText
              (WebhookWorker.send env ent) (WebhookWorker.clock env)
              (WebhookWorker.faults env) (WebhookWorker.sample env) ent db1)
    as [[err ent'] db2].
  destruct HP as (Hpk2 & Hb2 & Ha2 & Hid2 & Htr2).
  destruct err as [err|].
  - unfold WebhookProcessor.ResetWebhookToPending.
    set (ent2 := set_UpdatedAt (WebhookWorker.resetNow env)
                   (set_Status enums.WebhookStatusPending ent')).
    assert (Hpre : forall cur, gorm.FirstByID (ID ent2) db2 = Some cur ->
                     RetryCount cur <= RetryCount ent2 <= enums.MaxRetryAttempts).
    { intros cur Hcur. change (ID ent2) with (ID ent') in Hcur.
      rewrite Hid2 in Hcur. apply Htr2 in Hcur. exact Hcur. }
    pose proof (Update_keeps (WebhookWorker.resetReadFault env)
                  (WebhookWorker.resetSaveFault env) (WebhookWorker.resetSaveNow env)
                  ent2 db2 Hpk2 Hb2 Hpre) as HU.
    destruct (WebhookQueueRepository.Update (WebhookWorker.resetReadFault env)
                (WebhookWorker.resetSaveFault env) (WebhookWorker.resetSaveNow env)
                ent2 db2) as [e3 db3].
    cbn [snd] in HU. cbv zeta in HU.
    destruct HU as (K1 & K2 & K3).
    split; [exact K1|]. split; [exact K2|].
    apply advance_trans with db2; [|exact K3].
    apply advance_trans with db1; assumption.
  - split; [exact Hpk2|]. split; [exact Hb2|].
    apply advance_trans with db1; assumption.
Qed.

Lemma step_keeps (db db' : DB) :
  step float64 http_StatusText db db' ->
  primaryKey db -> retryCountsBounded db ->
  primaryKey db' /\ retryCountsBounded db' /\ retryCountsAdvance db db'.
Proof.
  intros Hs Hpk Hb. destruct Hs.
  - apply tick_keeps; assumption.
  - unfold WebhookProcessor.CreateWebhookEntry.
    destruct lookup as [[config|] [e|]]; cbn [snd]; auto using advance_refl.
    destruct (negb (WebhookConfig.IsActive config)); cbn [snd];
      auto using advance_refl.
    match goal with
    | |- context [WebhookQueueRepository.Create ?f ?v ?n ?u ?wh db] =>
        pose proof (Create_keeps f v n u wh db Hpk Hb) as HK;
        destruct (WebhookQueueRepository.Create f v n u wh db) as [[e ent] db1]
    end.
    cbn [snd] in HK. cbv zeta in HK.
    destruct e; cbn [snd]; apply HK; simpl; unfold enums.MaxRetryAttempts; lia.
Qed.

(** C5, amended.  From a table with distinct ids whose [retry_count]s are
    all in [0, 6], every sequence of worker ticks (of any tier: claim, record
    of the attempt, then completion, reschedule or failure, then the reset to
    pending when processing reported an error) and of accepted intake
    requests, under every send outcome, clock, jitter sample and storage
    fault, leads to a table with distinct ids whose [retry_count]s are all in
    [0, 6], in which every row of the start is still stored with a
    [retry_count] at least as large. *)
Theorem C5_retry_count_monotone_and_bounded :
  forall (db db' : DB),
    primaryKey db -> retryCountsBounded db ->
    steps float64 http_StatusText db db' ->
    primaryKey db'
    /\ (forall r, In r (webhook_queue db') -> 0 <= RetryCount r <= 6)
    /\ (forall id r, gorm.FirstByID id db = Some r ->
          exists r', gorm.FirstByID id db' = Some r'
                     /\ RetryCount r <= RetryCount r').
Proof.
  intros db db' Hpk Hb Hs.
  change (primaryKey db' /\ retryCountsBounded db' /\ retryCountsAdvance db db').
  induction Hs as [db|db mid db' Hstep Hrest IH].
  - split; [exact Hpk|]. split; [exact Hb|]. apply advance_refl.
  - destruct (step_keeps db mid Hstep Hpk Hb) as (K1 & K2 & K3).
    destruct (IH K1 K2) as (L1 & L2 & L3).
    split; [exact L1|]. split; [exact L2|].
    apply advance_trans with mid; assumption.
Qed.

End Lifetime.

(** C5, as stated, fails on the code: the merge-update of the repository
    writes the [RetryCount] of the entity it is given.  On a row stored at
    tier 3, an [Update] with a zero [RetryCount] and a set [NextRetryAt]
    stores tier 0, and an [Update] with [RetryCount] 9 stores tier 9;
    [ResetWebhookToPending] hands its entity to the same [Update]. *)
Lemma C5_update_rewrites_retry_count_counterexample :
  option_map RetryCount (gorm.FirstByID 5 sampleStoredDB) = Some 3
  /\ option_map RetryCount
       (gorm.FirstByID 5
          (snd (WebhookQueueRepository.Update None None 300 updateZeroCount
                  sampleStoredDB))) = Some 0
  /\ option_map RetryCount
       (gorm.FirstByID 5
          (snd (WebhookQueueRepository.Update None None 300
                  (set_RetryCount 9 (blankUpdate 5)) sampleStoredDB))) = Some 9
  /\ (let '(_, _, db') :=
        WebhookProcessor.ResetWebhookToPending None None 300 301
          updateZeroCount sampleStoredDB in
      option_map RetryCount (gorm.FirstByID 5 db') = Some 0).
Proof.
  repeat split; reflexivity.
Defined.

Lemma C5_retry_count_witness :
  let db' :=
    WebhookWorker.processNextWebhook exactFloat64 sampleStatusText
      sampleWorker0 sampleTick503 sampleDB in
  primaryKey sampleDB
  /\ retryCountsBounded sampleDB
  /\ steps exactFloat64 sampleStatusText sampleDB db'
  /\ primaryKey db'
  /\ (forall r, In r (webhook_queue db') -> 0 <= RetryCount r <= 6)
  /\ (forall id r, gorm.FirstByID id sampleDB = Some r ->
        exists r', gorm.FirstByID id db' = Some r'
                   /\ RetryCount r <= RetryCount r').
Proof.
  intro db'.
  assert (Hpk : primaryKey sampleDB).
  { unfold primaryKey. simpl. repeat constructor; simpl; intuition discriminate. }
  assert (Hb : retryCountsBounded sampleDB).
  { intros r Hr. simpl in Hr. unfold enums.MaxRetryAttempts.
    destruct Hr as [<-|[<-|[<-|[]]]]; simpl; lia. }
  assert (Hs : steps exactFloat64 sampleStatusText sampleDB db').
  { unfold steps. eapply Relation_Operators.rt1n_trans;
      [apply step_tick|apply Relation_Operators.rt1n_refl]. }
  split; [exact Hpk|]. split; [exact Hb|]. split; [exact Hs|].
  exact (C5_retry_count_monotone_and_bounded exactFloat64 sampleStatusText
           sampleDB db' Hpk Hb Hs).
Defined.

(** The tick of the witness: the older tier-0 row moves to tier 1. *)
Example tick_503_sample :
  map (fun r => (ID r, Status r, RetryCount r))
      (webhook_queue
         (WebhookWorker.processNextWebhook exactFloat64 sampleStatusText
            sampleWorker0 sampleTick503 sampleDB))
  = [(1, enums.WebhookStatusPending, 0);
     (2, enums.WebhookStatusPending, 1);
     (3, enums.WebhookStatusPending, 1)].
Proof. vm_compute. reflexivity. Qed.

(** A last attempt whose [MarkFailed] is lost: the reset puts the row back to
    PENDING at tier 6 with its old [next_retry_at], and the next tier-6 claim
    takes it again. *)
Example tick_lost_write_at_last_tier :
  let db' :=
    WebhookWorker.processNextWebhook exactFloat64 sampleStatusText
      sampleWorker6 sampleTickLostWrite sampleDueLastDB in
  option_map (fun r => (Status r, RetryCount r, NextRetryAt r))
    (gorm.FirstByID 7 db')
  = Some (enums.WebhookStatusPending, 6, 90)
  /\ option_map ID
       (fst (fst (WebhookQueueRepository.GetNextWebhookForProcessing
                    WebhookQueueRepository.noClaimFaults 300 6 db')))
     = Some 7.
Proof. vm_compute. split; reflexivity. Qed.

(** ** The tables of the repository's unit tests, on the embedding *)

(** [TestWebhookQueue_CanRetry]. *)
Example CanRetry_test_table :
  map (fun p => CanRetry (sampleRow 1 (snd p) (fst p) 0))
      [(0, enums.WebhookStatusPending);
       (3, enums.WebhookStatusProcessing);
       (enums.MaxRetryAttempts, enums.WebhookStatusPending);
       (enums.MaxRetryAttempts + 1, enums.WebhookStatusPending);
       (2, enums.WebhookStatusCompleted);
       (enums.MaxRetryAttempts, enums.WebhookStatusFailed)]
  = [true; true; false; false; false; false].
Proof. reflexivity. Qed.

(** The cases of [isSuccessfulResponse] in [TestWebhookProcessor_HelperMethods]. *)
Example isSuccessfulResponse_test_table :
  map WebhookProcessor.isSuccessfulResponse
      [200; 201; 202; 204; 299; 199; 300; 400; 404; 500; 503]
  = [true; true; true; true; true; false; false; false; false; false; false].
Proof. reflexivity. Qed.

(** "should test RetryCount and NextRetryAt update branch": a set count and
    time overwrite both; a zero count with a set time overwrites both; a zero
    count with a zero time overwrites neither. *)
Example merge_pair_test :
  let stored := sampleRow 1 enums.WebhookStatusPending 1 40 in
  let merged u := WebhookQueueRepository.mergeWebhookIntoModel stored u in
  (RetryCount (merged (set_NextRetryAt 500 (set_RetryCount 3 (blankUpdate 1)))),
   NextRetryAt (merged (set_NextRetryAt 500 (set_RetryCount 3 (blankUpdate 1)))))
  = (3, 500)
  /\ (RetryCount (merged (set_NextRetryAt 600 (blankUpdate 1))),
      NextRetryAt (merged (set_NextRetryAt 600 (blankUpdate 1))))
     = (0, 600)
  /\ (RetryCount (merged (blankUpdate 1)), NextRetryAt (merged (blankUpdate 1)))
     = (1, 40).
Proof. repeat split; reflexivity. Qed.

(** "should handle HTTP error response with max retries exceeded": the
    message handed to [MarkFailed] for a 503 at the last tier. *)
Example finalErrorMsg_503 :
  WebhookProcessor.finalErrorMsgOf send503 = "max retries exceeded: HTTP 503".
Proof. reflexivity. Qed.

(** The bounds of [TestWebhookProcessor_CalculateNextRetryTime] for the two
    ends of the sample range: 0.75 and 1.25 times the base delay, the lower
    end of tier 0 raised to the minute. *)
Example finalDelay_range_ends :
  map (fun k => (WebhookProcessor.finalDelay exactFloat64 k 0,
                 WebhookProcessor.finalDelay exactFloat64 k 1))
      [0; 1; 2; 3; 4; 5; 10]
  = [(60 * time_Second, 75 * time_Second);
     (225 * time_Second, 375 * time_Second);
     (450 * time_Second, 750 * time_Second);
     (1350 * time_Second, 2250 * time_Second);
     (2700 * time_Second, 4500 * time_Second);
     (5400 * time_Second, 9000 * time_Second);
     (10800 * time_Second, 18000 * time_Second)].
Proof. vm_compute. reflexivity. Qed.

(** * Further properties of the queue store *)

(** ** The claim under faults, and two claims in a row *)

(** X1. [GetNextWebhookForProcessing] under every combination of driver
    faults: a call that reports an error returns no row, a call that returns
    no row leaves the table as it was, and a call that returns a row reports
    no error.  No error path hands out a row or leaves a row PROCESSING. *)
Theorem X1_claim_error_returns_nothing :
  forall (faults : WebhookQueueRepository.ClaimFaults) (now : time_Time)
         (retryLevel : Z) (db : DB),
    let '(claimed, err, db') :=
      WebhookQueueRepository.GetNextWebhookForProcessing faults now retryLevel db in
    (err <> None -> claimed = None)
    /\ (claimed = None -> db' = db)
    /\ (err <> None <->
        WebhookQueueRepository.beginFault faults <> None
        \/ WebhookQueueRepository.selectFault faults <> None
        \/ (gorm.FirstWhere (WebhookQueueRepository.eligible retryLevel now) db
            <> None
            /\ (WebhookQueueRepository.updateFault faults <> None
                \/ WebhookQueueRepository.commitFault faults <> None))).
Proof.
  intros faults now retryLevel db.
  unfold WebhookQueueRepository.GetNextWebhookForProcessing.
  destruct (WebhookQueueRepository.beginFault faults) as [e1|].
  { split; [reflexivity|]. split; [reflexivity|]. split.
    - intros _. left. discriminate.
    - intros _. discriminate. }
  destruct (WebhookQueueRepository.selectFault faults) as [e2|].
  { split; [reflexivity|]. split; [reflexivity|]. split.
    - intros _. right. left. discriminate.
    - intros _. discriminate. }
  destruct (gorm.FirstWhere (WebhookQueueRepository.eligible retryLevel now) db)
    as [m|].
  - destruct (WebhookQueueRepository.updateFault faults) as [e3|].
    { split; [reflexivity|]. split; [reflexivity|]. split.
      - intros _. right. right. split; [discriminate|]. left. discriminate.
      - intros _. discriminate. }
    destruct (WebhookQueueRepository.commitFault faults) as [e4|].
    { split; [reflexivity|]. split; [reflexivity|]. split.
      - intros _. right. right. split; [discriminate|]. right. discriminate.
      - intros _. discriminate. }
    split; [intro H; contradiction|]. split; [discriminate|]. split.
    + intro H. contradiction.
    + intros [H|[H|[_ [H|H]]]]; contradiction.
  - split; [reflexivity|]. split; [reflexivity|]. split.
    + intro H. contradiction.
    + intros [H|[H|[H _]]]; contradiction.
Qed.

(** After the claim's [UPDATE], every row that carries the claimed id is
    PROCESSING. *)
Lemma claimed_rows_processing (id : Z) (now : time_Time) (db : DB) (r : WebhookQueue) :
  In r (webhook_queue
          (gorm.Updates id [col_status enums.WebhookStatusProcessing;
                            col_updated_at now] db)) ->
  ID r = id -> Status r = enums.WebhookStatusProcessing.
Proof.
  intros Hin Hid. unfold gorm.Updates in Hin. simpl in Hin.
  apply in_map_iff in Hin. destruct Hin as (x & Hx & _).
  destruct (ID x =? id) eqn:E.
  - subst r. reflexivity.
  - subst r. apply Z.eqb_neq in E. contradiction.
Qed.

(** What a claim that returns a row has done. *)
Lemma claim_returns (faults : WebhookQueueRepository.ClaimFaults) (now : time_Time)
  (retryLevel : Z) (db db' : DB) (row : WebhookQueue) (err : error) :
  WebhookQueueRepository.GetNextWebhookForProcessing faults now retryLevel db
  = (Some row, err, db') ->
  exists m,
    gorm.FirstWhere (WebhookQueueRepository.eligible retryLevel now) db = Some m
    /\ row = set_UpdatedAt now (set_Status enums.WebhookStatusProcessing m)
    /\ db' = gorm.Updates (ID m) [col_status enums.WebhookStatusProcessing;
                                  col_updated_at now] db
    /\ err = None.
Proof.
  unfold WebhookQueueRepository.GetNextWebhookForProcessing.
  destruct (WebhookQueueRepository.beginFault faults); [discriminate|].
  destruct (WebhookQueueRepository.selectFault faults); [discriminate|].
  destruct (gorm.FirstWhere (WebhookQueueRepository.eligible retryLevel now) db)
    as [m|]; [|discriminate].
  destruct (WebhookQueueRepository.updateFault faults); [discriminate|].
  destruct (WebhookQueueRepository.commitFault faults); [discriminate|].
  intro H. inversion H; subst. exists m. repeat split.
Qed.

Lemma FirstWhere_In (cond : WebhookQueue -> bool) (db : DB) (m : WebhookQueue) :
  gorm.FirstWhere cond db = Some m -> In m (webhook_queue db) /\ cond m = true.
Proof.
  unfold gorm.FirstWhere. intro H. apply firstOrdered_least in H.
  destruct H as [H _]. apply filter_In in H. exact H.
Qed.

(** X2. Two claims in a row never hand out the same row: whatever the tiers,
    the instants and the faults of the second claim, the row it returns has
    another id than the row the first claim returned. *)
Theorem X2_no_double_claim :
  forall (f1 f2 : WebhookQueueRepository.ClaimFaults) (now1 now2 : time_Time)
         (tier1 tier2 : Z) (db db1 db2 : DB) (row1 row2 : WebhookQueue)
         (e1 e2 : error),
    WebhookQueueRepository.GetNextWebhookForProcessing f1 now1 tier1 db
    = (Some row1, e1, db1) ->
    WebhookQueueRepository.GetNextWebhookForProcessing f2 now2 tier2 db1
    = (Some row2, e2, db2) ->
    ID row2 <> ID row1.
Proof.
  intros f1 f2 now1 now2 tier1 tier2 db db1 db2 row1 row2 e1 e2 H1 H2.
  apply claim_returns in H1. destruct H1 as (m1 & _ & R1 & D1 & _).
  apply claim_returns in H2. destruct H2 as (m2 & F2 & R2 & _ & _).
  apply FirstWhere_In in F2. destruct F2 as [Hin Hel].
  apply eligible_iff in Hel. destruct Hel as (Hs & _ & _).
  subst row1 row2. simpl. intro Heq. rewrite D1 in Hin.
  pose proof (claimed_rows_processing _ _ _ _ Hin Heq) as Hp.
  rewrite Hp in Hs. discriminate.
Qed.

Lemma X2_no_double_claim_witness :
  WebhookQueueRepository.GetNextWebhookForProcessing
    WebhookQueueRepository.noClaimFaults 200 0 sampleDB
  = (Some sampleClaimed, None, sampleClaimedDB)
  /\ WebhookQueueRepository.GetNextWebhookForProcessing
       WebhookQueueRepository.noClaimFaults 201 0 sampleClaimedDB
     = (Some (set_UpdatedAt 201 (sampleRow 1 enums.WebhookStatusProcessing 0 100)),
        None,
        mkDB [set_UpdatedAt 201 (sampleRow 1 enums.WebhookStatusProcessing 0 100);
              sampleClaimed;
              sampleRow 3 enums.WebhookStatusPending 1 50] 4)
  /\ ID (set_UpdatedAt 201 (sampleRow 1 enums.WebhookStatusProcessing 0 100))
     <> ID sampleClaimed.
Proof.
  split; [reflexivity|]. split; [reflexivity|].
  apply (X2_no_double_claim WebhookQueueRepository.noClaimFaults
           WebhookQueueRepository.noClaimFaults 200 201 0 0 sampleDB
           sampleClaimedDB
           (mkDB [set_UpdatedAt 201 (sampleRow 1 enums.WebhookStatusProcessing 0 100);
                  sampleClaimed;
                  sampleRow 3 enums.WebhookStatusPending 1 50] 4)
           sampleClaimed
           (set_UpdatedAt 201 (sampleRow 1 enums.WebhookStatusProcessing 0 100))
           None None); reflexivity.
Defined.

(** ** What the single-row writes leave alone *)

(** X3. [MarkFailed], for every id, message and table: the row with that id
    gets [status] FAILED, [last_error] the message and [updated_at] [now];
    nothing else of it changes, in particular [completed_at] and
    [processing_started_at] are not written, and [retry_count],
    [next_retry_at], [last_http_status] and the history stay; every other row
    and the id sequence are unchanged. *)
Theorem X3_MarkFailed_frame :
  forall (now : time_Time) (webhookID : Z) (errorMsg : string) (db : DB),
    let '(err, db') :=
      WebhookQueueRepository.MarkFailed None now webhookID errorMsg db in
    err = None
    /\ id_seq db' = id_seq db
    /\ Forall2
         (fun r r' =>
            (ID r = webhookID ->
               Status r' = enums.WebhookStatusFailed
               /\ LastError r' = errorMsg
               /\ UpdatedAt r' = now
               /\ CompletedAt r' = CompletedAt r
               /\ ProcessingStartedAt r' = ProcessingStartedAt r
               /\ RetryCount r' = RetryCount r
               /\ NextRetryAt r' = NextRetryAt r
               /\ LastHTTPStatus r' = LastHTTPStatus r
               /\ Retries r' = Retries r
               /\ ID r' = ID r
               /\ QueueID r' = QueueID r
               /\ EventType r' = EventType r
               /\ EventID r' = EventID r
               /\ ConfigID r' = ConfigID r
               /\ WebhookURL r' = WebhookURL r
               /\ CreatedAt r' = CreatedAt r
               /\ DeletedAt r' = DeletedAt r)
            /\ (ID r <> webhookID -> r' = r))
         (webhook_queue db) (webhook_queue db').
Proof.
  intros now webhookID errorMsg db.
  unfold WebhookQueueRepository.MarkFailed. cbv beta iota.
  split; [reflexivity|]. split; [reflexivity|].
  apply Updates_rowwise.
  - intros r Hr. split; [|intro H; contradiction].
    intros _. simpl. repeat split; reflexivity.
  - intros r Hr. split; [intro H; contradiction|reflexivity].
Qed.

Lemma getAttempt_setAttempt_other (j k : Z) (a : RetryAttempt) (h : RetryHistory) :
  j <> k -> getAttempt j (setAttempt k a h) = getAttempt j h.
Proof.
  intro H. tier_split k; try reflexivity;
    tier_split j; try reflexivity; exfalso; apply H; reflexivity.
Qed.

Lemma getAttempt_updAttempt_other (j k : Z) (f : RetryAttempt -> RetryAttempt)
  (w : WebhookQueue) :
  j <> k -> getAttempt j (Retries (updAttempt k f w)) = getAttempt j (Retries w).
Proof.
  intro H. unfold updAttempt.
  destruct (getAttempt k (Retries w)); [|reflexivity].
  simpl. apply getAttempt_setAttempt_other. exact H.
Qed.

(** An assignment writes, of the history, at most the slot it names. *)
Lemma getAttempt_assign_other (j : Z) (a : Assignment) (w : WebhookQueue) :
  match a with
  | col_retry_started_at k _ | col_retry_completed_at k _
  | col_retry_duration_ms k _ | col_retry_http_status k _
  | col_retry_response_body k _ | col_retry_error k _ => j <> k
  | _ => True
  end ->
  getAttempt j (Retries (assign a w)) = getAttempt j (Retries w).
Proof.
  destruct a; simpl; intro H; try reflexivity;
    apply getAttempt_updAttempt_other; exact H.
Qed.

Lemma getAttempt_applyUpdates_other (j : Z) (us : list Assignment) :
  Forall (fun a =>
            match a with
            | col_retry_started_at k _ | col_retry_completed_at k _
            | col_retry_duration_ms k _ | col_retry_http_status k _
            | col_retry_response_body k _ | col_retry_error k _ => j <> k
            | _ => True
            end) us ->
  forall w, getAttempt j (Retries (applyUpdates us w)) = getAttempt j (Retries w).
Proof.
  unfold applyUpdates. induction 1 as [|a us Ha _ IH]; intro w; simpl.
  - reflexivity.
  - rewrite IH. apply getAttempt_assign_other. exact Ha.
Qed.

(** The columns no assignment of [UpdateRetryAttempt] names. *)
Lemma attempt_assign_frame (a : Assignment) (w : WebhookQueue) :
  match a with
  | col_status _ | col_processing_started_at _ | col_completed_at _ => False
  | _ => True
  end ->
  Status (assign a w) = Status w
  /\ ProcessingStartedAt (assign a w) = ProcessingStartedAt w
  /\ CompletedAt (assign a w) = CompletedAt w
  /\ QueueID (assign a w) = QueueID w
  /\ EventType (assign a w) = EventType w
  /\ EventID (assign a w) = EventID w
  /\ ConfigID (assign a w) = ConfigID w
  /\ WebhookURL (assign a w) = WebhookURL w
  /\ CreatedAt (assign a w) = CreatedAt w
  /\ DeletedAt (assign a w) = DeletedAt w
  /\ NextRetryAt (assign a w) = NextRetryAt w.
Proof.
  destruct a; simpl; intro H; try contradiction;
    try (repeat split; reflexivity);
    unfold updAttempt; destruct (getAttempt k (Retries w));
    repeat split; reflexivity.
Qed.

Lemma attempt_updates_frame (us : list Assignment) :
  Forall (fun a =>
            match a with
            | col_status _ | col_processing_started_at _ | col_completed_at _ => False
            | _ => True
            end) us ->
  forall w,
    Status (applyUpdates us w) = Status w
    /\ ProcessingStartedAt (applyUpdates us w) = ProcessingStartedAt w
    /\ CompletedAt (applyUpdates us w) = CompletedAt w
    /\ QueueID (applyUpdates us w) = QueueID w
    /\ EventType (applyUpdates us w) = EventType w
    /\ EventID (applyUpdates us w) = EventID w
    /\ ConfigID (applyUpdates us w) = ConfigID w
    /\ WebhookURL (applyUpdates us w) = WebhookURL w
    /\ CreatedAt (applyUpdates us w) = CreatedAt w
    /\ DeletedAt (applyUpdates us w) = DeletedAt w
    /\ NextRetryAt (applyUpdates us w) = NextRetryAt w.
Proof.
  unfold applyUpdates. induction 1 as [|a us Ha _ IH]; intro w; simpl.
  - repeat split; reflexivity.
  - destruct (IH (assign a w)) as (I1 & I2 & I3 & I4 & I5 & I6 & I7 & I8 & I9 & I10 & I11).
    destruct (attempt_assign_frame a w Ha)
      as (A1 & A2 & A3 & A4 & A5 & A6 & A7 & A8 & A9 & A10 & A11).
    rewrite I1, I2, I3, I4, I5, I6, I7, I8, I9, I10, I11.
    repeat split; assumption.
Qed.

Lemma retryAttemptUpdates_slots (now : time_Time) (k : Z) (startedAt : time_Time)
  (completedAt : option time_Time) (durationMs httpStatus : Z)
  (responseBody errorMsg : string) (j : Z) :
  j <> k ->
  Forall (fun a =>
            match a with
            | col_retry_started_at k _ | col_retry_completed_at k _
            | col_retry_duration_ms k _ | col_retry_http_status k _
            | col_retry_response_body k _ | col_retry_error k _ => j <> k
            | _ => True
            end)
    (WebhookQueueRepository.retryAttemptUpdates now k startedAt completedAt
       durationMs httpStatus responseBody errorMsg).
Proof.
  intro H.
  unfold WebhookQueueRepository.retryAttemptUpdates,
    WebhookQueueRepository.attemptUpdates.
  tier_split k; destruct completedAt; destruct (String.eqb errorMsg "");
    simpl; repeat constructor; exact H.
Qed.

Lemma retryAttemptUpdates_columns (now : time_Time) (k : Z) (startedAt : time_Time)
  (completedAt : option time_Time) (durationMs httpStatus : Z)
  (responseBody errorMsg : string) :
  Forall (fun a =>
            match a with
            | col_status _ | col_processing_started_at _ | col_completed_at _ => False
            | _ => True
            end)
    (WebhookQueueRepository.retryAttemptUpdates now k startedAt completedAt
       durationMs httpStatus responseBody errorMsg).
Proof.
  unfold WebhookQueueRepository.retryAttemptUpdates,
    WebhookQueueRepository.attemptUpdates.
  tier_split k; destruct completedAt; destruct (String.eqb errorMsg "");
    simpl; repeat constructor.
Qed.

Lemma retryAttemptUpdates_no_slot (now : time_Time) (k : Z) (startedAt : time_Time)
  (completedAt : option time_Time) (durationMs httpStatus : Z)
  (responseBody errorMsg : string) (r : WebhookQueue) :
  ~ 0 <= k <= 6 ->
  Retries (applyUpdates
             (WebhookQueueRepository.retryAttemptUpdates now k startedAt
                completedAt durationMs httpStatus responseBody errorMsg) r)
  = Retries r.
Proof.
  intro H.
  unfold WebhookQueueRepository.retryAttemptUpdates,
    WebhookQueueRepository.attemptUpdates.
  tier_split k; try (exfalso; apply H; lia);
    destruct (String.eqb errorMsg ""); reflexivity.
Qed.

(** X4. [UpdateRetryAttempt] at tier [retryLevel], for every id and table:
    of the addressed row it leaves [status], [retry_count], [next_retry_at],
    [processing_started_at], [completed_at], the identity columns and every
    history slot other than the one of [retryLevel] as they were, and writes
    [last_http_status] and [updated_at]; with a [retryLevel] outside [0..6]
    no history slot is written at all.  Every other row and the id sequence
    are unchanged. *)
Theorem X4_UpdateRetryAttempt_frame :
  forall (now : time_Time) (webhookID retryLevel : Z) (startedAt : time_Time)
         (completedAt : option time_Time) (durationMs httpStatus : Z)
         (responseBody errorMsg : string) (db : DB),
    let '(err, db') :=
      WebhookQueueRepository.UpdateRetryAttempt None now webhookID retryLevel
        startedAt completedAt durationMs httpStatus responseBody errorMsg db in
    err = None
    /\ id_seq db' = id_seq db
    /\ Forall2
         (fun r r' =>
            (ID r = webhookID ->
               (forall j, j <> retryLevel ->
                  getAttempt j (Retries r') = getAttempt j (Retries r))
               /\ (~ 0 <= retryLevel <= 6 -> Retries r' = Retries r)
               /\ LastHTTPStatus r' = httpStatus
               /\ UpdatedAt r' = now
               /\ Status r' = Status r
               /\ RetryCount r' = RetryCount r
               /\ NextRetryAt r' = NextRetryAt r
               /\ ProcessingStartedAt r' = ProcessingStartedAt r
               /\ CompletedAt r' = CompletedAt r
               /\ ID r' = ID r
               /\ QueueID r' = QueueID r
               /\ EventType r' = EventType r
               /\ EventID r' = EventID r
               /\ ConfigID r' = ConfigID r
               /\ WebhookURL r' = WebhookURL r
               /\ CreatedAt r' = CreatedAt r
               /\ DeletedAt r' = DeletedAt r)
            /\ (ID r <> webhookID -> r' = r))
         (webhook_queue db) (webhook_queue db').
Proof.
  intros now webhookID retryLevel startedAt completedAt durationMs httpStatus
    responseBody errorMsg db.
  unfold WebhookQueueRepository.UpdateRetryAttempt. cbv beta iota zeta.
  split; [reflexivity|]. split; [reflexivity|].
  apply Updates_rowwise.
  - intros r Hr. split; [|intro H; contradiction].
    intros _.
    destruct (attempt_updates_frame _
                (retryAttemptUpdates_columns now retryLevel startedAt completedAt
                   durationMs httpStatus responseBody errorMsg) r)
      as (A1 & A2 & A3 & A4 & A5 & A6 & A7 & A8 & A9 & A10 & A11).
    split.
    { intros j Hj. apply getAttempt_applyUpdates_other.
      apply retryAttemptUpdates_slots. exact Hj. }
    split; [apply retryAttemptUpdates_no_slot|].
    split.
    { unfold WebhookQueueRepository.retryAttemptUpdates,
        WebhookQueueRepository.attemptUpdates.
      tier_split retryLevel; destruct completedAt;
        destruct (String.eqb errorMsg ""); reflexivity. }
    split.
    { unfold WebhookQueueRepository.retryAttemptUpdates,
        WebhookQueueRepository.attemptUpdates.
      tier_split retryLevel; destruct completedAt;
        destruct (String.eqb errorMsg ""); reflexivity. }
    split; [exact A1|].
    split; [apply RetryCount_applyUpdates|].
    split; [exact A11|].
    split; [exact A2|].
    split; [exact A3|].
    split; [apply ID_applyUpdates|].
    split; [exact A4|].
    split; [exact A5|].
    split; [exact A6|].
    split; [exact A7|].
    split; [exact A8|].
    split; [exact A9|].
    exact A10.
  - intros r Hr. split; [intro H; contradiction|reflexivity].
Qed.

(** ** Writes addressed to a row that is not there *)

Lemma Updates_missing (id : Z) (us : list Assignment) (db : DB) :
  gorm.FirstByID id db = None -> gorm.Updates id us db = db.
Proof.
  intro H. destruct db as [rows seq]. unfold gorm.Updates, set_rows. simpl.
  f_equal. unfold gorm.FirstByID in H. simpl in H.
  rewrite <- (map_id rows) at 2. apply map_ext_in. intros r Hr.
  rewrite (find_none _ _ H r Hr). reflexivity.
Qed.

(** X5. When no row has the id, [MarkCompleted], [MarkFailed] and
    [UpdateRetryAttempt] report no error and leave the table as it is (an
    [UPDATE] that matches no row is no error), while [Update] reports
    [failed to get current webhook state: record not found] and writes
    nothing. *)
Theorem X5_writes_to_a_missing_row :
  forall (id : Z) (db : DB),
    gorm.FirstByID id db = None ->
    (forall now processingStartedAt,
       WebhookQueueRepository.MarkCompleted None now id processingStartedAt db
       = (None, db))
    /\ (forall now errorMsg,
          WebhookQueueRepository.MarkFailed None now id errorMsg db = (None, db))
    /\ (forall now retryLevel startedAt completedAt durationMs httpStatus
               responseBody errorMsg,
          WebhookQueueRepository.UpdateRetryAttempt None now id retryLevel
            startedAt completedAt durationMs httpStatus responseBody errorMsg db
          = (None, db))
    /\ (forall saveFault now webhook,
          ID webhook = id ->
          WebhookQueueRepository.Update None saveFault now webhook db
          = (Some "failed to get current webhook state: record not found", db)).
Proof.
  intros id db H.
  split.
  { intros. unfold WebhookQueueRepository.MarkCompleted.
    rewrite Updates_missing by exact H. reflexivity. }
  split.
  { intros. unfold WebhookQueueRepository.MarkFailed.
    rewrite Updates_missing by exact H. reflexivity. }
  split.
  { intros. unfold WebhookQueueRepository.UpdateRetryAttempt. cbv zeta.
    rewrite Updates_missing by exact H. reflexivity. }
  intros saveFault now webhook Hid.
  unfold WebhookQueueRepository.Update. rewrite Hid, H. reflexivity.
Qed.

Lemma X5_writes_to_a_missing_row_witness :
  gorm.FirstByID 9 sampleDB = None
  /\ WebhookQueueRepository.MarkCompleted None 300 9 250 sampleDB = (None, sampleDB)
  /\ WebhookQueueRepository.Update None None 300 (blankUpdate 9) sampleDB
     = (Some "failed to get current webhook state: record not found", sampleDB).
Proof.
  split; [reflexivity|].
  destruct (X5_writes_to_a_missing_row 9 sampleDB eq_refl) as (H1 & _ & _ & H4).
  split; [apply H1|]. apply H4. reflexivity.
Defined.

(** ** Insert and look up *)

Lemma find_app_new (id : Z) (l : list WebhookQueue) (m : WebhookQueue) :
  (forall r, In r l -> ID r <> id) -> ID m = id ->
  find (fun r => ID r =? id) (l ++ [m]) = Some m.
Proof.
  intros Hl Hm. induction l as [|x l IH]; simpl.
  - rewrite Hm, Z.eqb_refl. reflexivity.
  - destruct (ID x =? id) eqn:E.
    + apply Z.eqb_eq in E. exfalso. apply (Hl x); [left; reflexivity|exact E].
    + apply IH. intros r Hr. apply Hl. right. exact Hr.
Qed.

Lemma inserted_fields (now : time_Time) (new_uuid : uuid_UUID) (m : WebhookQueue) :
  let m1 := gorm.columnDefaults now (gorm.BeforeCreate new_uuid m) in
  ID m1 = ID m
  /\ QueueID m1 = (if N.eqb (QueueID m) uuid_Nil then new_uuid else QueueID m)
  /\ Status m1
     = (if String.eqb (Status m) "" then enums.WebhookStatusPending else Status m)
  /\ NextRetryAt m1 = (if time_IsZero (NextRetryAt m) then now else NextRetryAt m)
  /\ CreatedAt m1 = (if time_IsZero (CreatedAt m) then now else CreatedAt m)
  /\ UpdatedAt m1 = (if time_IsZero (UpdatedAt m) then now else UpdatedAt m)
  /\ EventType m1 = EventType m
  /\ EventID m1 = EventID m
  /\ ConfigID m1 = ConfigID m
  /\ WebhookURL m1 = WebhookURL m
  /\ RetryCount m1 = RetryCount m
  /\ Retries m1 = Retries m
  /\ LastError m1 = LastError m
  /\ LastHTTPStatus m1 = LastHTTPStatus m
  /\ ProcessingStartedAt m1 = ProcessingStartedAt m
  /\ CompletedAt m1 = CompletedAt m
  /\ DeletedAt m1 = DeletedAt m.
Proof.
  destruct m as [i q et ei ci url st rc nx h le ls ca ua ps cp dl].
  unfold gorm.columnDefaults, gorm.BeforeCreate. simpl.
  destruct (N.eqb q uuid_Nil); simpl;
    destruct (String.eqb st ""); simpl;
    destruct (time_IsZero nx); simpl;
    destruct (time_IsZero ca); simpl;
    destruct (time_IsZero ua); simpl;
    repeat split; reflexivity.
Qed.

(** X6. A [Create] that reports no error has appended one row and nothing
    else: the row is read back under the id the entity received; its id is
    the next value of the sequence when the entity had none (and the sequence
    moves on by one), its [queue_id] is the fresh uuid when the entity had
    none; [status], [next_retry_at], [created_at] and [updated_at] take their
    column defaults only when the entity left them zero; all other columns
    are the entity's.  No older row has that id or that [queue_id], and every
    older row is read back as before. *)
Theorem X6_Create_then_lookup :
  forall (violation : string) (now : time_Time) (new_uuid : uuid_UUID)
         (webhook inserted : WebhookQueue) (db db' : DB),
    WebhookQueueRepository.Create None violation now new_uuid webhook db
    = (None, inserted, db') ->
    exists stored,
      webhook_queue db' = (webhook_queue db ++ [stored])%list
      /\ gorm.FirstByID (ID inserted) db' = Some stored
      /\ inserted = set_QueueID (QueueID stored) (set_ID (ID stored) webhook)
      /\ ID stored = (if ID webhook =? 0 then id_seq db else ID webhook)
      /\ id_seq db' = (if ID webhook =? 0 then id_seq db + 1 else id_seq db)
      /\ QueueID stored
         = (if N.eqb (QueueID webhook) uuid_Nil then new_uuid else QueueID webhook)
      /\ Status stored
         = (if String.eqb (Status webhook) "" then enums.WebhookStatusPending
            else Status webhook)
      /\ NextRetryAt stored
         = (if time_IsZero (NextRetryAt webhook) then now else NextRetryAt webhook)
      /\ CreatedAt stored
         = (if time_IsZero (CreatedAt webhook) then now else CreatedAt webhook)
      /\ UpdatedAt stored
         = (if time_IsZero (UpdatedAt webhook) then now else UpdatedAt webhook)
      /\ EventType stored = EventType webhook
      /\ EventID stored = EventID webhook
      /\ ConfigID stored = ConfigID webhook
      /\ WebhookURL stored = WebhookURL webhook
      /\ RetryCount stored = RetryCount webhook
      /\ Retries stored = Retries webhook
      /\ LastError stored = LastError webhook
      /\ LastHTTPStatus stored = LastHTTPStatus webhook
      /\ (forall r, In r (webhook_queue db) ->
            ID r <> ID stored /\ QueueID r <> QueueID stored)
      /\ (forall id r, gorm.FirstByID id db = Some r ->
            gorm.FirstByID id db' = Some r).
Proof.
  intros violation now new_uuid webhook inserted db db'.
  unfold WebhookQueueRepository.Create, gorm.Create. cbv zeta.
  pose proof (inserted_fields now new_uuid
                (WebhookQueueRepository.entityToModel webhook)) as F.
  cbv zeta in F.
  set (m1 := gorm.columnDefaults now
               (gorm.BeforeCreate new_uuid
                  (WebhookQueueRepository.entityToModel webhook))) in *.
  destruct F as (F1 & F2 & F3 & F4 & F5 & F6 & F7 & F8 & F9 & F10 & F11 & F12
                 & F13 & F14 & _).
  simpl in F1, F2, F3, F4, F5, F6, F7, F8, F9, F10, F11, F12, F13, F14.
  set (m2 := if ID m1 =? 0 then set_ID (id_seq db) m1 else m1).
  assert (Hm2 : ID m2 = (if ID webhook =? 0 then id_seq db else ID webhook)
                /\ QueueID m2 = QueueID m1 /\ Status m2 = Status m1
                /\ NextRetryAt m2 = NextRetryAt m1 /\ CreatedAt m2 = CreatedAt m1
                /\ UpdatedAt m2 = UpdatedAt m1 /\ EventType m2 = EventType m1
                /\ EventID m2 = EventID m1 /\ ConfigID m2 = ConfigID m1
                /\ WebhookURL m2 = WebhookURL m1 /\ RetryCount m2 = RetryCount m1
                /\ Retries m2 = Retries m1 /\ LastError m2 = LastError m1
                /\ LastHTTPStatus m2 = LastHTTPStatus m1).
  { subst m2. rewrite F1. destruct (ID webhook =? 0) eqn:E.
    - simpl. repeat split; reflexivity.
    - rewrite F1. repeat split; reflexivity. }
  destruct Hm2 as (G1 & G2 & G3 & G4 & G5 & G6 & G7 & G8 & G9 & G10 & G11 & G12
                   & G13 & G14).
  destruct (existsb (fun r => (ID r =? ID m2) || N.eqb (QueueID r) (QueueID m2))
              (webhook_queue db)) eqn:Edup; [discriminate|].
  intro H. inversion H; subst inserted db'; clear H.
  assert (Hnew : forall r, In r (webhook_queue db) ->
                   ID r <> ID m2 /\ QueueID r <> QueueID m2).
  { intros r Hr.
    assert (Hf : (ID r =? ID m2) || N.eqb (QueueID r) (QueueID m2) = false).
    { destruct ((ID r =? ID m2) || N.eqb (QueueID r) (QueueID m2)) eqn:E;
        [|reflexivity].
      rewrite <- Edup. symmetry. apply existsb_exists. exists r.
      split; [exact Hr|exact E]. }
    apply orb_false_iff in Hf. destruct Hf as [Hi Hq].
    split; [apply Z.eqb_neq; exact Hi|apply N.eqb_neq; exact Hq]. }
  exists m2. simpl.
  split; [reflexivity|].
  split.
  { unfold gorm.FirstByID. simpl. apply find_app_new; [|reflexivity].
    intros r Hr. apply Hnew. exact Hr. }
  split; [reflexivity|].
  split; [exact G1|].
  split; [rewrite F1; reflexivity|].
  split; [rewrite G2; exact F2|].
  split; [rewrite G3; exact F3|].
  split; [rewrite G4; exact F4|].
  split; [rewrite G5; exact F5|].
  split; [rewrite G6; exact F6|].
  split; [rewrite G7; exact F7|].
  split; [rewrite G8; exact F8|].
  split; [rewrite G9; exact F9|].
  split; [rewrite G10; exact F10|].
  split; [rewrite G11; exact F11|].
  split; [rewrite G12; exact F12|].
  split; [rewrite G13; exact F13|].
  split; [rewrite G14; exact F14|].
  split; [exact Hnew|].
  intros id r Hr. unfold gorm.FirstByID in *. simpl.
  apply find_app_found. exact Hr.
Qed.

Lemma X6_Create_then_lookup_witness :
  WebhookQueueRepository.Create None sampleViolation 100 42%N freshEntity sampleDB
  = (None, set_QueueID 42%N (set_ID 4 freshEntity),
     mkDB (webhook_queue sampleDB ++ [set_QueueID 42%N (set_ID 4 freshEntity)]) 5)
  /\ exists stored,
       gorm.FirstByID 4
         (mkDB (webhook_queue sampleDB ++ [set_QueueID 42%N (set_ID 4 freshEntity)]) 5)
       = Some stored
       /\ ID stored = 4 /\ QueueID stored = 42%N.
Proof.
  split; [reflexivity|].
  destruct (X6_Create_then_lookup sampleViolation 100 42%N freshEntity
              (set_QueueID 42%N (set_ID 4 freshEntity)) sampleDB
              (mkDB (webhook_queue sampleDB
                     ++ [set_QueueID 42%N (set_ID 4 freshEntity)]) 5) eq_refl)
    as (stored & _ & Hl & _ & Hi & _ & Hq & _).
  exists stored. split; [exact Hl|]. split; [exact Hi|exact Hq].
Defined.

(** ** Claim, then release *)

(** The merge of a claimed entity, put back to PENDING, into its own stored
    row gives the row as it was before the claim. *)
Lemma merge_released (m : WebhookQueue) (now rnow snow : time_Time) :
  Status m = enums.WebhookStatusPending ->
  gorm.BeforeUpdate snow
    (WebhookQueueRepository.mergeWebhookIntoModel
       (applyUpdates [col_status enums.WebhookStatusProcessing; col_updated_at now] m)
       (set_UpdatedAt rnow
          (set_Status enums.WebhookStatusPending
             (set_UpdatedAt now (set_Status enums.WebhookStatusProcessing m)))))
  = set_UpdatedAt snow m.
Proof.
  destruct m as [i q et ei ci url st rc nx h le ls ca ua ps cp dl].
  simpl. intros ->.
  unfold WebhookQueueRepository.mergeWebhookIntoModel, gorm.BeforeUpdate,
    set_UpdatedAt. simpl.
  destruct (N.eqb q uuid_Nil); destruct (String.eqb et "");
    destruct (String.eqb ei ""); destruct (ci =? 0); destruct (String.eqb url "");
    destruct (negb (rc =? 0) || negb (time_IsZero nx));
    destruct (String.eqb le ""); destruct (ls =? 0);
    destruct ps; destruct cp; destruct dl; reflexivity.
Qed.

(** X8. Claim, then [ResetWebhookToPending] with the claimed entity: the
    reset reports no error, and afterwards every row reads back as before the
    claim, except that the claimed row carries the [updated_at] of the reset's
    save.  The row is PENDING at its tier with its [next_retry_at] again, so
    the next claim of the tier can take it. *)
Theorem X8_claim_then_reset_restores :
  forall (faults : WebhookQueueRepository.ClaimFaults) (now rnow snow : time_Time)
         (retryLevel : Z) (db db1 : DB) (claimed : WebhookQueue) (err : error),
    primaryKey db ->
    WebhookProcessor.GetNextWebhookForProcessing faults now retryLevel db
    = (Some claimed, err, db1) ->
    let '(e, _, db2) :=
      WebhookProcessor.ResetWebhookToPending None None rnow snow claimed db1 in
    e = None
    /\ id_seq db2 = id_seq db
    /\ forall id,
         gorm.FirstByID id db2
         = option_map (fun r => if id =? ID claimed then set_UpdatedAt snow r else r)
             (gorm.FirstByID id db).
Proof.
  intros faults now rnow snow retryLevel db db1 claimed err Hpk Hclaim.
  unfold WebhookProcessor.GetNextWebhookForProcessing in Hclaim.
  apply claim_returns in Hclaim. destruct Hclaim as (m & Hm & Hrow & Hdb1 & _).
  apply FirstWhere_In in Hm. destruct Hm as [Hin Hel].
  apply eligible_iff in Hel. destruct Hel as (Hs & _ & _).
  pose proof (In_FirstByID _ _ Hpk Hin) as Hfind.
  assert (Hid : ID claimed = ID m) by (subst claimed; reflexivity).
  unfold WebhookProcessor.ResetWebhookToPending, WebhookQueueRepository.Update.
  cbv zeta.
  replace (ID (set_UpdatedAt rnow (set_Status enums.WebhookStatusPending claimed)))
    with (ID m) by (subst claimed; reflexivity).
  assert (H1 : gorm.FirstByID (ID m) db1
               = Some (applyUpdates [col_status enums.WebhookStatusProcessing;
                                     col_updated_at now] m)).
  { rewrite Hdb1, FirstByID_Updates. unfold gorm.FirstByID. rewrite Hfind.
    cbn [option_map]. rewrite Z.eqb_refl. reflexivity. }
  rewrite H1.
  split; [reflexivity|].
  split; [rewrite Hdb1; reflexivity|].
  assert (Hmerged :
            gorm.BeforeUpdate snow
              (WebhookQueueRepository.mergeWebhookIntoModel
                 (applyUpdates [col_status enums.WebhookStatusProcessing;
                                col_updated_at now] m)
                 (set_UpdatedAt rnow
                    (set_Status enums.WebhookStatusPending claimed)))
            = set_UpdatedAt snow m).
  { rewrite Hrow. apply merge_released. exact Hs. }
  intro id. rewrite FirstByID_Save, Hmerged.
  change (ID (WebhookQueueRepository.mergeWebhookIntoModel
                (applyUpdates [col_status enums.WebhookStatusProcessing;
                               col_updated_at now] m)
                (set_UpdatedAt rnow
                   (set_Status enums.WebhookStatusPending claimed))))
    with (ID m).
  rewrite Hdb1, FirstByID_Updates, Hid.
  destruct (gorm.FirstByID id db) as [r|] eqn:Er; cbn [option_map]; [|reflexivity].
  destruct (id =? ID m) eqn:E; [|reflexivity].
  apply Z.eqb_eq in E. subst id. unfold gorm.FirstByID in Er.
  rewrite Hfind in Er. inversion Er. reflexivity.
Qed.

Lemma X8_claim_then_reset_restores_witness :
  primaryKey sampleDB
  /\ WebhookProcessor.GetNextWebhookForProcessing
       WebhookQueueRepository.noClaimFaults 200 0 sampleDB
     = (Some sampleClaimed, None, sampleClaimedDB)
  /\ let '(e, _, db2) :=
       WebhookProcessor.ResetWebhookToPending None None 230 231 sampleClaimed
         sampleClaimedDB in
     e = None
     /\ id_seq db2 = id_seq sampleDB
     /\ forall id,
          gorm.FirstByID id db2
          = option_map
              (fun r => if id =? ID sampleClaimed then set_UpdatedAt 231 r else r)
              (gorm.FirstByID id sampleDB).
Proof.
  assert (Hpk : primaryKey sampleDB).
  { unfold primaryKey. simpl. repeat constructor; simpl; intuition discriminate. }
  split; [exact Hpk|]. split; [reflexivity|].
  exact (X8_claim_then_reset_restores WebhookQueueRepository.noClaimFaults
           200 230 231 0 sampleDB sampleClaimedDB sampleClaimed None Hpk eq_refl).
Defined.

(** ** One attempt changes one row *)

Lemma touchesOnly_refl (id : Z) (db : DB) : touchesOnly id db db.
Proof.
  split; [reflexivity|].
  induction (webhook_queue db) as [|r l IH]; constructor.
  - split; [reflexivity|]. intros _. reflexivity.
  - exact IH.
Qed.

Lemma Forall2_frame_trans (id : Z) (l1 : list WebhookQueue) :
  forall l2 l3,
    Forall2 (fun r r' => ID r' = ID r /\ (ID r <> id -> r' = r)) l1 l2 ->
    Forall2 (fun r r' => ID r' = ID r /\ (ID r <> id -> r' = r)) l2 l3 ->
    Forall2 (fun r r' => ID r' = ID r /\ (ID r <> id -> r' = r)) l1 l3.
Proof.
  induction l1 as [|a l1 IH]; intros l2 l3 H12 H23.
  - inversion H12; subst. inversion H23; subst. constructor.
  - inversion H12 as [|a' b l1' l2' [Hi Hf] Hrest]; subst.
    inversion H23 as [|b' c l2'' l3' [Hi' Hf'] Hrest']; subst.
    constructor.
    + split; [congruence|]. intro Hn.
      rewrite Hf' by (rewrite Hi; exact Hn). apply Hf. exact Hn.
    + apply IH with l2'; assumption.
Qed.

Lemma touchesOnly_trans (id : Z) (a b c : DB) :
  touchesOnly id a b -> touchesOnly id b c -> touchesOnly id a c.
Proof.
  intros [S1 F1] [S2 F2]. split; [congruence|].
  apply Forall2_frame_trans with (webhook_queue b); assumption.
Qed.

Lemma Updates_touchesOnly (id : Z) (us : list Assignment) (db : DB) :
  touchesOnly id db (gorm.Updates id us db).
Proof.
  split; [reflexivity|]. apply Updates_rowwise.
  - intros r Hr. split; [apply ID_applyUpdates|]. intro H. contradiction.
  - intros r Hr. split; [reflexivity|]. intros _. reflexivity.
Qed.

Lemma Save_touchesOnly (now : time_Time) (m : WebhookQueue) (db : DB) :
  touchesOnly (ID m) db (gorm.Save now m db).
Proof.
  split; [reflexivity|]. unfold gorm.Save. simpl.
  apply Forall2_map_self. intros r _.
  destruct (ID r =? ID m) eqn:E.
  - apply Z.eqb_eq in E. split; [simpl; congruence|]. intro H. contradiction.
  - split; [reflexivity|]. intros _. reflexivity.
Qed.

Lemma Update_touchesOnly (readFault saveFault : error) (now : time_Time)
  (w : WebhookQueue) (db : DB) :
  touchesOnly (ID w) db
    (snd (WebhookQueueRepository.Update readFault saveFault now w db)).
Proof.
  unfold WebhookQueueRepository.Update.
  destruct readFault as [e|]; [apply touchesOnly_refl|].
  destruct (gorm.FirstByID (ID w) db) as [cur|] eqn:Ecur;
    [|apply touchesOnly_refl].
  destruct saveFault as [e|]; [apply touchesOnly_refl|].
  simpl snd.
  destruct (FirstByID_In (ID w) db cur Ecur) as [_ Hid].
  rewrite <- Hid.
  exact (Save_touchesOnly now (WebhookQueueRepository.mergeWebhookIntoModel cur w) db).
Qed.

Lemma touchesOnly_ids (id : Z) (db db' : DB) :
  touchesOnly id db db' ->
  map ID (webhook_queue db') = map ID (webhook_queue db).
Proof.
  intros [_ F]. induction F as [|r r' l l' [Hi _] _ IH]; simpl.
  - reflexivity.
  - rewrite Hi, IH. reflexivity.
Qed.

Lemma touchesOnly_FirstByID (id id' : Z) (db db' : DB) :
  touchesOnly id db db' -> id' <> id ->
  gorm.FirstByID id' db' = gorm.FirstByID id' db.
Proof.
  intros [_ F] Hn. unfold gorm.FirstByID.
  induction F as [|r r' l l' [Hi Hf] _ IH]; simpl.
  - reflexivity.
  - rewrite Hi. destruct (ID r =? id') eqn:E.
    + apply Z.eqb_eq in E. rewrite Hf by congruence. reflexivity.
    + exact IH.
Qed.

Lemma touchesOnly_primaryKey (id : Z) (db db' : DB) :
  touchesOnly id db db' -> primaryKey db -> primaryKey db'.
Proof.
  intros H Hpk. unfold primaryKey. rewrite (touchesOnly_ids _ _ _ H). exact Hpk.
Qed.

Section OneRow.

Variable float64 : Q -> Q.
Variable http_StatusText : Z -> string.

Lemma ProcessWebhook_touchesOnly (send : SendResult) (clk : WebhookProcessor.Clock)
  (flt : WebhookProcessor.Faults) (sample : Q) (webhook : WebhookQueue) (db : DB) :
  let '(_, w', db') :=
    WebhookProcessor.ProcessWebhook float64 http_StatusText send clk flt sample
      webhook db in
  ID w' = ID webhook /\ touchesOnly (ID webhook) db db'.
Proof.
  unfold WebhookProcessor.ProcessWebhook. cbv zeta.
  match goal with
  | |- context [snd (WebhookQueueRepository.UpdateRetryAttempt
                       ?f ?n ?i ?k ?s ?ct ?d ?hs ?b ?em db)] =>
      set (db1 := snd (WebhookQueueRepository.UpdateRetryAttempt
                         f n i k s ct d hs b em db));
      assert (H1 : touchesOnly (ID webhook) db db1)
  end.
  { subst db1. unfold WebhookQueueRepository.UpdateRetryAttempt. cbv zeta.
    destruct (WebhookProcessor.recordFault flt); simpl snd;
      [apply touchesOnly_refl|apply Updates_touchesOnly]. }
  clearbody db1.
  destruct (withLastStatus_fields http_StatusText send webhook) as (Hid & _).
  set (w2 := WebhookProcessor.withLastStatus http_StatusText send webhook) in *.
  destruct (WebhookProcessor.succeeded send).
  - unfold WebhookQueueRepository.MarkCompleted.
    destruct (WebhookProcessor.writeFault flt); (split; [exact Hid|]);
      [exact H1|].
    apply touchesOnly_trans with db1; [exact H1|].
    rewrite Hid. apply Updates_touchesOnly.
  - destruct (CanRetry w2).
    + set (w3 := WebhookProcessor.rescheduled float64 clk sample w2).
      assert (Hid3 : ID w3 = ID webhook) by exact Hid.
      pose proof (Update_touchesOnly (WebhookProcessor.readFault flt)
                    (WebhookProcessor.writeFault flt)
                    (WebhookProcessor.writeNow clk) w3 db1) as HU.
      destruct (WebhookQueueRepository.Update (WebhookProcessor.readFault flt)
                  (WebhookProcessor.writeFault flt) (WebhookProcessor.writeNow clk)
                  w3 db1) as [e db2].
      simpl snd in HU. rewrite Hid3 in HU.
      split; [exact Hid3|]. apply touchesOnly_trans with db1; assumption.
    + unfold WebhookQueueRepository.MarkFailed.
      destruct (WebhookProcessor.writeFault flt); (split; [exact Hid|]);
        [exact H1|].
      apply touchesOnly_trans with db1; [exact H1|].
      rewrite Hid. apply Updates_touchesOnly.
Qed.

End OneRow.

(** ** The addressed row through one attempt *)

Section Outcomes.

Variable float64 : Q -> Q.
Variable http_StatusText : Z -> string.

Lemma CanRetry_withLastStatus (send : SendResult) (w : WebhookQueue) :
  CanRetry (WebhookProcessor.withLastStatus http_StatusText send w) = CanRetry w.
Proof.
  destruct (withLastStatus_fields http_StatusText send w) as (_ & Hs & Hr & _).
  unfold CanRetry. rewrite Hs, Hr. reflexivity.
Qed.

(** The addressed row after [UpdateRetryAttempt], whether the call failed or
    not. *)
Lemma recorded_row_frame (fault : error) (now : time_Time) (id k : Z)
  (startedAt : time_Time) (completedAt : option time_Time)
  (durationMs httpStatus : Z) (responseBody errorMsg : string)
  (db : DB) (r : WebhookQueue) :
  gorm.FirstByID id db = Some r ->
  exists r1,
    gorm.FirstByID id
      (snd (WebhookQueueRepository.UpdateRetryAttempt fault now id k startedAt
              completedAt durationMs httpStatus responseBody errorMsg db)) = Some r1
    /\ Status r1 = Status r
    /\ RetryCount r1 = RetryCount r
    /\ NextRetryAt r1 = NextRetryAt r
    /\ CreatedAt r1 = CreatedAt r
    /\ forall j, j <> k -> getAttempt j (Retries r1) = getAttempt j (Retries r).
Proof.
  intro Hr. unfold WebhookQueueRepository.UpdateRetryAttempt.
  destruct fault as [e|]; simpl snd.
  - exists r. split; [exact Hr|]. repeat split; reflexivity.
  - rewrite FirstByID_Updates, Hr. cbn [option_map]. rewrite Z.eqb_refl.
    eexists. split; [reflexivity|].
    destruct (attempt_updates_frame _
                (retryAttemptUpdates_columns now k startedAt completedAt
                   durationMs httpStatus responseBody errorMsg) r)
      as (A1 & _ & _ & _ & _ & _ & _ & _ & A9 & _ & A11).
    split; [exact A1|].
    split; [apply RetryCount_applyUpdates|].
    split; [exact A11|].
    split; [exact A9|].
    intros j Hj. apply getAttempt_applyUpdates_other.
    apply retryAttemptUpdates_slots. exact Hj.
Qed.

(** The row with the entity's id through [ProcessWebhook]: when the call
    reports an error the row keeps its status, count and time; when it reports
    none the row is COMPLETED, PENDING one tier up, or FAILED, by the branch
    taken. *)
Lemma ProcessWebhook_row (send : SendResult) (clk : WebhookProcessor.Clock)
  (flt : WebhookProcessor.Faults) (sample : Q) (w c : WebhookQueue) (db : DB) :
  gorm.FirstByID (ID w) db = Some c ->
  let '(e, w', db') :=
    WebhookProcessor.ProcessWebhook float64 http_StatusText send clk flt sample w db in
  (e = None <->
   WebhookProcessor.writeFault flt = None
   /\ (WebhookProcessor.succeeded send = false -> CanRetry w = true ->
       WebhookProcessor.readFault flt = None))
  /\ (RetryCount w' = RetryCount w
      \/ (RetryCount w' = RetryCount w + 1 /\ CanRetry w = true
          /\ WebhookProcessor.succeeded send = false))
  /\ exists c',
       gorm.FirstByID (ID w) db' = Some c'
       /\ CreatedAt c' = CreatedAt c
       /\ (forall j, j <> RetryCount w ->
             getAttempt j (Retries c') = getAttempt j (Retries c))
       /\ (e <> None ->
             Status c' = Status c /\ RetryCount c' = RetryCount c
             /\ NextRetryAt c' = NextRetryAt c)
       /\ (e = None -> WebhookProcessor.succeeded send = true ->
             Status c' = enums.WebhookStatusCompleted
             /\ RetryCount c' = RetryCount c)
       /\ (e = None -> WebhookProcessor.succeeded send = false ->
           CanRetry w = true ->
             Status c' = enums.WebhookStatusPending
             /\ (RetryCount c' = RetryCount w + 1 \/ RetryCount c' = RetryCount c)
             /\ (0 <= RetryCount w -> RetryCount c' = RetryCount w + 1))
       /\ (e = None -> WebhookProcessor.succeeded send = false ->
           CanRetry w = false ->
             Status c' = enums.WebhookStatusFailed
             /\ RetryCount c' = RetryCount c).
Proof.
  intro Hc.
  unfold WebhookProcessor.ProcessWebhook. cbv zeta.
  match goal with
  | |- context [snd (WebhookQueueRepository.UpdateRetryAttempt
                       ?f ?n ?i ?k ?s ?ct ?d ?hs ?b ?em db)] =>
      destruct (recorded_row_frame f n i k s ct d hs b em db c Hc)
        as (c1 & Hc1 & S1 & R1 & N1 & C1 & Slots1);
      set (db1 := snd (WebhookQueueRepository.UpdateRetryAttempt
                         f n i k s ct d hs b em db)) in *
  end.
  clearbody db1.
  destruct (withLastStatus_fields http_StatusText send w) as (Hid & Hst & Hrc & _).
  pose proof (CanRetry_withLastStatus send w) as Hcan.
  set (w2 := WebhookProcessor.withLastStatus http_StatusText send w) in *.
  destruct (WebhookProcessor.succeeded send) eqn:Es.
  - (* completed *)
    unfold WebhookQueueRepository.MarkCompleted.
    destruct (WebhookProcessor.writeFault flt) as [e|] eqn:Ew.
    + split.
      { split; [discriminate|]. intros [H _]. discriminate. }
      split; [left; exact Hrc|].
      exists c1. split; [exact Hc1|]. split; [exact C1|]. split; [exact Slots1|].
      split; [intros _; auto|].
      split; [discriminate|]. split; discriminate.
    + split.
      { split; [|reflexivity]. intros _. split; [reflexivity|]. discriminate. }
      split; [left; exact Hrc|].
      rewrite Hid, FirstByID_Updates, Hc1. cbn [option_map]. rewrite Z.eqb_refl.
      eexists. split; [reflexivity|].
      split; [exact C1|]. split; [exact Slots1|].
      split; [intro H; exfalso; apply H; reflexivity|].
      split; [intros _ _; split; [reflexivity|exact R1]|].
      split; discriminate.
  - rewrite Hcan. destruct (CanRetry w) eqn:Ec.
    + (* rescheduled *)
      set (w3 := WebhookProcessor.rescheduled float64 clk sample w2).
      assert (Hid3 : ID w3 = ID w) by exact Hid.
      assert (Hrc3 : RetryCount w3 = RetryCount w + 1)
        by (unfold w3; simpl; rewrite Hrc; reflexivity).
      unfold WebhookQueueRepository.Update. rewrite Hid3.
      destruct (WebhookProcessor.readFault flt) as [e|] eqn:Er.
      { split.
        { split; [discriminate|]. intros [_ H].
          specialize (H eq_refl eq_refl). discriminate. }
        split; [right; auto|].
        exists c1. split; [exact Hc1|]. split; [exact C1|]. split; [exact Slots1|].
        split; [intros _; auto|].
        split; [discriminate|]. split; discriminate. }
      rewrite Hc1.
      destruct (WebhookProcessor.writeFault flt) as [e|] eqn:Ew.
      { split.
        { split; [discriminate|]. intros [H _]. discriminate. }
        split; [right; auto|].
        exists c1. split; [exact Hc1|]. split; [exact C1|]. split; [exact Slots1|].
        split; [intros _; auto|].
        split; [discriminate|]. split; discriminate. }
      split.
      { split; [|reflexivity]. intros _. split; reflexivity. }
      split; [right; auto|].
      rewrite FirstByID_Save, Hc1. cbn [option_map].
      destruct (FirstByID_In _ _ _ Hc1) as [_ Hidc1].
      replace (ID w =? ID (WebhookQueueRepository.mergeWebhookIntoModel c1 w3))
        with true by (symmetry; apply Z.eqb_eq; simpl; congruence).
      eexists. split; [reflexivity|].
      split; [exact C1|]. split; [exact Slots1|].
      split; [intro H; exfalso; apply H; reflexivity|].
      split; [discriminate|].
      split; [|discriminate].
      intros _ _ _.
      split; [reflexivity|].
      split.
      { simpl.
        destruct (negb (RetryCount w2 + 1 =? 0)
                  || negb (time_IsZero
                             (WebhookProcessor.calculateNextRetryTime float64
                                (WebhookProcessor.backoffNow clk) sample
                                (RetryCount w2)))).
        - left. rewrite Hrc. reflexivity.
        - right. exact R1. }
      intro H0.
      assert (H0' : 0 <= RetryCount w2) by (rewrite Hrc; exact H0).
      destruct (merge_rescheduled float64 clk sample c1 w2
                  (WebhookProcessor.writeNow clk) H0') as (_ & M & _).
      rewrite <- Hrc. exact M.
    + (* failed *)
      unfold WebhookQueueRepository.MarkFailed.
      destruct (WebhookProcessor.writeFault flt) as [e|] eqn:Ew.
      * split.
        { split; [discriminate|]. intros [H _]. discriminate. }
        split; [left; exact Hrc|].
        exists c1. split; [exact Hc1|]. split; [exact C1|]. split; [exact Slots1|].
        split; [intros _; auto|].
        split; [discriminate|]. split; discriminate.
      * split.
        { split; [|reflexivity]. intros _. split; [reflexivity|]. discriminate. }
        split; [left; exact Hrc|].
        rewrite Hid, FirstByID_Updates, Hc1. cbn [option_map]. rewrite Z.eqb_refl.
        eexists. split; [reflexivity|].
        split; [exact C1|]. split; [exact Slots1|].
        split; [intro H; exfalso; apply H; reflexivity|].
        split; [discriminate|].
        split; [discriminate|].
        intros _ _ _. split; [reflexivity|exact R1].
Qed.

End Outcomes.

Section ProcessorFrame.

Variable float64 : Q -> Q.
Variable http_StatusText : Z -> string.

(** X9. [ProcessWebhook] on a stored row reports an error exactly when its
    last write fails: [MarkCompleted], [MarkFailed] or the save of [Update], or
    the read that [Update] makes first in the retry branch.  A failure of
    [UpdateRetryAttempt] is swallowed.  When an error is reported the row
    keeps the status, retry count and eligibility time it had. *)
Theorem X9_ProcessWebhook_error_iff :
  forall (send : SendResult) (clk : WebhookProcessor.Clock)
         (flt : WebhookProcessor.Faults) (sample : Q)
         (webhook : WebhookQueue) (db : DB) (r : WebhookQueue),
    gorm.FirstByID (ID webhook) db = Some r ->
    let '(e, _, db') :=
      WebhookProcessor.ProcessWebhook float64 http_StatusText send clk flt sample
        webhook db in
    (e = None <->
     WebhookProcessor.writeFault flt = None
     /\ (WebhookProcessor.succeeded send = false -> CanRetry webhook = true ->
         WebhookProcessor.readFault flt = None))
    /\ (e <> None ->
        exists r', gorm.FirstByID (ID webhook) db' = Some r'
                   /\ Status r' = Status r
                   /\ RetryCount r' = RetryCount r
                   /\ NextRetryAt r' = NextRetryAt r).
Proof.
  intros send clk flt sample webhook db r Hr.
  pose proof (ProcessWebhook_row float64 http_StatusText send clk flt sample
                webhook r db Hr) as H.
  destruct (WebhookProcessor.ProcessWebhook float64 http_StatusText send clk flt
              sample webhook db) as [[e w'] db'].
  destruct H as (Hiff & _ & c' & Hc' & _ & _ & Herr & _).
  split; [exact Hiff|].
  intro He. exists c'. split; [exact Hc'|]. apply Herr. exact He.
Qed.

(** X10. [ProcessWebhook] changes one row at most, the one with the entity's
    id: the table keeps its rows, their order and their ids, and the id
    sequence.  Of that row, [created_at] and every history slot other than
    the slot of the entity's retry count stay as they were. *)
Theorem X10_ProcessWebhook_frame :
  forall (send : SendResult) (clk : WebhookProcessor.Clock)
         (flt : WebhookProcessor.Faults) (sample : Q)
         (webhook : WebhookQueue) (db : DB),
    let '(_, w', db') :=
      WebhookProcessor.ProcessWebhook float64 http_StatusText send clk flt sample
        webhook db in
    ID w' = ID webhook
    /\ touchesOnly (ID webhook) db db'
    /\ forall r, gorm.FirstByID (ID webhook) db = Some r ->
         exists r', gorm.FirstByID (ID webhook) db' = Some r'
                    /\ CreatedAt r' = CreatedAt r
                    /\ forall j, j <> RetryCount webhook ->
                         getAttempt j (Retries r') = getAttempt j (Retries r).
Proof.
  intros send clk flt sample webhook db.
  pose proof (ProcessWebhook_touchesOnly float64 http_StatusText send clk flt
                sample webhook db) as HT.
  pose proof (fun r => ProcessWebhook_row float64 http_StatusText send clk flt
                         sample webhook r db) as HR.
  destruct (WebhookProcessor.ProcessWebhook float64 http_StatusText send clk flt
              sample webhook db) as [[e w'] db'].
  destruct HT as [Hid Ht].
  split; [exact Hid|]. split; [exact Ht|].
  intros r Hr. destruct (HR r Hr) as (_ & _ & c' & Hc' & HC & HS & _).
  exists c'. split; [exact Hc'|]. split; [exact HC|exact HS].
Qed.

End ProcessorFrame.

Lemma X9_ProcessWebhook_error_iff_witness :
  gorm.FirstByID (ID sampleClaimed) sampleClaimedDB = Some sampleClaimed
  /\ let '(e, _, db') :=
       WebhookProcessor.ProcessWebhook exactFloat64 sampleStatusText send503
         sampleClock (WebhookProcessor.mkFaults (Some "connection lost") None None)
         (1 # 2) sampleClaimed sampleClaimedDB in
     (e = None <->
      WebhookProcessor.writeFault
        (WebhookProcessor.mkFaults (Some "connection lost") None None) = None
      /\ (WebhookProcessor.succeeded send503 = false ->
          CanRetry sampleClaimed = true ->
          WebhookProcessor.readFault
            (WebhookProcessor.mkFaults (Some "connection lost") None None) = None))
     /\ (e <> None ->
         exists r', gorm.FirstByID (ID sampleClaimed) db' = Some r'
                    /\ Status r' = Status sampleClaimed
                    /\ RetryCount r' = RetryCount sampleClaimed
                    /\ NextRetryAt r' = NextRetryAt sampleClaimed).
Proof.
  split; [reflexivity|].
  exact (X9_ProcessWebhook_error_iff exactFloat64 sampleStatusText send503
           sampleClock (WebhookProcessor.mkFaults (Some "connection lost") None None)
           (1 # 2) sampleClaimed sampleClaimedDB sampleClaimed eq_refl).
Defined.

(** ** One tick of a worker *)

Lemma claim_no_row (faults : WebhookQueueRepository.ClaimFaults) (now : time_Time)
  (retryLevel : Z) (db db' : DB) (err : error) :
  WebhookQueueRepository.GetNextWebhookForProcessing faults now retryLevel db
  = (None, err, db') -> db' = db.
Proof.
  unfold WebhookQueueRepository.GetNextWebhookForProcessing.
  destruct (WebhookQueueRepository.beginFault faults);
    [intro H; inversion H; reflexivity|].
  destruct (WebhookQueueRepository.selectFault faults);
    [intro H; inversion H; reflexivity|].
  destruct (gorm.FirstWhere (WebhookQueueRepository.eligible retryLevel now) db);
    [|intro H; inversion H; reflexivity].
  destruct (WebhookQueueRepository.updateFault faults);
    [intro H; inversion H; reflexivity|].
  destruct (WebhookQueueRepository.commitFault faults);
    [intro H; inversion H; reflexivity|].
  discriminate.
Qed.

Section TickFacts.

Variable float64 : Q -> Q.
Variable http_StatusText : Z -> string.

(** What one tick does to the table: nothing, or it takes one row that was
    eligible for the worker's tier through claim, attempt and, after an
    error, reset. *)
Lemma tick_changes (w : WebhookWorker.t) (env : WebhookWorker.Tick) (db : DB) :
  primaryKey db ->
  let db' := WebhookWorker.processNextWebhook float64 http_StatusText w env db in
  db' = db
  \/ exists m c',
       In m (webhook_queue db)
       /\ WebhookQueueRepository.eligible (WebhookWorker.retryLevel w)
            (WebhookWorker.claimNow env) m = true
       /\ touchesOnly (ID m) db db'
       /\ gorm.FirstByID (ID m) db' = Some c'
       /\ CreatedAt c' = CreatedAt m
       /\ (forall j, j <> WebhookWorker.retryLevel w ->
             getAttempt j (Retries c') = getAttempt j (Retries m))
       /\ RetryCount m <= RetryCount c' <= RetryCount m + 1
       /\ (Status c' = enums.WebhookStatusCompleted
           \/ Status c' = enums.WebhookStatusFailed
           \/ Status c' = enums.WebhookStatusPending
           \/ Status c' = enums.WebhookStatusProcessing)
       /\ (Status c' = enums.WebhookStatusCompleted ->
             WebhookProcessor.succeeded
               (WebhookWorker.send env
                  (set_UpdatedAt (WebhookWorker.claimNow env)
                     (set_Status enums.WebhookStatusProcessing m))) = true
             /\ RetryCount c' = RetryCount m)
       /\ (Status c' = enums.WebhookStatusFailed ->
             WebhookProcessor.succeeded
               (WebhookWorker.send env
                  (set_UpdatedAt (WebhookWorker.claimNow env)
                     (set_Status enums.WebhookStatusProcessing m))) = false
             /\ enums.MaxRetryAttempts <= RetryCount m
             /\ RetryCount c' = RetryCount m)
       /\ (Status c' = enums.WebhookStatusProcessing ->
             RetryCount c' = RetryCount m
             /\ (WebhookWorker.resetReadFault env <> None
                 \/ WebhookWorker.resetSaveFault env <> None))
       /\ (RetryCount c' = RetryCount m + 1 ->
             Status c' = enums.WebhookStatusPending
             /\ WebhookProcessor.succeeded
                  (WebhookWorker.send env
                     (set_UpdatedAt (WebhookWorker.claimNow env)
                        (set_Status enums.WebhookStatusProcessing m))) = false
             /\ RetryCount m < enums.MaxRetryAttempts).
Proof.
  intros Hpk db'. subst db'.
  unfold WebhookWorker.processNextWebhook,
    WebhookProcessor.GetNextWebhookForProcessing.
  destruct (WebhookQueueRepository.GetNextWebhookForProcessing
              (WebhookWorker.claimFaults env) (WebhookWorker.claimNow env)
              (WebhookWorker.retryLevel w) db) as [[claimed cerr] db1] eqn:EC.
  destruct claimed as [ent|].
  2:{ left. apply claim_no_row in EC. destruct cerr; exact EC. }
  apply claim_returns in EC. destruct EC as (m & Hm & Hent & Hdb1 & ->).
  apply FirstWhere_In in Hm. destruct Hm as [Hin Hel].
  pose proof Hel as Hel'. apply eligible_iff in Hel'.
  destruct Hel' as (Hs & Htier & _).
  pose proof (In_FirstByID _ _ Hpk Hin) as Hfind.
  set (c1 := applyUpdates [col_status enums.WebhookStatusProcessing;
                           col_updated_at (WebhookWorker.claimNow env)] m).
  assert (Hc1 : gorm.FirstByID (ID ent) db1 = Some c1).
  { rewrite Hdb1, FirstByID_Updates. subst ent. simpl ID.
    unfold gorm.FirstByID. rewrite Hfind. cbn [option_map].
    rewrite Z.eqb_refl. reflexivity. }
  assert (Hid : ID ent = ID m) by (subst ent; reflexivity).
  assert (Hrc : RetryCount ent = RetryCount m) by (subst ent; reflexivity).
  assert (Hcan : CanRetry ent = (RetryCount m <? enums.MaxRetryAttempts)).
  { subst ent. unfold CanRetry. simpl. apply andb_true_r. }
  assert (Ht1 : touchesOnly (ID m) db db1)
    by (rewrite Hdb1; apply Updates_touchesOnly).
  pose proof (ProcessWebhook_row float64 http_StatusText
                (WebhookWorker.send env ent) (WebhookWorker.clock env)
                (WebhookWorker.faults env) (WebhookWorker.sample env)
                ent c1 db1 Hc1) as HR.
  pose proof (ProcessWebhook_touchesOnly float64 http_StatusText
                (WebhookWorker.send env ent) (WebhookWorker.clock env)
                (WebhookWorker.faults env) (WebhookWorker.sample env)
                ent db1) as HT.
  destruct (WebhookProcessor.ProcessWebhook float64 http_StatusText
              (WebhookWorker.send env ent) (WebhookWorker.clock env)
              (WebhookWorker.faults env) (WebhookWorker.sample env) ent db1)
    as [[err ent'] db2].
  destruct HT as [Hid' Ht2]. rewrite Hid in Ht2.
  destruct HR as (_ & Hrc' & c2 & Hc2 & HC2 & HS2 & Herr & Hok1 & Hok2 & Hok3).
  rewrite Hid in Hc2. rewrite Hrc, Htier in HS2. rewrite Hrc in Hrc'.
  change (CreatedAt c1) with (CreatedAt m) in HC2.
  change (Retries c1) with (Retries m) in HS2.
  change (RetryCount c1) with (RetryCount m) in *.
  change (Status c1) with enums.WebhookStatusProcessing in Herr.
  rewrite Hcan in Hok2, Hok3, Hrc'. rewrite Hrc in Hok2.
  right. exists m.
  destruct err as [err|].
  - (* the attempt reported an error: reset *)
    destruct (Herr ltac:(discriminate)) as (Hst2 & Hrc2 & _).
    clear Hok1 Hok2 Hok3 Herr.
    unfold WebhookProcessor.ResetWebhookToPending, WebhookQueueRepository.Update.
    cbv zeta.
    replace (ID (set_UpdatedAt (WebhookWorker.resetNow env)
                   (set_Status enums.WebhookStatusPending ent')))
      with (ID m) by (simpl; congruence).
    assert (Hstuck :
              exists c',
                In m (webhook_queue db)
                /\ WebhookQueueRepository.eligible (WebhookWorker.retryLevel w)
                     (WebhookWorker.claimNow env) m = true
                /\ touchesOnly (ID m) db db2
                /\ gorm.FirstByID (ID m) db2 = Some c'
                /\ CreatedAt c' = CreatedAt m
                /\ (forall j, j <> WebhookWorker.retryLevel w ->
                      getAttempt j (Retries c') = getAttempt j (Retries m))
                /\ RetryCount c' = RetryCount m
                /\ Status c' = enums.WebhookStatusProcessing).
    { exists c2. split; [exact Hin|]. split; [exact Hel|].
      split; [apply touchesOnly_trans with db1; assumption|].
      split; [exact Hc2|]. split; [exact HC2|]. split; [exact HS2|].
      split; [exact Hrc2|exact Hst2]. }
    destruct (WebhookWorker.resetReadFault env) as [rf|] eqn:Erf.
    { destruct Hstuck as (c' & K1 & K2 & K3 & K4 & K5 & K6 & K7 & K8).
      exists c'. rewrite <- Hent. split; [exact K1|]. split; [exact K2|]. split; [exact K3|].
      split; [exact K4|]. split; [exact K5|]. split; [exact K6|].
      split; [lia|]. split; [auto|].
      split; [intro H; rewrite K8 in H; discriminate|].
      split; [intro H; rewrite K8 in H; discriminate|].
      split; [intros _; split; [exact K7|left; discriminate]|].
      intro H. exfalso. lia. }
    rewrite Hc2.
    destruct (WebhookWorker.resetSaveFault env) as [sf|] eqn:Esf.
    { destruct Hstuck as (c' & K1 & K2 & K3 & K4 & K5 & K6 & K7 & K8).
      exists c'. rewrite <- Hent. split; [exact K1|]. split; [exact K2|]. split; [exact K3|].
      split; [exact K4|]. split; [exact K5|]. split; [exact K6|].
      split; [lia|]. split; [auto|].
      split; [intro H; rewrite K8 in H; discriminate|].
      split; [intro H; rewrite K8 in H; discriminate|].
      split; [intros _; split; [exact K7|right; discriminate]|].
      intro H. exfalso. lia. }
    clear Hstuck.
    set (ent2 := set_UpdatedAt (WebhookWorker.resetNow env)
                   (set_Status enums.WebhookStatusPending ent')).
    destruct (FirstByID_In _ _ _ Hc2) as [_ Hidc2].
    assert (Hidm : ID (WebhookQueueRepository.mergeWebhookIntoModel c2 ent2) = ID m)
      by exact Hidc2.
    eexists. rewrite <- Hent.
    split; [exact Hin|]. split; [exact Hel|].
    split.
    { apply touchesOnly_trans with db2;
        [apply touchesOnly_trans with db1; assumption|].
      rewrite <- Hidm. apply Save_touchesOnly. }
    split.
    { rewrite FirstByID_Save, Hc2. cbn [option_map].
      rewrite Hidm, Z.eqb_refl. reflexivity. }
    split; [exact HC2|]. split; [exact HS2|].
    assert (Hrcm :
              RetryCount (gorm.BeforeUpdate (WebhookWorker.resetSaveNow env)
                            (WebhookQueueRepository.mergeWebhookIntoModel c2 ent2))
              = RetryCount m
              \/ (RetryCount (gorm.BeforeUpdate (WebhookWorker.resetSaveNow env)
                                (WebhookQueueRepository.mergeWebhookIntoModel c2 ent2))
                  = RetryCount m + 1
                  /\ (RetryCount m <? enums.MaxRetryAttempts) = true
                  /\ WebhookProcessor.succeeded (WebhookWorker.send env ent) = false)).
    { simpl.
      destruct (negb (RetryCount ent' =? 0) || negb (time_IsZero (NextRetryAt ent'))).
      - destruct Hrc' as [H|H]; [left; exact H|right; exact H].
      - left. exact Hrc2. }
    split; [destruct Hrcm as [H|[H _]]; rewrite H; lia|].
    split; [right; right; left; reflexivity|].
    split; [intro H; discriminate H|].
    split; [intro H; discriminate H|].
    split; [intro H; discriminate H|].
    intro H. destruct Hrcm as [H'|(_ & Hlt & Hsu)]; [exfalso; lia|].
    split; [reflexivity|]. split; [exact Hsu|]. apply Z.ltb_lt. exact Hlt.
  - (* the attempt reported no error *)
    clear Herr.
    exists c2. rewrite <- Hent. split; [exact Hin|]. split; [exact Hel|].
    split; [apply touchesOnly_trans with db1; assumption|].
    split; [exact Hc2|]. split; [exact HC2|]. split; [exact HS2|].
    destruct (WebhookProcessor.succeeded (WebhookWorker.send env ent)) eqn:Es.
    + destruct (Hok1 eq_refl eq_refl) as [St Rc].
      split; [lia|]. split; [left; exact St|].
      split; [intros _; split; [reflexivity|exact Rc]|].
      split; [intro H; rewrite St in H; discriminate|].
      split; [intro H; rewrite St in H; discriminate|].
      intro H. exfalso. lia.
    + destruct (RetryCount m <? enums.MaxRetryAttempts) eqn:El.
      * destruct (Hok2 eq_refl eq_refl eq_refl) as (St & Rc & _).
        apply Z.ltb_lt in El.
        split; [destruct Rc as [Rc|Rc]; rewrite Rc; lia|].
        split; [right; right; left; exact St|].
        split; [intro H; rewrite St in H; discriminate|].
        split; [intro H; rewrite St in H; discriminate|].
        split; [intro H; rewrite St in H; discriminate|].
        intros _. split; [exact St|]. split; [reflexivity|exact El].
      * destruct (Hok3 eq_refl eq_refl eq_refl) as [St Rc].
        apply Z.ltb_ge in El.
        split; [lia|]. split; [right; left; exact St|].
        split; [intro H; rewrite St in H; discriminate|].
        split; [intros _; split; [reflexivity|split; [exact El|exact Rc]]|].
        split; [intro H; rewrite St in H; discriminate|].
        intro H. exfalso. lia.
Qed.

End TickFacts.

Section TickProperties.

Variable float64 : Q -> Q.
Variable http_StatusText : Z -> string.

(** X11. One tick of a worker changes at most one row, and only a row that
    was due for the worker's tier: the table keeps its rows, their order,
    their ids and the id sequence; all rows but those of one id are as
    before; and a row that is not PENDING, or is at another tier, or is not
    due yet at the instant of the claim, reads back unchanged. *)
Theorem X11_tick_changes_one_due_row :
  forall (w : WebhookWorker.t) (env : WebhookWorker.Tick) (db : DB),
    primaryKey db ->
    let db' := WebhookWorker.processNextWebhook float64 http_StatusText w env db in
    map ID (webhook_queue db') = map ID (webhook_queue db)
    /\ id_seq db' = id_seq db
    /\ (exists id, touchesOnly id db db')
    /\ forall id r,
         gorm.FirstByID id db = Some r ->
         Status r <> enums.WebhookStatusPending
         \/ RetryCount r <> WebhookWorker.retryLevel w
         \/ WebhookWorker.claimNow env < NextRetryAt r ->
         gorm.FirstByID id db' = Some r.
Proof.
  intros w env db Hpk db'.
  destruct (tick_changes float64 http_StatusText w env db Hpk)
    as [Hsame|(m & c' & Hin & Hel & Ht & _)]; fold db' in Hsame || fold db' in Ht.
  - rewrite Hsame. split; [reflexivity|]. split; [reflexivity|].
    split; [exists 0; apply touchesOnly_refl|]. intros id r Hr _. exact Hr.
  - split; [apply (touchesOnly_ids _ _ _ Ht)|].
    split; [apply Ht|].
    split; [exists (ID m); exact Ht|].
    intros id r Hr Hnot.
    destruct (Z.eq_dec id (ID m)) as [->|Hne].
    + exfalso. unfold gorm.FirstByID in Hr.
      rewrite (In_FirstByID _ _ Hpk Hin) in Hr. inversion Hr; subst r.
      apply eligible_iff in Hel. destruct Hel as (H1 & H2 & H3).
      destruct Hnot as [H|[H|H]]; [contradiction|contradiction|lia].
    + rewrite (touchesOnly_FirstByID _ _ _ _ Ht Hne). exact Hr.
Qed.

(** X12. What one tick can make of a row.  A row that reads back changed
    was PENDING and due at the worker's tier, and afterwards: its retry count
    is the old one or one more, and one more only with status PENDING after a
    failed delivery below the last tier; it is COMPLETED only after a
    successful delivery; it is FAILED only after a failed delivery at a retry
    count of at least [MaxRetryAttempts]; it is left PROCESSING only when the
    reset after a failed write failed as well; its [created_at] and every
    history slot of another tier are untouched. *)
Theorem X12_tick_outcomes :
  forall (w : WebhookWorker.t) (env : WebhookWorker.Tick) (db : DB)
         (id : Z) (r r' : WebhookQueue),
    primaryKey db ->
    gorm.FirstByID id db = Some r ->
    gorm.FirstByID id
      (WebhookWorker.processNextWebhook float64 http_StatusText w env db) = Some r' ->
    r' = r
    \/ (Status r = enums.WebhookStatusPending
        /\ RetryCount r = WebhookWorker.retryLevel w
        /\ NextRetryAt r <= WebhookWorker.claimNow env
        /\ CreatedAt r' = CreatedAt r
        /\ (forall j, j <> WebhookWorker.retryLevel w ->
              getAttempt j (Retries r') = getAttempt j (Retries r))
        /\ RetryCount r <= RetryCount r' <= RetryCount r + 1
        /\ (Status r' = enums.WebhookStatusCompleted
            \/ Status r' = enums.WebhookStatusFailed
            \/ Status r' = enums.WebhookStatusPending
            \/ Status r' = enums.WebhookStatusProcessing)
        /\ (Status r' = enums.WebhookStatusCompleted ->
              WebhookProcessor.succeeded
                (WebhookWorker.send env
                   (set_UpdatedAt (WebhookWorker.claimNow env)
                      (set_Status enums.WebhookStatusProcessing r))) = true
              /\ RetryCount r' = RetryCount r)
        /\ (Status r' = enums.WebhookStatusFailed ->
              WebhookProcessor.succeeded
                (WebhookWorker.send env
                   (set_UpdatedAt (WebhookWorker.claimNow env)
                      (set_Status enums.WebhookStatusProcessing r))) = false
              /\ enums.MaxRetryAttempts <= RetryCount r
              /\ RetryCount r' = RetryCount r)
        /\ (Status r' = enums.WebhookStatusProcessing ->
              RetryCount r' = RetryCount r
              /\ (WebhookWorker.resetReadFault env <> None
                  \/ WebhookWorker.resetSaveFault env <> None))
        /\ (RetryCount r' = RetryCount r + 1 ->
              Status r' = enums.WebhookStatusPending
              /\ WebhookProcessor.succeeded
                   (WebhookWorker.send env
                      (set_UpdatedAt (WebhookWorker.claimNow env)
                         (set_Status enums.WebhookStatusProcessing r))) = false
              /\ RetryCount r < enums.MaxRetryAttempts)).
Proof.
  intros w env db id r r' Hpk Hr Hr'.
  destruct (tick_changes float64 http_StatusText w env db Hpk)
    as [Hsame|(m & c' & Hin & Hel & Ht & Hc' & Rest)].
  - left. rewrite Hsame, Hr in Hr'. inversion Hr'. reflexivity.
  - destruct (Z.eq_dec id (ID m)) as [->|Hne].
    + right. unfold gorm.FirstByID in Hr.
      rewrite (In_FirstByID _ _ Hpk Hin) in Hr. inversion Hr; subst r.
      rewrite Hc' in Hr'. inversion Hr'; subst r'.
      apply eligible_iff in Hel. destruct Hel as (H1 & H2 & H3).
      split; [exact H1|]. split; [exact H2|]. split; [exact H3|]. exact Rest.
    + left. rewrite (touchesOnly_FirstByID _ _ _ _ Ht Hne), Hr in Hr'.
      inversion Hr'. reflexivity.
Qed.

End TickProperties.

Lemma primaryKey_sampleDB : primaryKey sampleDB.
Proof.
  unfold primaryKey. simpl. repeat constructor; simpl; intuition discriminate.
Defined.

Lemma X11_tick_changes_one_due_row_witness :
  primaryKey sampleDB
  /\ gorm.FirstByID 3 sampleDB = Some (sampleRow 3 enums.WebhookStatusPending 1 50)
  /\ gorm.FirstByID 3
       (WebhookWorker.processNextWebhook exactFloat64 sampleStatusText
          sampleWorker0 sampleTick503 sampleDB)
     = Some (sampleRow 3 enums.WebhookStatusPending 1 50).
Proof.
  split; [exact primaryKey_sampleDB|]. split; [reflexivity|].
  destruct (X11_tick_changes_one_due_row exactFloat64 sampleStatusText
              sampleWorker0 sampleTick503 sampleDB primaryKey_sampleDB)
    as (_ & _ & _ & H).
  apply H; [reflexivity|]. right. left. discriminate.
Defined.

Lemma X12_tick_outcomes_witness :
  primaryKey sampleDB
  /\ gorm.FirstByID 2 sampleDB = Some (sampleRow 2 enums.WebhookStatusPending 0 90)
  /\ exists r',
       gorm.FirstByID 2
         (WebhookWorker.processNextWebhook exactFloat64 sampleStatusText
            sampleWorker0 sampleTick503 sampleDB) = Some r'
       /\ Status r' = enums.WebhookStatusPending
       /\ RetryCount r' = 1.
Proof.
  split; [exact primaryKey_sampleDB|]. split; [reflexivity|].
  eexists. split; [vm_compute; reflexivity|].
  match goal with
  | |- Status ?r' = _ /\ _ =>
      destruct (X12_tick_outcomes exactFloat64 sampleStatusText sampleWorker0
                  sampleTick503 sampleDB 2
                  (sampleRow 2 enums.WebhookStatusPending 0 90) r'
                  primaryKey_sampleDB eq_refl ltac:(vm_compute; reflexivity))
        as [H|H]
  end.
  - discriminate H.
  - split; reflexivity.
Defined.

(** ** The intake *)

(** What [CreateWebhookEntry] does to the table: nothing, or it appends one
    row under an id and a [queue_id] no row had. *)
Lemma CreateWebhookEntry_appends (lookup : option WebhookConfig.t * error)
  (fault : error) (violation : string) (n1 n2 n3 createNow : time_Time) (new_uuid : uuid_UUID)
  (eventType : enums.EventType) (eventID : string) (configID : Z) (db : DB) :
  let '(e, db') :=
    WebhookProcessor.CreateWebhookEntry lookup fault violation n1 n2 n3
      createNow new_uuid eventType eventID configID db in
  (e <> None /\ db' = db
   /\ ((forall config, lookup = (Some config, None) ->
         WebhookConfig.IsActive config = false)
       \/ fault <> None
       \/ exists r, In r (webhook_queue db)
                    /\ (ID r = id_seq db \/ QueueID r = new_uuid)))
  \/ (e = None
      /\ fault = None
      /\ (forall r, In r (webhook_queue db) ->
            ID r <> id_seq db /\ QueueID r <> new_uuid)
      /\ exists config,
           lookup = (Some config, None)
           /\ WebhookConfig.IsActive config = true
           /\ db' = mkDB (webhook_queue db
                          ++ [mkWebhookQueue (id_seq db) new_uuid eventType eventID
                                configID (WebhookConfig.WebhookURL config)
                                enums.WebhookStatusPending 0
                                (if time_IsZero n1 then createNow else n1)
                                emptyHistory "" 0
                                (if time_IsZero n2 then createNow else n2)
                                (if time_IsZero n3 then createNow else n3)
                                None None None])
                     (id_seq db + 1)).
Proof.
  unfold WebhookProcessor.CreateWebhookEntry.
  destruct lookup as [[config|] [le|]];
    try (left; split; [discriminate|]; split; [reflexivity|];
         left; intros c Hc; discriminate Hc).
  destruct (WebhookConfig.IsActive config) eqn:Ea; simpl negb; cbv iota.
  2:{ left. split; [discriminate|]. split; [reflexivity|].
      left. intros c Hc. inversion Hc; subst c. exact Ea. }
  unfold WebhookQueueRepository.Create.
  destruct fault as [f|].
  { left. split; [discriminate|]. split; [reflexivity|]. right. left. discriminate. }
  unfold gorm.Create. cbv zeta.
  set (m1 := gorm.columnDefaults createNow
               (gorm.BeforeCreate new_uuid
                  (WebhookQueueRepository.entityToModel
                     (mkWebhookQueue 0 uuid_Nil eventType eventID configID
                        (WebhookConfig.WebhookURL config)
                        enums.WebhookStatusPending 0 n1 emptyHistory ""
                        0 n2 n3 None None None)))).
  assert (Hm1 : m1 = mkWebhookQueue 0 new_uuid eventType eventID configID
                       (WebhookConfig.WebhookURL config)
                       enums.WebhookStatusPending 0
                       (if time_IsZero n1 then createNow else n1)
                       emptyHistory "" 0
                       (if time_IsZero n2 then createNow else n2)
                       (if time_IsZero n3 then createNow else n3)
                       None None None).
  { subst m1. unfold gorm.columnDefaults, gorm.BeforeCreate. simpl.
    destruct (time_IsZero n1); simpl; destruct (time_IsZero n2); simpl;
      destruct (time_IsZero n3); reflexivity. }
  clearbody m1. subst m1. cbn [ID Z.eqb set_ID QueueID].
  destruct (existsb
              (fun r => (ID r =? id_seq db) || N.eqb (QueueID r) new_uuid)
              (webhook_queue db)) eqn:Ex.
  - left. split; [discriminate|]. split; [reflexivity|]. right. right.
    apply existsb_exists in Ex. destruct Ex as (r & Hr & Hor).
    exists r. split; [exact Hr|].
    apply orb_true_iff in Hor. destruct Hor as [H|H].
    + left. apply Z.eqb_eq. exact H.
    + right. apply N.eqb_eq. exact H.
  - right. split; [reflexivity|]. split; [reflexivity|].
    split.
    { intros r Hr.
      assert (Hf : (ID r =? id_seq db) || N.eqb (QueueID r) new_uuid = false).
      { destruct ((ID r =? id_seq db) || N.eqb (QueueID r) new_uuid) eqn:E;
          [|reflexivity].
        rewrite <- Ex. symmetry. apply existsb_exists. exists r.
        split; [exact Hr|exact E]. }
      apply orb_false_iff in Hf. destruct Hf as [Hi Hq].
      split; [apply Z.eqb_neq; exact Hi|apply N.eqb_neq; exact Hq]. }
    exists config. split; [reflexivity|]. split; [exact Ea|]. reflexivity.
Qed.

(** X13. [CreateWebhookEntry] appends exactly one row or changes nothing.
    It reports no error exactly when the lookup returned a configuration that
    is active, the insert met no driver error, and no row has the next id of
    the sequence or the fresh uuid.  Then the table is the old one followed by
    one row: PENDING, retry count 0, empty history, no last error, the event
    type, event id and config id of the call, the URL of the configuration,
    the next id and the fresh uuid; and the sequence has moved on by one.
    The event type of the configuration is not compared with that of the
    call.  On every error the table is unchanged. *)
Theorem X13_CreateWebhookEntry_one_row_or_none :
  forall (lookup : option WebhookConfig.t * error) (fault : error)
         (violation : string) (n1 n2 n3 createNow : time_Time)
         (new_uuid : uuid_UUID) (eventType : enums.EventType) (eventID : string)
         (configID : Z) (db : DB),
    let '(e, db') :=
      WebhookProcessor.CreateWebhookEntry lookup fault violation n1 n2 n3
        createNow new_uuid eventType eventID configID db in
    (e = None <->
     (exists config, lookup = (Some config, None)
                     /\ WebhookConfig.IsActive config = true)
     /\ fault = None
     /\ forall r, In r (webhook_queue db) ->
          ID r <> id_seq db /\ QueueID r <> new_uuid)
    /\ (e <> None -> db' = db)
    /\ (e = None ->
        exists config,
          lookup = (Some config, None)
          /\ db' = mkDB (webhook_queue db
                         ++ [mkWebhookQueue (id_seq db) new_uuid eventType eventID
                               configID (WebhookConfig.WebhookURL config)
                               enums.WebhookStatusPending 0
                               (if time_IsZero n1 then createNow else n1)
                               emptyHistory "" 0
                               (if time_IsZero n2 then createNow else n2)
                               (if time_IsZero n3 then createNow else n3)
                               None None None])
                    (id_seq db + 1)).
Proof.
  intros lookup fault violation n1 n2 n3 createNow new_uuid eventType eventID configID db.
  pose proof (CreateWebhookEntry_appends lookup fault violation n1 n2 n3 createNow new_uuid
                eventType eventID configID db) as H.
  destruct (WebhookProcessor.CreateWebhookEntry lookup fault violation n1 n2 n3 createNow
              new_uuid eventType eventID configID db) as [e db'].
  destruct H as [(He & Hdb & Hcause)|(He & Hf & Hnew & config & Hl & Ha & Hdb)].
  - split.
    + split; [intro H; contradiction|].
      intros ((config & Hl & Ha) & Hf & Hnew). exfalso.
      destruct Hcause as [Hc|[Hc|(r & Hr & Hc)]].
      * rewrite (Hc config Hl) in Ha. discriminate.
      * contradiction.
      * destruct (Hnew r Hr) as [H1 H2]. destruct Hc; contradiction.
    + split; [intros _; exact Hdb|]. intro H. contradiction.
  - split.
    + split; [|intros _; exact He].
      intros _. split; [exists config; split; assumption|].
      split; [exact Hf|exact Hnew].
    + split; [intro H; contradiction|].
      intros _. exists config. split; [exact Hl|exact Hdb].
Qed.

Section Frozen.

Variable float64 : Q -> Q.
Variable http_StatusText : Z -> string.

Lemma step_freezes (db db' : DB) :
  step float64 http_StatusText db db' ->
  primaryKey db ->
  primaryKey db'
  /\ forall id r, gorm.FirstByID id db = Some r ->
       Status r <> enums.WebhookStatusPending ->
       gorm.FirstByID id db' = Some r.
Proof.
  intros Hs Hpk. destruct Hs.
  - destruct (tick_changes float64 http_StatusText w env db Hpk)
      as [Hsame|(m & c' & Hin & Hel & Ht & _)].
    + rewrite Hsame. split; [exact Hpk|]. intros id r Hr _. exact Hr.
    + split; [apply (touchesOnly_primaryKey _ _ _ Ht Hpk)|].
      intros id r Hr Hnp.
      destruct (Z.eq_dec id (ID m)) as [->|Hne].
      * exfalso. unfold gorm.FirstByID in Hr.
        rewrite (In_FirstByID _ _ Hpk Hin) in Hr. inversion Hr; subst r.
        apply eligible_iff in Hel. destruct Hel as (H1 & _). contradiction.
      * rewrite (touchesOnly_FirstByID _ _ _ _ Ht Hne). exact Hr.
  - pose proof (CreateWebhookEntry_appends lookup fault violation n1 n2 n3 createNow
                  new_uuid eventType eventID configID db) as H.
    destruct (WebhookProcessor.CreateWebhookEntry lookup fault violation n1 n2 n3 createNow
                new_uuid eventType eventID configID db) as [e db'].
    cbn [snd].
    destruct H as [(_ & Hdb & _)|(_ & _ & Hnew & config & _ & _ & Hdb)].
    + rewrite Hdb. split; [exact Hpk|]. intros id r Hr _. exact Hr.
    + rewrite Hdb. split.
      * unfold primaryKey. cbn [webhook_queue]. rewrite map_app. simpl.
        apply NoDup_app; [exact Hpk|repeat constructor; intros []|].
        intros i Hi [Hm|[]]. apply in_map_iff in Hi.
        destruct Hi as (r & Hr & Hin). destruct (Hnew r Hin) as [Hn _].
        congruence.
      * intros id r Hr _. unfold gorm.FirstByID in *. cbn [webhook_queue].
        apply find_app_found. exact Hr.
Qed.

(** X14. Nothing moves a row that is not PENDING.  Along every run of the
    system, whole worker ticks and intake requests in any order and under any
    faults, a row that is COMPLETED or FAILED, or that a finished tick has
    left PROCESSING, reads back exactly as it was, field for field.  The two
    final states are final, and no tick picks up a row that was left
    PROCESSING. *)
Theorem X14_rows_not_pending_never_change :
  forall (db db' : DB),
    steps float64 http_StatusText db db' ->
    primaryKey db ->
    forall id r,
      gorm.FirstByID id db = Some r ->
      Status r <> enums.WebhookStatusPending ->
      gorm.FirstByID id db' = Some r.
Proof.
  intros db db' Hsteps. unfold steps in Hsteps.
  induction Hsteps as [db|db mid db' Hstep _ IH]; intros Hpk id r Hr Hnp.
  - exact Hr.
  - destruct (step_freezes db mid Hstep Hpk) as [Hpk' Hkeep].
    apply IH; [exact Hpk'| |exact Hnp]. apply Hkeep; assumption.
Qed.

End Frozen.

Lemma X14_rows_not_pending_never_change_witness :
  steps exactFloat64 sampleStatusText sampleClaimedDB
    (WebhookWorker.processNextWebhook exactFloat64 sampleStatusText
       sampleWorker0 sampleTick503 sampleClaimedDB)
  /\ primaryKey sampleClaimedDB
  /\ gorm.FirstByID 2 sampleClaimedDB = Some sampleClaimed
  /\ Status sampleClaimed <> enums.WebhookStatusPending
  /\ gorm.FirstByID 2
       (WebhookWorker.processNextWebhook exactFloat64 sampleStatusText
          sampleWorker0 sampleTick503 sampleClaimedDB)
     = Some sampleClaimed.
Proof.
  assert (Hrun : steps exactFloat64 sampleStatusText sampleClaimedDB
                   (WebhookWorker.processNextWebhook exactFloat64 sampleStatusText
                      sampleWorker0 sampleTick503 sampleClaimedDB)).
  { eapply Relation_Operators.rt1n_trans;
      [apply step_tick|apply Relation_Operators.rt1n_refl]. }
  assert (Hpk : primaryKey sampleClaimedDB).
  { unfold primaryKey. simpl. repeat constructor; simpl; intuition discriminate. }
  assert (Hnp : Status sampleClaimed <> enums.WebhookStatusPending)
    by discriminate.
  split; [exact Hrun|]. split; [exact Hpk|]. split; [reflexivity|].
  split; [exact Hnp|].
  exact (X14_rows_not_pending_never_change exactFloat64 sampleStatusText
           sampleClaimedDB _ Hrun Hpk 2 sampleClaimed eq_refl Hnp).
Defined.

(** * Further properties of the worker pool *)

Lemma write_middle (h : WorkerPool.Heap) (x w : WebhookWorker.t)
  (l : list WebhookWorker.t) :
  WorkerPool.write (h ++ x :: l)%list (List.length h) w = (h ++ w :: l)%list.
Proof.
  induction h as [|y h IH]; simpl; [reflexivity|]. rewrite IH. reflexivity.
Qed.

Lemma nth_error_middle (h : WorkerPool.Heap) (x : WebhookWorker.t)
  (l : list WebhookWorker.t) :
  nth_error (h ++ x :: l)%list (List.length h) = Some x.
Proof.
  induction h as [|y h IH]; simpl; [reflexivity|exact IH].
Qed.

(** The loop of [Start] with the constructor of the source, in closed form:
    one started worker per roster entry, allocated in roster order after the
    workers already on the heap. *)
Lemma startLoop_source (uuid8 : WorkerPool.WorkerConfig -> string)
  (cfgs : list WorkerPool.WorkerConfig) :
  forall (h : WorkerPool.Heap) (wp : WorkerPool.t),
    WorkerPool.startLoop (WorkerPool.sourceWorker uuid8) cfgs h wp
    = (None,
       (h ++ map (fun cfg =>
                    WebhookWorker.mk
                      ("retry-" ++ fmt_d (WorkerPool.RetryLevel cfg) ++ "-" ++ uuid8 cfg)
                      (WorkerPool.RetryLevel cfg) (WorkerPool.PollInterval cfg)
                      false true) cfgs)%list,
       WorkerPool.mk
         (WorkerPool.workers wp ++ seq (List.length h) (List.length cfgs))%list
         (WorkerPool.config wp) (WorkerPool.running wp)).
Proof.
  induction cfgs as [|cfg rest IH]; intros h wp.
  - simpl. rewrite !app_nil_r. destruct wp; reflexivity.
  - assert (Hs : WebhookWorker.Start (WorkerPool.sourceWorker uuid8 cfg)
                 = (None,
                    WebhookWorker.mk
                      ("retry-" ++ fmt_d (WorkerPool.RetryLevel cfg) ++ "-"
                       ++ uuid8 cfg)
                      (WorkerPool.RetryLevel cfg) (WorkerPool.PollInterval cfg)
                      false true)) by reflexivity.
    cbn [WorkerPool.startLoop]. unfold WorkerPool.alloc.
    rewrite Hs, write_middle, IH.
    cbn [WorkerPool.workers WorkerPool.config WorkerPool.running].
    rewrite <- !app_assoc. rewrite length_app. simpl.
    rewrite Nat.add_1_r. reflexivity.
Qed.

(** [stopWorkers] on workers that sit side by side on the heap. *)
Lemma stop_block (l : list WebhookWorker.t) :
  forall h : WorkerPool.Heap,
    fold_left WorkerPool.stopWorker (seq (List.length h) (List.length l))
      (h ++ l)%list
    = (h ++ map (fun w => snd (WebhookWorker.Stop w)) l)%list.
Proof.
  induction l as [|w l IH]; intro h; simpl.
  - reflexivity.
  - unfold WorkerPool.stopWorker at 2. rewrite nth_error_middle, write_middle.
    replace (h ++ snd (WebhookWorker.Stop w) :: l)%list
      with ((h ++ [snd (WebhookWorker.Stop w)]) ++ l)%list
      by (rewrite <- app_assoc; reflexivity).
    replace (S (List.length h))
      with (List.length (h ++ [snd (WebhookWorker.Stop w)])%list)
      by (rewrite length_app; simpl; apply Nat.add_1_r).
    rewrite IH, <- app_assoc. reflexivity.
Qed.

(** X15. [Start] of a pool that is not running, with the constructor of the
    source: it reports no error and sets the pool running; it has allocated
    one worker per roster entry, in roster order, after the workers already on
    the heap, each one running, not cancelled, with the tier and the poll
    interval of its entry and the id [retry-<tier>-<uuid8>]; the pool's slice
    holds the pointers to them in that order, after those it held. *)
Theorem X15_pool_Start_builds_the_roster :
  forall (uuid8 : WorkerPool.WorkerConfig -> string) (h : WorkerPool.Heap)
         (wp : WorkerPool.t),
    WorkerPool.running wp = false ->
    WorkerPool.Start (WorkerPool.sourceWorker uuid8) h wp
    = (None,
       (h ++ map (fun cfg =>
                    WebhookWorker.mk
                      ("retry-" ++ fmt_d (WorkerPool.RetryLevel cfg) ++ "-" ++ uuid8 cfg)
                      (WorkerPool.RetryLevel cfg) (WorkerPool.PollInterval cfg)
                      false true) (WorkerPool.config wp))%list,
       WorkerPool.mk
         (WorkerPool.workers wp
          ++ seq (List.length h) (List.length (WorkerPool.config wp)))%list
         (WorkerPool.config wp) true).
Proof.
  intros uuid8 h wp Hr. unfold WorkerPool.Start.
  rewrite Hr, startLoop_source. reflexivity.
Qed.

Lemma X15_pool_Start_builds_the_roster_witness :
  WorkerPool.running (WorkerPool.NewWorkerPool sampleRoster) = false
  /\ WorkerPool.Start (WorkerPool.sourceWorker sampleUUID8) []
       (WorkerPool.NewWorkerPool sampleRoster)
     = (None,
        [WebhookWorker.mk "retry-0-0a1b2c3d" 0 (5 * time_Second) false true;
         WebhookWorker.mk "retry-1-0a1b2c3d" 1 (30 * time_Second) false true;
         WebhookWorker.mk "retry-2-0a1b2c3d" 2 (2 * time_Minute) false true;
         WebhookWorker.mk "retry-3-0a1b2c3d" 3 (5 * time_Minute) false true],
        WorkerPool.mk [0%nat; 1%nat; 2%nat; 3%nat] sampleRoster true).
Proof.
  split; [reflexivity|].
  exact (X15_pool_Start_builds_the_roster sampleUUID8 []
           (WorkerPool.NewWorkerPool sampleRoster) eq_refl).
Defined.

Lemma Stop_twice (w : WebhookWorker.t) :
  snd (WebhookWorker.Stop (snd (WebhookWorker.Stop w))) = snd (WebhookWorker.Stop w).
Proof.
  unfold WebhookWorker.Stop. destruct (WebhookWorker.running w) eqn:E; simpl.
  - reflexivity.
  - rewrite E. reflexivity.
Qed.

Lemma stopAll_nth (ps : list nat) :
  forall (h : WorkerPool.Heap),
    List.length (fold_left WorkerPool.stopWorker ps h) = List.length h
    /\ (forall p w, In p ps -> nth_error h p = Some w ->
          nth_error (fold_left WorkerPool.stopWorker ps h) p
          = Some (snd (WebhookWorker.Stop w)))
    /\ (forall p, ~ In p ps ->
          nth_error (fold_left WorkerPool.stopWorker ps h) p = nth_error h p).
Proof.
  induction ps as [|q ps IH]; intro h; simpl.
  - split; [reflexivity|]. split; [intros p w []|]. intros p _. reflexivity.
  - destruct (IH (WorkerPool.stopWorker h q)) as (L & Hin & Hout).
    assert (Hq : forall p w, nth_error h p = Some w ->
                   nth_error (WorkerPool.stopWorker h q) p
                   = Some (if Nat.eqb p q then snd (WebhookWorker.Stop w) else w)).
    { intros p w Hp. unfold WorkerPool.stopWorker.
      destruct (Nat.eqb p q) eqn:E.
      - apply Nat.eqb_eq in E. subst p. rewrite Hp.
        apply nth_error_write_same. apply nth_error_Some. congruence.
      - apply Nat.eqb_neq in E. destruct (nth_error h q); [|exact Hp].
        rewrite nth_error_write_other by exact E. exact Hp. }
    split; [rewrite L; apply stopWorker_length|]. split.
    + intros p w Hp Hw. specialize (Hq p w Hw).
      destruct (in_dec Nat.eq_dec p ps) as [Hi|Hn].
      * rewrite (Hin p _ Hi Hq).
        destruct (Nat.eqb p q); [|reflexivity].
        rewrite Stop_twice. reflexivity.
      * rewrite (Hout p Hn), Hq. destruct Hp as [<-|Hp]; [|contradiction].
        rewrite Nat.eqb_refl. reflexivity.
    + intros p Hn. rewrite Hout by tauto.
      unfold WorkerPool.stopWorker. destruct (nth_error h q); [|reflexivity].
      apply nth_error_write_other. intro E. apply Hn. left. symmetry. exact E.
Qed.

(** X16. [Stop] of a running pool, whatever its workers: it reports no error,
    clears the pool's slice and its running flag and keeps the roster; every
    worker the slice pointed to is left not running, with its context
    cancelled if it was running and untouched if it was not (its [Stop] error
    is only logged), with its id, tier and interval; every other worker on the
    heap is untouched. *)
Theorem X16_pool_Stop_stops_every_worker :
  forall (h : WorkerPool.Heap) (wp : WorkerPool.t),
    WorkerPool.running wp = true ->
    let '(e, h', wp') := WorkerPool.Stop h wp in
    e = None
    /\ wp' = WorkerPool.mk [] (WorkerPool.config wp) false
    /\ List.length h' = List.length h
    /\ (forall p w, In p (WorkerPool.workers wp) -> nth_error h p = Some w ->
          nth_error h' p
          = Some (if WebhookWorker.running w
                  then WebhookWorker.mk (WebhookWorker.id w)
                         (WebhookWorker.retryLevel w) (WebhookWorker.pollInterval w)
                         true false
                  else w))
    /\ (forall p, ~ In p (WorkerPool.workers wp) ->
          nth_error h' p = nth_error h p).
Proof.
  intros h wp Hr. unfold WorkerPool.Stop, WorkerPool.stopWorkers.
  rewrite Hr. cbn [negb WorkerPool.workers WorkerPool.config].
  destruct (stopAll_nth (WorkerPool.workers wp) h) as (L & Hin & Hout).
  split; [reflexivity|]. split; [reflexivity|]. split; [exact L|].
  split; [|exact Hout].
  intros p w Hp Hw. rewrite (Hin p w Hp Hw). unfold WebhookWorker.Stop.
  destruct (WebhookWorker.running w); reflexivity.
Qed.

(** X17. Start, stop, start again.  From a pool that is not running and holds
    no workers: [Start] succeeds; the [Stop] that follows succeeds and leaves
    every worker of the first start cancelled and not running, the slice empty
    and the pool not running; a second [Start] succeeds again, with a fresh
    worker per roster entry allocated after the stopped ones, which stay as
    they are. *)
Theorem X17_pool_restart :
  forall (u1 u2 : WorkerPool.WorkerConfig -> string) (h : WorkerPool.Heap)
         (wp : WorkerPool.t),
    WorkerPool.running wp = false ->
    WorkerPool.workers wp = [] ->
    let '(e1, h1, wp1) := WorkerPool.Start (WorkerPool.sourceWorker u1) h wp in
    let '(e2, h2, wp2) := WorkerPool.Stop h1 wp1 in
    let '(e3, h3, wp3) := WorkerPool.Start (WorkerPool.sourceWorker u2) h2 wp2 in
    e1 = None /\ e2 = None /\ e3 = None
    /\ wp2 = WorkerPool.mk [] (WorkerPool.config wp) false
    /\ h2 = (h ++ map (fun cfg =>
                         WebhookWorker.mk
                           ("retry-" ++ fmt_d (WorkerPool.RetryLevel cfg) ++ "-"
                            ++ u1 cfg)
                           (WorkerPool.RetryLevel cfg) (WorkerPool.PollInterval cfg)
                           true false) (WorkerPool.config wp))%list
    /\ h3 = (h2 ++ map (fun cfg =>
                          WebhookWorker.mk
                            ("retry-" ++ fmt_d (WorkerPool.RetryLevel cfg) ++ "-"
                             ++ u2 cfg)
                            (WorkerPool.RetryLevel cfg) (WorkerPool.PollInterval cfg)
                            false true) (WorkerPool.config wp))%list
    /\ wp3 = WorkerPool.mk
               (seq (List.length h2) (List.length (WorkerPool.config wp)))
               (WorkerPool.config wp) true.
Proof.
  intros u1 u2 h wp Hr Hw.
  unfold WorkerPool.Start at 1. rewrite Hr, startLoop_source, Hw.
  cbv beta iota. cbn [WorkerPool.workers WorkerPool.config app].
  set (started :=
         map (fun cfg =>
                WebhookWorker.mk
                  ("retry-" ++ fmt_d (WorkerPool.RetryLevel cfg) ++ "-" ++ u1 cfg)
                  (WorkerPool.RetryLevel cfg) (WorkerPool.PollInterval cfg)
                  false true) (WorkerPool.config wp)).
  assert (Hstop :
            WorkerPool.Stop (h ++ started)%list
              (WorkerPool.mk
                 (seq (List.length h) (List.length (WorkerPool.config wp)))
                 (WorkerPool.config wp) true)
            = (None,
               (h ++ map (fun w => snd (WebhookWorker.Stop w)) started)%list,
               WorkerPool.mk [] (WorkerPool.config wp) false)).
  { unfold WorkerPool.Stop, WorkerPool.stopWorkers.
    cbn [negb WorkerPool.running WorkerPool.workers WorkerPool.config].
    replace (List.length (WorkerPool.config wp)) with (List.length started)
      by (subst started; apply length_map).
    rewrite stop_block. reflexivity. }
  rewrite Hstop. cbv beta iota.
  subst started. rewrite map_map.
  unfold WorkerPool.Start. cbn [WorkerPool.running].
  rewrite startLoop_source.
  cbn [WorkerPool.workers WorkerPool.config WorkerPool.running app].
  repeat split; reflexivity.
Qed.

Lemma X16_pool_Stop_stops_every_worker_witness :
  WorkerPool.running (WorkerPool.mk [0%nat; 1%nat] sampleRoster true) = true
  /\ WorkerPool.Stop [sampleWorker0; sampleWorker6]
       (WorkerPool.mk [0%nat; 1%nat] sampleRoster true)
     = (None,
        [WebhookWorker.mk "retry-0-0a1b2c3d" 0 (5 * time_Second) true false;
         WebhookWorker.mk "retry-6-0a1b2c3d" 6 (60 * time_Minute) true false],
        WorkerPool.mk [] sampleRoster false)
  /\ let '(e, h', wp') :=
       WorkerPool.Stop [sampleWorker0; sampleWorker6]
         (WorkerPool.mk [0%nat; 1%nat] sampleRoster true) in
     e = None /\ wp' = WorkerPool.mk [] sampleRoster false.
Proof.
  split; [reflexivity|]. split; [reflexivity|].
  pose proof (X16_pool_Stop_stops_every_worker [sampleWorker0; sampleWorker6]
                (WorkerPool.mk [0%nat; 1%nat] sampleRoster true) eq_refl) as H.
  destruct (WorkerPool.Stop [sampleWorker0; sampleWorker6]
              (WorkerPool.mk [0%nat; 1%nat] sampleRoster true)) as [[e h'] wp'].
  destruct H as (H1 & H2 & _). split; [exact H1|exact H2].
Defined.

Lemma X17_pool_restart_witness :
  WorkerPool.running (WorkerPool.NewWorkerPool sampleRoster) = false
  /\ WorkerPool.workers (WorkerPool.NewWorkerPool sampleRoster) = []
  /\ let '(e1, h1, wp1) :=
       WorkerPool.Start (WorkerPool.sourceWorker sampleUUID8) []
         (WorkerPool.NewWorkerPool sampleRoster) in
     let '(e2, h2, wp2) := WorkerPool.Stop h1 wp1 in
     let '(e3, h3, wp3) :=
       WorkerPool.Start (WorkerPool.sourceWorker sampleUUID8) h2 wp2 in
     e1 = None /\ e2 = None /\ e3 = None
     /\ wp3 = WorkerPool.mk [4%nat; 5%nat; 6%nat; 7%nat] sampleRoster true.
Proof.
  split; [reflexivity|]. split; [reflexivity|].
  pose proof (X17_pool_restart sampleUUID8 sampleUUID8 []
                (WorkerPool.NewWorkerPool sampleRoster) eq_refl eq_refl) as H.
  destruct (WorkerPool.Start (WorkerPool.sourceWorker sampleUUID8) []
              (WorkerPool.NewWorkerPool sampleRoster)) as [[e1 h1] wp1].
  destruct (WorkerPool.Stop h1 wp1) as [[e2 h2] wp2].
  destruct (WorkerPool.Start (WorkerPool.sourceWorker sampleUUID8) h2 wp2)
    as [[e3 h3] wp3].
  destruct H as (H1 & H2 & H3 & _ & Hh2 & _ & Hwp3).
  split; [exact H1|]. split; [exact H2|]. split; [exact H3|].
  rewrite Hwp3, Hh2. reflexivity.
Defined.

(** ** A start that fails *)





(** * Further properties of the services around the queue *)

(** ** The sender *)

Section Sender.

Variable http_StatusText : Z -> string.

(** X18. [SendWebhook] and what [ProcessWebhook] makes of its result.  The
    call always returns a response, with the time the call took, and its
    error is nil exactly when the response carries no error.  The attempt
    counts as a success exactly when status and body arrived and the status
    is 2xx; a 2xx whose body could not be read is a failed attempt that keeps
    its status code.  Every failed attempt has a non-empty error message, and
    its final error message starts with [max retries exceeded: ]. *)
Theorem X18_SendWebhook_contract :
  forall (net : string -> WebhookService.Exchange) (startTime now : time_Time)
         (webhook : WebhookQueue),
    let send := WebhookService.SendWebhook net startTime now webhook in
    (exists resp,
       fst send = Some resp
       /\ Duration resp = time_Sub now startTime
       /\ (snd send = None <-> Error resp = None))
    /\ (WebhookProcessor.succeeded send = true <->
        exists statusCode body,
          net (WebhookURL webhook) = WebhookService.answered statusCode body
          /\ 200 <= statusCode < 300)
    /\ (forall statusCode e,
          net (WebhookURL webhook) = WebhookService.bodyUnreadable statusCode e ->
          WebhookProcessor.httpStatusOf send = statusCode
          /\ WebhookProcessor.succeeded send = false)
    /\ (WebhookProcessor.succeeded send = false ->
        WebhookProcessor.errorMsgOf http_StatusText send <> ""
        /\ String.prefix "max retries exceeded: "
             (WebhookProcessor.finalErrorMsgOf send) = true).
Proof.
  intros net startTime now webhook send. subst send.
  unfold WebhookService.SendWebhook. cbv zeta.
  destruct (net (WebhookURL webhook)) as [e|e|sc e|sc body].
  - split.
    { eexists. split; [reflexivity|]. split; [reflexivity|].
      simpl. split; discriminate. }
    split.
    { split; [discriminate|]. intros (s & b & H & _). discriminate. }
    split; [intros s e' H; discriminate|].
    intros _. split; [discriminate|reflexivity].
  - split.
    { eexists. split; [reflexivity|]. split; [reflexivity|].
      simpl. split; discriminate. }
    split.
    { split; [discriminate|]. intros (s & b & H & _). discriminate. }
    split; [intros s e' H; discriminate|].
    intros _. split; [discriminate|reflexivity].
  - split.
    { eexists. split; [reflexivity|]. split; [reflexivity|].
      simpl. split; discriminate. }
    split.
    { split; [discriminate|]. intros (s & b & H & _). discriminate. }
    split.
    { intros s e' H. inversion H; subst. split; reflexivity. }
    intros _. split; [discriminate|reflexivity].
  - split.
    { eexists. split; [reflexivity|]. split; [reflexivity|].
      simpl. split; reflexivity. }
    split.
    { unfold WebhookProcessor.succeeded. cbn [fst snd StatusCode].
      rewrite isSuccessfulResponse_iff. split.
      - intro H. exists sc, body. split; [reflexivity|exact H].
      - intros (s & b & H & Hr). inversion H; subst. exact Hr. }
    split; [intros s e' H; discriminate|].
    unfold WebhookProcessor.succeeded, WebhookProcessor.errorMsgOf,
      WebhookProcessor.finalErrorMsgOf.
    cbn [fst snd StatusCode]. intros ->. split; [discriminate|reflexivity].
Qed.

End Sender.

(** ** The metric of a tick *)

Section TickMetric.

Variable float64 : Q -> Q.
Variable http_StatusText : Z -> string.

Lemma LastHTTPStatus_withLastStatus (send : SendResult) (w : WebhookQueue) :
  LastHTTPStatus (WebhookProcessor.withLastStatus http_StatusText send w)
  = WebhookProcessor.httpStatusOf send.
Proof.
  unfold WebhookProcessor.withLastStatus.
  destruct (String.eqb (WebhookProcessor.errorMsgOf http_StatusText send) "");
    reflexivity.
Qed.

(** The entity after [ProcessWebhook] carries the status code of the
    attempt. *)
Lemma ProcessWebhook_entity_status (send : SendResult) (clk : WebhookProcessor.Clock)
  (flt : WebhookProcessor.Faults) (sample : Q) (webhook : WebhookQueue) (db : DB) :
  let '(_, w', _) :=
    WebhookProcessor.ProcessWebhook float64 http_StatusText send clk flt sample
      webhook db in
  LastHTTPStatus w' = WebhookProcessor.httpStatusOf send.
Proof.
  unfold WebhookProcessor.ProcessWebhook. cbv zeta.
  destruct (WebhookProcessor.succeeded send).
  - destruct (WebhookQueueRepository.MarkCompleted _ _ _ _ _) as [e db2].
    apply LastHTTPStatus_withLastStatus.
  - destruct (CanRetry (WebhookProcessor.withLastStatus http_StatusText send webhook)).
    + destruct (WebhookQueueRepository.Update _ _ _ _ _) as [e db2].
      simpl. apply LastHTTPStatus_withLastStatus.
    + destruct (WebhookQueueRepository.MarkFailed _ _ _ _ _) as [e db2].
      apply LastHTTPStatus_withLastStatus.
Qed.

(** X19. The metric of one tick.  A tick that claims no row records nothing.
    A tick that claims a row records one observation, labelled with the
    worker's tier, when the endpoint answered with a status code (the label is
    that code, whether or not the writes that followed worked) or when
    [ProcessWebhook] reported an error without any status code (the label is
    500).  A delivery that failed before any status code arrived and was then
    stored without error records nothing. *)
Theorem X19_tick_metric :
  forall (w : WebhookWorker.t) (env : WebhookWorker.Tick)
         (startTime endTime : time_Time) (db : DB) (m : metrics.WebhookMetrics),
    match WebhookProcessor.GetNextWebhookForProcessing
            (WebhookWorker.claimFaults env) (WebhookWorker.claimNow env)
            (WebhookWorker.retryLevel w) db with
    | (Some webhook, None, db1) =>
        let send := WebhookWorker.send env webhook in
        let '(e, _, _) :=
          WebhookProcessor.ProcessWebhook float64 http_StatusText send
            (WebhookWorker.clock env) (WebhookWorker.faults env)
            (WebhookWorker.sample env) webhook db1 in
        metrics.processNextWebhook_deferred float64 http_StatusText w env
          startTime endTime db m
        = if WebhookProcessor.httpStatusOf send =? 0
          then match e with
               | Some _ =>
                   (m ++ [metrics.mkObservation (metrics.strconv_Itoa 500)
                            (metrics.strconv_Itoa (WebhookWorker.retryLevel w))
                            (time_Sub endTime startTime)])%list
               | None => m
               end
          else (m ++ [metrics.mkObservation
                        (metrics.strconv_Itoa (WebhookProcessor.httpStatusOf send))
                        (metrics.strconv_Itoa (WebhookWorker.retryLevel w))
                        (time_Sub endTime startTime)])%list
    | _ =>
        metrics.processNextWebhook_deferred float64 http_StatusText w env
          startTime endTime db m = m
    end.
Proof.
  intros w env startTime endTime db m.
  unfold metrics.processNextWebhook_deferred, metrics.finalStatusCode.
  destruct (WebhookProcessor.GetNextWebhookForProcessing
              (WebhookWorker.claimFaults env) (WebhookWorker.claimNow env)
              (WebhookWorker.retryLevel w) db) as [[[webhook|] [cerr|]] db1];
    try reflexivity.
  cbv zeta.
  pose proof (ProcessWebhook_entity_status (WebhookWorker.send env webhook)
                (WebhookWorker.clock env) (WebhookWorker.faults env)
                (WebhookWorker.sample env) webhook db1) as H.
  destruct (WebhookProcessor.ProcessWebhook float64 http_StatusText
              (WebhookWorker.send env webhook) (WebhookWorker.clock env)
              (WebhookWorker.faults env) (WebhookWorker.sample env) webhook db1)
    as [[e w'] db2].
  rewrite H.
  destruct (WebhookProcessor.httpStatusOf (WebhookWorker.send env webhook) =? 0)
    eqn:E; destruct e; simpl; try rewrite E; reflexivity.
Qed.

End TickMetric.

(** ** The intake, from the request to the row *)

(** The error of [CreateWebhookEntry], by its cause. *)
Lemma CreateWebhookEntry_messages (lookup : option WebhookConfig.t * error)
  (fault : error) (violation : string) (n1 n2 n3 createNow : time_Time)
  (new_uuid : uuid_UUID) (eventType : enums.EventType) (eventID : string)
  (configID : Z) (db : DB) :
  let e := fst (WebhookProcessor.CreateWebhookEntry lookup fault violation
                  n1 n2 n3 createNow new_uuid eventType eventID configID db) in
  match lookup with
  | (_, Some le) => e = Some ("failed to get webhook config: " ++ le)
  | (None, None) => e = Some ("webhook config not found: " ++ fmt_d configID)
  | (Some config, None) =>
      if WebhookConfig.IsActive config
      then match fault with
           | Some f =>
               e = Some ("failed to create webhook queue entry: "
                         ++ "failed to create webhook queue entry: " ++ f)
           | None =>
               e = None
               \/ e = Some ("failed to create webhook queue entry: "
                            ++ "failed to create webhook queue entry: "
                            ++ violation)
           end
      else e = Some ("webhook config is not active: " ++ fmt_d configID)
  end.
Proof.
  unfold WebhookProcessor.CreateWebhookEntry.
  destruct lookup as [[config|] [le|]]; try reflexivity.
  destruct (WebhookConfig.IsActive config); simpl negb; cbv iota;
    [|reflexivity].
  unfold WebhookQueueRepository.Create.
  destruct fault as [f|]; [reflexivity|].
  destruct (gorm.Create _ _ _ _ _) as [[m' db']|msg] eqn:E.
  - left. reflexivity.
  - right. unfold gorm.Create in E. cbv zeta in E.
    destruct (existsb _ _) in E; [|discriminate].
    inversion E. reflexivity.
Qed.

(** X20. [CreateWebhook] of the application service, end to end.  It reports
    no error exactly when the event type is CREDIT or DEBIT, the query for the
    configuration works and finds a row that is active, the insert meets no
    driver error, and neither the next id of the sequence nor the fresh uuid
    is taken.  Then the table is the old one followed by one PENDING row at
    retry count 0 with the command's event type, event id and config id and
    the URL of the configuration, and the result says success, with the
    creation time and without a queue id.  In every other case the table is
    unchanged and the result says failure. *)
Theorem X20_intake_accepts_or_leaves_the_table :
  forall (env : services.Intake) (webhook_configs : list WebhookConfigModel.t)
         (cmd : services.CreateWebhookCommand) (db : DB),
    let '(result, err, db') :=
      services.CreateWebhook env webhook_configs cmd db in
    (err = None <->
     event_type.IsValid (services.EventType cmd) = true
     /\ services.lookupFault env = None
     /\ (exists model,
           find (fun m => WebhookConfigModel.ID m =? services.ConfigID cmd)
             webhook_configs = Some model
           /\ WebhookConfigModel.IsActive model = true)
     /\ services.createFault env = None
     /\ forall r, In r (webhook_queue db) ->
          ID r <> id_seq db /\ QueueID r <> services.new_uuid env)
    /\ (err <> None -> db' = db /\ services.Success result = false)
    /\ services.QueueID result = ""
    /\ (err = None ->
        services.Success result = true
        /\ services.Message result = "Webhook created successfully"
        /\ services.CreatedAt result = services.resultNow env
        /\ exists model,
             find (fun m => WebhookConfigModel.ID m =? services.ConfigID cmd)
               webhook_configs = Some model
             /\ db' = mkDB
                        (webhook_queue db
                         ++ [mkWebhookQueue (id_seq db) (services.new_uuid env)
                               (services.EventType cmd) (services.EventID cmd)
                               (services.ConfigID cmd)
                               (WebhookConfigModel.WebhookURL model)
                               enums.WebhookStatusPending 0
                               (if time_IsZero (services.nextRetryNow env)
                                then services.insertNow env
                                else services.nextRetryNow env)
                               emptyHistory "" 0
                               (if time_IsZero (services.createdNow env)
                                then services.insertNow env
                                else services.createdNow env)
                               (if time_IsZero (services.updatedNow env)
                                then services.insertNow env
                                else services.updatedNow env)
                               None None None])
                        (id_seq db + 1)).
Proof.
  intros env webhook_configs cmd db.
  unfold services.CreateWebhook, event_type.Validate.
  destruct (event_type.IsValid (services.EventType cmd)) eqn:Ev; simpl negb;
    cbv iota.
  2:{ split.
      { split; [discriminate|]. intros (H & _). discriminate. }
      split; [intros _; split; reflexivity|].
      split; [reflexivity|]. discriminate. }
  pose proof (CreateWebhookEntry_appends
                (services.lookup env (services.ConfigID cmd) webhook_configs)
                (services.createFault env) (services.createViolation env)
                (services.nextRetryNow env)
                (services.createdNow env) (services.updatedNow env)
                (services.insertNow env) (services.new_uuid env)
                (services.EventType cmd) (services.EventID cmd)
                (services.ConfigID cmd) db) as H.
  destruct (WebhookProcessor.CreateWebhookEntry
              (services.lookup env (services.ConfigID cmd) webhook_configs)
              (services.createFault env) (services.createViolation env)
              (services.nextRetryNow env)
              (services.createdNow env) (services.updatedNow env)
              (services.insertNow env) (services.new_uuid env)
              (services.EventType cmd) (services.EventID cmd)
              (services.ConfigID cmd) db) as [e db'].
  unfold services.lookup, WebhookConfigRepository.GetByID in H.
  destruct H as [(He & Hdb & Hcause)|(He & Hf & Hnew & config & Hl & Ha & Hdb)].
  - destruct e as [e|]; [|contradiction].
    split.
    { split; [discriminate|].
      intros (_ & Hlf & (model & Hfind & Hact) & Hcf & Hnew). exfalso.
      rewrite Hlf, Hfind in Hcause. cbn [option_map] in Hcause.
      destruct Hcause as [Hc|[Hc|(r & Hr & Hc)]].
      - specialize (Hc _ eq_refl). simpl in Hc. rewrite Hact in Hc. discriminate.
      - contradiction.
      - destruct (Hnew r Hr) as [H1 H2]. destruct Hc; contradiction. }
    split; [intros _; split; [exact Hdb|reflexivity]|].
    split; [reflexivity|]. discriminate.
  - subst e. destruct (services.lookupFault env) as [lf|] eqn:Elf;
      [discriminate|].
    destruct (find (fun m => WebhookConfigModel.ID m =? services.ConfigID cmd)
                webhook_configs) as [model|] eqn:Efind; [|discriminate].
    cbn [option_map] in Hl. inversion Hl; subst config. simpl in Ha.
    split.
    { split; [|reflexivity]. intros _.
      split; [reflexivity|]. split; [reflexivity|].
      split; [exists model; split; [reflexivity|exact Ha]|].
      split; [exact Hf|exact Hnew]. }
    split; [intro H; contradiction|].
    split; [reflexivity|].
    intros _. split; [reflexivity|]. split; [reflexivity|].
    split; [reflexivity|].
    exists model. split; [reflexivity|exact Hdb].
Qed.

(** X21. The errors of the intake, by cause.  An event type other than CREDIT
    and DEBIT is refused first, with
    [invalid event type: <type> (must be one of: CREDIT, DEBIT)]; a failing
    query for the configuration gives
    [failed to get webhook config: failed to get webhook config by ID: <cause>];
    a missing configuration, which the repository reports as no error,
    gives [webhook config not found: <id>]; an inactive one gives
    [webhook config is not active: <id>]; and a failing insert gives its
    cause behind the prefix [failed to create webhook queue entry: ] twice.
    The message of the result is the error behind [Invalid event type: ] in
    the first case and behind [Failed to create webhook: ] in the others. *)
Theorem X21_intake_error_messages :
  forall (env : services.Intake) (webhook_configs : list WebhookConfigModel.t)
         (cmd : services.CreateWebhookCommand) (db : DB),
    let '(result, err, _) :=
      services.CreateWebhook env webhook_configs cmd db in
    match err with
    | None => True
    | Some e =>
    (event_type.IsValid (services.EventType cmd) = false
     /\ e = "invalid event type: " ++ services.EventType cmd
            ++ " (must be one of: CREDIT, DEBIT)"
     /\ services.Message result = "Invalid event type: " ++ e)
    \/ (event_type.IsValid (services.EventType cmd) = true
        /\ services.Message result = "Failed to create webhook: " ++ e
        /\ ((exists cause,
               services.lookupFault env = Some cause
               /\ e = "failed to get webhook config: "
                      ++ "failed to get webhook config by ID: " ++ cause)
            \/ (services.lookupFault env = None
                /\ find (fun m => WebhookConfigModel.ID m =? services.ConfigID cmd)
                     webhook_configs = None
                /\ e = "webhook config not found: "
                       ++ fmt_d (services.ConfigID cmd))
            \/ (services.lookupFault env = None
                /\ (exists model,
                      find (fun m =>
                              WebhookConfigModel.ID m =? services.ConfigID cmd)
                        webhook_configs = Some model
                      /\ WebhookConfigModel.IsActive model = false)
                /\ e = "webhook config is not active: "
                       ++ fmt_d (services.ConfigID cmd))
            \/ (exists cause,
                  (services.createFault env = Some cause
                   \/ (services.createFault env = None
                       /\ cause = services.createViolation env))
                  /\ e = "failed to create webhook queue entry: "
                         ++ "failed to create webhook queue entry: " ++ cause)))
    end.
Proof.
  intros env webhook_configs cmd db.
  unfold services.CreateWebhook, event_type.Validate.
  destruct (event_type.IsValid (services.EventType cmd)) eqn:Ev; simpl negb;
    cbv iota.
  2:{ left. split; [reflexivity|]. split; reflexivity. }
  pose proof (CreateWebhookEntry_messages
                (services.lookup env (services.ConfigID cmd) webhook_configs)
                (services.createFault env) (services.createViolation env)
                (services.nextRetryNow env)
                (services.createdNow env) (services.updatedNow env)
                (services.insertNow env) (services.new_uuid env)
                (services.EventType cmd) (services.EventID cmd)
                (services.ConfigID cmd) db) as H.
  cbv zeta in H.
  destruct (WebhookProcessor.CreateWebhookEntry
              (services.lookup env (services.ConfigID cmd) webhook_configs)
              (services.createFault env) (services.createViolation env)
              (services.nextRetryNow env)
              (services.createdNow env) (services.updatedNow env)
              (services.insertNow env) (services.new_uuid env)
              (services.EventType cmd) (services.EventID cmd)
              (services.ConfigID cmd) db) as [e0 db'].
  cbn [fst] in H.
  destruct e0 as [e|]; [|exact I].
  right.
  split; [reflexivity|]. split; [reflexivity|].
  unfold services.lookup, WebhookConfigRepository.GetByID,
    fmt_Errorf_w in H.
  destruct (services.lookupFault env) as [lf|] eqn:Elf.
  { left. exists lf. split; [reflexivity|]. inversion H. reflexivity. }
  destruct (find (fun m => WebhookConfigModel.ID m =? services.ConfigID cmd)
              webhook_configs) as [model|] eqn:Efind.
  2:{ right. left. split; [reflexivity|]. split; [reflexivity|].
      inversion H. reflexivity. }
  cbn [option_map] in H. simpl WebhookConfig.IsActive in H.
  destruct (WebhookConfigModel.IsActive model) eqn:Ea.
  - right. right. right.
    destruct (services.createFault env) as [cf|] eqn:Ecf.
    + exists cf. split; [left; reflexivity|]. inversion H. reflexivity.
    + destruct H as [H|H]; [discriminate|].
      exists (services.createViolation env).
      split; [right; split; reflexivity|].
      inversion H. reflexivity.
  - right. right. left. split; [reflexivity|].
    split; [exists model; split; [reflexivity|exact Ea]|].
    inversion H. reflexivity.
Qed.

Section Transport.

Variable time_Format_RFC3339 : time_Time -> string.

(** The result of the application service, as the HTTP service reads it. *)
Lemma CreateWebhook_result_shape (env : services.Intake)
  (webhook_configs : list WebhookConfigModel.t)
  (cmd : services.CreateWebhookCommand) (db : DB) :
  let '(result, err, db') := services.CreateWebhook env webhook_configs cmd db in
  (event_type.IsValid (services.EventType cmd) = false ->
   db' = db
   /\ err = Some ("invalid event type: " ++ services.EventType cmd
                  ++ " (must be one of: CREDIT, DEBIT)"))
  /\ (err = None ->
      services.Success result = true
      /\ services.Message result = "Webhook created successfully"
      /\ services.QueueID result = ""
      /\ services.CreatedAt result = services.resultNow env).
Proof.
  unfold services.CreateWebhook, event_type.Validate.
  destruct (event_type.IsValid (services.EventType cmd)); simpl negb; cbv iota.
  - destruct (WebhookProcessor.CreateWebhookEntry _ _ _ _ _ _ _ _ _ _ _ _)
      as [[e|] db'].
    + split; discriminate.
    + split; [discriminate|]. intros _. repeat split; reflexivity.
  - split; [|discriminate]. intros _. split; reflexivity.
Qed.

(** X22. [CreateWebhook] of the HTTP service passes the error and the table of
    the application service through, and builds its response from them: on an
    error the response is [success: false] with the message
    [Failed to create webhook: <error>] and nothing else, so the application
    service's own message is dropped; on success it is [success: true] with
    [Webhook created successfully], never a queue id, and the creation time in
    RFC 3339 unless that time is the zero time.  The response says success
    exactly when no error is returned. *)
Theorem X22_http_CreateWebhook_response :
  forall (env : services.Intake) (webhook_configs : list WebhookConfigModel.t)
         (req : transport.CreateWebhookRequest) (db : DB),
    let '(resp, err, db') :=
      transport.CreateWebhook time_Format_RFC3339 env webhook_configs req db in
    let '(_, appErr, appDB) :=
      services.CreateWebhook env webhook_configs
        (services.mkCreateWebhookCommand (transport.EventType req)
           (transport.EventID req) (transport.ConfigID req)) db in
    err = appErr
    /\ db' = appDB
    /\ resp
       = match err with
         | Some e =>
             transport.mkCreateWebhookResponse false
               ("Failed to create webhook: " ++ e) "" ""
         | None =>
             transport.mkCreateWebhookResponse true
               "Webhook created successfully" ""
               (if time_IsZero (services.resultNow env) then ""
                else time_Format_RFC3339 (services.resultNow env))
         end
    /\ (event_type.IsValid (transport.EventType req) = false ->
        db' = db
        /\ transport.Message resp
           = "Failed to create webhook: invalid event type: "
             ++ transport.EventType req ++ " (must be one of: CREDIT, DEBIT)").
Proof.
  intros env webhook_configs req db.
  unfold transport.CreateWebhook, transport.ToApplicationCommand. cbv zeta.
  pose proof (CreateWebhook_result_shape env webhook_configs
                (services.mkCreateWebhookCommand (transport.EventType req)
                   (transport.EventID req) (transport.ConfigID req)) db) as H.
  destruct (services.CreateWebhook env webhook_configs
              (services.mkCreateWebhookCommand (transport.EventType req)
                 (transport.EventID req) (transport.ConfigID req)) db)
    as [[result appErr] appDB].
  destruct H as (Hinv & Hok).
  destruct appErr as [e|].
  - split; [reflexivity|]. split; [reflexivity|]. split; [reflexivity|].
    intro Hv. destruct (Hinv Hv) as (Hdb & He). split; [exact Hdb|].
    inversion He. reflexivity.
  - split; [reflexivity|]. split; [reflexivity|].
    destruct (Hok eq_refl) as (H1 & H2 & H3 & H4).
    split.
    { unfold transport.FromApplicationResult. rewrite H1, H2, H3, H4.
      destruct (time_IsZero (services.resultNow env)); reflexivity. }
    intro Hv. destruct (Hinv Hv) as (_ & He). discriminate.
Qed.

End Transport.

(** ** The configuration *)

Section ConfigFacts.

Variable os_Getenv : string -> string.
Variable strconv_Atoi : string -> option Z.
Variable time_ParseDuration : string -> option time_Duration.

Lemma getEnv_not_empty (key defaultValue : string) :
  defaultValue <> "" -> config.getEnv os_Getenv key defaultValue <> "".
Proof.
  intro H. unfold config.getEnv.
  destruct (String.eqb (os_Getenv key) "") eqn:E; simpl.
  - exact H.
  - apply String.eqb_neq. exact E.
Qed.

(** X23. [LoadConfig], for every environment and whatever the parsers
    return: it fails in two cases only, a client timeout that is not positive
    ([invalid configuration: HTTP client timeout must be positive]) and
    otherwise a server port outside [1, 65535]
    ([invalid configuration: HTTP server port must be between 1 and 65535]).
    The three checks of [Validate] for a missing database host, user and name
    never fire, because an empty variable takes its default.  A configuration
    that is returned passes [Validate]. *)
Theorem X23_LoadConfig_failures :
    let timeoutValue :=
      config.getEnvAsDuration os_Getenv time_ParseDuration "HTTP_CLIENT_TIMEOUT"
        (30 * time_Second) in
    let portValue := config.getEnvAsInt os_Getenv strconv_Atoi "API_PORT" 8080 in
    match config.LoadConfig os_Getenv strconv_Atoi time_ParseDuration with
    | Err msg =>
        (timeoutValue <= 0
         /\ msg = "invalid configuration: HTTP client timeout must be positive")
        \/ (0 < timeoutValue
            /\ ~ 1 <= portValue <= 65535
            /\ msg = "invalid configuration: "
                     ++ "HTTP server port must be between 1 and 65535")
    | Ok c =>
        0 < timeoutValue
        /\ 1 <= portValue <= 65535
        /\ config.Validate c = None
        /\ config.Timeout (config.HTTPClient c) = timeoutValue
        /\ config.ServerPort (config.HTTPServer c) = portValue
        /\ config.Host (config.Database c) <> ""
        /\ config.User (config.Database c) <> ""
        /\ config.DBName (config.Database c) <> ""
    end.
Proof.
  intros timeoutValue portValue.
  assert (Ht : timeoutValue
               = config.getEnvAsDuration os_Getenv time_ParseDuration
                   "HTTP_CLIENT_TIMEOUT" (30 * time_Second)) by reflexivity.
  assert (Hp : portValue
               = config.getEnvAsInt os_Getenv strconv_Atoi "API_PORT" 8080)
    by reflexivity.
  clearbody timeoutValue portValue.
  unfold config.LoadConfig. cbv zeta.
  set (c := config.mkConfig _ _ _).
  assert (Hh : config.Host (config.Database c) <> "")
    by (apply getEnv_not_empty; discriminate).
  assert (Hu : config.User (config.Database c) <> "")
    by (apply getEnv_not_empty; discriminate).
  assert (Hd : config.DBName (config.Database c) <> "")
    by (apply getEnv_not_empty; discriminate).
  assert (Hto : config.Timeout (config.HTTPClient c) = timeoutValue)
    by (rewrite Ht; reflexivity).
  assert (Hpo : config.ServerPort (config.HTTPServer c) = portValue)
    by (rewrite Hp; reflexivity).
  clearbody c. unfold config.Validate.
  apply String.eqb_neq in Hh, Hu, Hd. rewrite Hh, Hu, Hd, Hto, Hpo.
  destruct (timeoutValue <=? 0) eqn:E1.
  { apply Z.leb_le in E1. left. split; [exact E1|reflexivity]. }
  apply Z.leb_gt in E1.
  destruct ((portValue <=? 0) || (portValue >? 65535)) eqn:E2.
  { right. split; [exact E1|]. split; [|reflexivity].
    apply orb_true_iff in E2. destruct E2 as [E2|E2].
    - apply Z.leb_le in E2. lia.
    - apply Z.gtb_lt in E2. lia. }
  apply orb_false_iff in E2. destruct E2 as [E2 E3].
  apply Z.leb_gt in E2. rewrite Z.gtb_ltb in E3. apply Z.ltb_ge in E3.
  split; [exact E1|]. split; [lia|].
  split.
  { unfold config.Validate. rewrite Hh, Hu, Hd, Hto, Hpo.
    replace (timeoutValue <=? 0) with false by (symmetry; apply Z.leb_gt; exact E1).
    replace ((portValue <=? 0) || (portValue >? 65535)) with false; [reflexivity|].
    symmetry. apply orb_false_iff. split; [apply Z.leb_gt; exact E2|].
    rewrite Z.gtb_ltb. apply Z.ltb_ge. exact E3. }
  split; [exact Hto|]. split; [exact Hpo|].
  apply String.eqb_neq in Hh, Hu, Hd. repeat split; assumption.
Qed.

End ConfigFacts.

(** An environment that sets the port to 70000 is refused. *)
Example LoadConfig_port_out_of_range :
  config.LoadConfig sampleGetenv sampleAtoi sampleParseDuration
  = Err "invalid configuration: HTTP server port must be between 1 and 65535".
Proof. reflexivity. Qed.

(** ** The default roster *)

(** X24. The default roster serves every tier a row can be at.  Each of its
    entries has a tier within [0, MaxRetryAttempts] and a positive poll
    interval; and once a pool built from it has been started, for every row
    with a retry count within [0, MaxRetryAttempts] the pool holds a running
    worker of exactly that tier. *)
Theorem X24_default_roster_serves_every_tier :
  forall (uuid8 : WorkerPool.WorkerConfig -> string) (h : WorkerPool.Heap),
    (forall cfg, In cfg config.GetDefaultWorkerPoolConfig ->
       0 <= WorkerPool.RetryLevel cfg <= enums.MaxRetryAttempts
       /\ 0 < WorkerPool.PollInterval cfg)
    /\ let '(e, h', wp') :=
         WorkerPool.Start (WorkerPool.sourceWorker uuid8) h
           (WorkerPool.NewWorkerPool config.GetDefaultWorkerPoolConfig) in
       e = None
       /\ WorkerPool.running wp' = true
       /\ List.length (WorkerPool.workers wp') = 9%nat
       /\ forall r : WebhookQueue,
            0 <= RetryCount r <= enums.MaxRetryAttempts ->
            exists p w,
              In p (WorkerPool.workers wp')
              /\ nth_error h' p = Some w
              /\ WebhookWorker.retryLevel w = RetryCount r
              /\ WebhookWorker.running w = true.
Proof.
  intros uuid8 h. split.
  { intros cfg Hin. simpl in Hin.
    repeat (destruct Hin as [<-|Hin];
            [split; [unfold enums.MaxRetryAttempts; simpl; lia|reflexivity]|]).
    contradiction. }
  unfold WorkerPool.Start. cbn [WorkerPool.running WorkerPool.NewWorkerPool].
  rewrite startLoop_source.
  cbn [WorkerPool.workers WorkerPool.config WorkerPool.NewWorkerPool app].
  split; [reflexivity|]. split; [reflexivity|].
  split; [rewrite length_seq; reflexivity|].
  intros r Hr.
  assert (Hat : forall i cfg,
             nth_error config.GetDefaultWorkerPoolConfig i = Some cfg ->
             exists p w,
               In p (seq (List.length h)
                       (List.length config.GetDefaultWorkerPoolConfig))
               /\ nth_error
                    (h ++ map (fun cfg =>
                                 WebhookWorker.mk
                                   ("retry-" ++ fmt_d (WorkerPool.RetryLevel cfg)
                                    ++ "-" ++ uuid8 cfg)
                                   (WorkerPool.RetryLevel cfg)
                                   (WorkerPool.PollInterval cfg) false true)
                            config.GetDefaultWorkerPoolConfig)%list p = Some w
               /\ WebhookWorker.retryLevel w = WorkerPool.RetryLevel cfg
               /\ WebhookWorker.running w = true).
  { intros i cfg Hi.
    exists (List.length h + i)%nat. eexists.
    split.
    { apply in_seq. split; [lia|].
      assert (i < List.length config.GetDefaultWorkerPoolConfig)%nat
        by (apply nth_error_Some; congruence).
      lia. }
    split.
    { rewrite nth_error_app2 by lia.
      replace (List.length h + i - List.length h)%nat with i by lia.
      rewrite nth_error_map, Hi. reflexivity. }
    split; reflexivity. }
  unfold enums.MaxRetryAttempts in Hr.
  destruct (tier_cases (RetryCount r) Hr) as [E|[E|[E|[E|[E|[E|E]]]]]]; rewrite E.
  - exact (Hat 0%nat _ eq_refl).
  - exact (Hat 3%nat _ eq_refl).
  - exact (Hat 4%nat _ eq_refl).
  - exact (Hat 5%nat _ eq_refl).
  - exact (Hat 6%nat _ eq_refl).
  - exact (Hat 7%nat _ eq_refl).
  - exact (Hat 8%nat _ eq_refl).
Qed.

(** * Further properties of whole runs *)

Section Runs.

Variable float64 : Q -> Q.
Variable http_StatusText : Z -> string.

(** What a step keeps: the primary key; the rows in their places, new ones
    only at the end; and empty history slots above each row's tier. *)
Lemma step_shape (db db' : DB) :
  step float64 http_StatusText db db' ->
  primaryKey db ->
  primaryKey db'
  /\ (exists more,
        map ID (webhook_queue db') = (map ID (webhook_queue db) ++ more)%list
        /\ id_seq db <= id_seq db')
  /\ (laterSlotsEmpty db -> laterSlotsEmpty db').
Proof.
  intros Hs Hpk. destruct Hs.
  - destruct (tick_changes float64 http_StatusText w env db Hpk)
      as [Hsame|(m & c' & Hin & Hel & Ht & Hc' & _ & Hslots & Hrc & _)].
    + rewrite Hsame. split; [exact Hpk|].
      split; [exists []; rewrite app_nil_r; split; [reflexivity|lia]|].
      intro H. exact H.
    + pose proof (touchesOnly_primaryKey _ _ _ Ht Hpk) as Hpk'.
      split; [exact Hpk'|].
      split.
      { exists []. rewrite app_nil_r. split; [apply (touchesOnly_ids _ _ _ Ht)|].
        destruct Ht as [Hseq _]. lia. }
      intros Hinv r j a Hr Hj Ha.
      pose proof (In_FirstByID _ _ Hpk' Hr) as Hfind.
      apply eligible_iff in Hel. destruct Hel as (_ & Htier & _).
      destruct (Z.eq_dec (ID r) (ID m)) as [E|E].
      * rewrite E in Hfind. unfold gorm.FirstByID in Hc'.
        rewrite Hc' in Hfind. inversion Hfind; subst r.
        rewrite Hslots in Ha by lia.
        apply (Hinv m j a Hin); [lia|exact Ha].
      * pose proof (touchesOnly_FirstByID _ _ _ _ Ht E) as Hold.
        unfold gorm.FirstByID in Hold. rewrite Hfind in Hold. symmetry in Hold.
        apply (Hinv r j a); [|exact Hj|exact Ha].
        apply find_some in Hold. apply Hold.
  - pose proof (CreateWebhookEntry_appends lookup fault violation n1 n2 n3 createNow
                  new_uuid eventType eventID configID db) as H.
    destruct (WebhookProcessor.CreateWebhookEntry lookup fault violation n1 n2 n3 createNow
                new_uuid eventType eventID configID db) as [e db'].
    cbn [snd].
    destruct H as [(_ & Hdb & _)|(_ & _ & Hnew & config & _ & _ & Hdb)].
    + rewrite Hdb. split; [exact Hpk|].
      split; [exists []; rewrite app_nil_r; split; [reflexivity|lia]|].
      intro H. exact H.
    + rewrite Hdb. split.
      { unfold primaryKey. cbn [webhook_queue]. rewrite map_app. simpl.
        apply NoDup_app; [exact Hpk|repeat constructor; intros []|].
        intros i Hi [Hm|[]]. apply in_map_iff in Hi.
        destruct Hi as (r & Hr & Hin). destruct (Hnew r Hin) as [Hn _].
        congruence. }
      split.
      { eexists. cbn [webhook_queue id_seq]. rewrite map_app.
        split; [reflexivity|lia]. }
      intros Hinv r j a Hr Hj Ha. cbn [webhook_queue] in Hr.
      apply in_app_or in Hr. destruct Hr as [Hr|[<-|[]]].
      * apply (Hinv r j a Hr Hj Ha).
      * cbn [Retries RetryCount] in Hj, Ha.
        tier_split j; simpl in Ha; try discriminate; inversion Ha; reflexivity.
Qed.

(** X25. No step deletes or moves a row.  Along every run the ids of the
    table, in order, are the ids it started with followed by those of the
    requests accepted since, and the id sequence never goes back. *)
Theorem X25_table_only_grows :
  forall (db db' : DB),
    steps float64 http_StatusText db db' ->
    primaryKey db ->
    exists more,
      map ID (webhook_queue db') = (map ID (webhook_queue db) ++ more)%list
      /\ id_seq db <= id_seq db'.
Proof.
  intros db db' Hsteps. unfold steps in Hsteps.
  induction Hsteps as [db|db mid db' Hstep _ IH]; intro Hpk.
  - exists []. rewrite app_nil_r. split; [reflexivity|lia].
  - destruct (step_shape db mid Hstep Hpk) as (Hpk' & (m1 & Hm1 & Hs1) & _).
    destruct (IH Hpk') as (m2 & Hm2 & Hs2).
    exists (m1 ++ m2)%list. rewrite Hm2, Hm1, app_assoc.
    split; [reflexivity|lia].
Qed.

(** X26. A history slot is written only by the attempt of its own tier.
    Along every run, if every row starts with empty slots above its retry
    count, then every row still has empty slots above its retry count: the
    slot of tier [j] of a row stays empty until the row has reached tier
    [j].  Rows that the intake inserts start with all slots empty. *)
Theorem X26_slots_above_the_tier_stay_empty :
  forall (db db' : DB),
    steps float64 http_StatusText db db' ->
    primaryKey db ->
    laterSlotsEmpty db ->
    laterSlotsEmpty db'.
Proof.
  intros db db' Hsteps. unfold steps in Hsteps.
  induction Hsteps as [db|db mid db' Hstep _ IH]; intros Hpk Hinv.
  - exact Hinv.
  - destruct (step_shape db mid Hstep Hpk) as (Hpk' & _ & Hkeep).
    apply IH; [exact Hpk'|]. apply Hkeep. exact Hinv.
Qed.

End Runs.

Lemma sample_tick_run :
  steps exactFloat64 sampleStatusText sampleDB
    (WebhookWorker.processNextWebhook exactFloat64 sampleStatusText
       sampleWorker0 sampleTick503 sampleDB).
Proof.
  eapply Relation_Operators.rt1n_trans;
    [apply step_tick|apply Relation_Operators.rt1n_refl].
Defined.

Lemma laterSlotsEmpty_sampleDB : laterSlotsEmpty sampleDB.
Proof.
  intros r j a Hr Hj Ha. simpl in Hr.
  destruct Hr as [<-|[<-|[<-|[]]]]; simpl in Ha;
    tier_split j; simpl in Ha; try discriminate; inversion Ha; reflexivity.
Defined.

Lemma X25_table_only_grows_witness :
  steps exactFloat64 sampleStatusText sampleDB
    (WebhookWorker.processNextWebhook exactFloat64 sampleStatusText
       sampleWorker0 sampleTick503 sampleDB)
  /\ primaryKey sampleDB
  /\ exists more,
       map ID (webhook_queue
                 (WebhookWorker.processNextWebhook exactFloat64 sampleStatusText
                    sampleWorker0 sampleTick503 sampleDB))
       = (map ID (webhook_queue sampleDB) ++ more)%list
       /\ id_seq sampleDB
          <= id_seq (WebhookWorker.processNextWebhook exactFloat64
                       sampleStatusText sampleWorker0 sampleTick503 sampleDB).
Proof.
  split; [exact sample_tick_run|]. split; [exact primaryKey_sampleDB|].
  exact (X25_table_only_grows exactFloat64 sampleStatusText sampleDB _
           sample_tick_run primaryKey_sampleDB).
Defined.

Lemma X26_slots_above_the_tier_stay_empty_witness :
  steps exactFloat64 sampleStatusText sampleDB
    (WebhookWorker.processNextWebhook exactFloat64 sampleStatusText
       sampleWorker0 sampleTick503 sampleDB)
  /\ primaryKey sampleDB
  /\ laterSlotsEmpty sampleDB
  /\ laterSlotsEmpty
       (WebhookWorker.processNextWebhook exactFloat64 sampleStatusText
          sampleWorker0 sampleTick503 sampleDB).
Proof.
  split; [exact sample_tick_run|]. split; [exact primaryKey_sampleDB|].
  split; [exact laterSlotsEmpty_sampleDB|].
  exact (X26_slots_above_the_tier_stay_empty exactFloat64 sampleStatusText
           sampleDB _ sample_tick_run primaryKey_sampleDB laterSlotsEmpty_sampleDB).
Defined.

(** * Further properties of the attempt record *)

(** X27. Two attempts recorded at the same tier.  The second
    [UpdateRetryAttempt] replaces start, end, duration, status code and body
    of the slot; but when it carries no error message, the error of the first
    stays in the slot and in [last_error].  After a failed attempt and a
    successful one at the same tier, which happens when the write after the
    first attempt failed and the row was reset, the slot shows the new status
    code beside the old error. *)
Theorem X27_second_record_keeps_the_first_error :
  forall (k id : Z) (db : DB) (r : WebhookQueue)
         (now1 now2 s1 s2 c1 c2 : time_Time) (d1 d2 h1 h2 : Z)
         (b1 b2 e1 : string),
    0 <= k <= 6 ->
    gorm.FirstByID id db = Some r ->
    e1 <> "" ->
    let db1 :=
      snd (WebhookQueueRepository.UpdateRetryAttempt None now1 id k s1 (Some c1)
             d1 h1 b1 e1 db) in
    let db2 :=
      snd (WebhookQueueRepository.UpdateRetryAttempt None now2 id k s2 (Some c2)
             d2 h2 b2 "" db1) in
    exists r2,
      gorm.FirstByID id db2 = Some r2
      /\ getAttempt k (Retries r2)
         = Some (mkRetryAttempt (Some s2) (Some c2) (Some d2) (Some h2) (Some b2)
                   (Some e1))
      /\ LastHTTPStatus r2 = h2
      /\ LastError r2 = e1
      /\ Status r2 = Status r
      /\ RetryCount r2 = RetryCount r.
Proof.
  intros k id db r now1 now2 s1 s2 c1 c2 d1 d2 h1 h2 b1 b2 e1 Hk Hr He1 db1 db2.
  subst db1 db2. unfold WebhookQueueRepository.UpdateRetryAttempt. cbv zeta.
  cbn [snd].
  rewrite !FirstByID_Updates, Hr. cbn [option_map]. rewrite Z.eqb_refl.
  eexists. split; [reflexivity|].
  destruct (retryAttemptUpdates_row now1 k s1 (Some c1) d1 h1 b1 e1 r Hk)
    as (a & a1 & _ & Ha1 & A1 & A2 & A3 & A4 & A5 & _ & _ & _ & Aerr & AS & AR & _).
  destruct (Aerr He1) as [AL AE].
  set (r1 := applyUpdates
               (WebhookQueueRepository.retryAttemptUpdates now1 k s1 (Some c1)
                  d1 h1 b1 e1) r) in *.
  destruct (retryAttemptUpdates_row now2 k s2 (Some c2) d2 h2 b2 "" r1 Hk)
    as (a1' & a2 & Ha1' & Ha2 & B1 & B2 & B3 & B4 & B5 & BH & _ & Bkeep & _ & BS
        & BR & _).
  destruct (Bkeep eq_refl) as [BL BE].
  rewrite Ha1 in Ha1'. inversion Ha1'; subst a1'.
  split.
  { rewrite Ha2. f_equal. destruct a2 as [x1 x2 x3 x4 x5 x6]. simpl in *.
    rewrite B1, B2, B3, B4, B5, BE, AE. reflexivity. }
  split; [exact BH|].
  split; [rewrite BL; exact AL|].
  split; [rewrite BS; exact AS|].
  rewrite BR. exact AR.
Qed.

Lemma X27_second_record_keeps_the_first_error_witness :
  0 <= 6 <= 6
  /\ gorm.FirstByID 7 sampleLastDB = Some sampleLast
  /\ "HTTP 503: Service Unavailable" <> ""
  /\ exists r2,
       gorm.FirstByID 7
         (snd (WebhookQueueRepository.UpdateRetryAttempt None 320 7 6 310 (Some 315)
                 5 200 "ok" ""
                 (snd (WebhookQueueRepository.UpdateRetryAttempt None 220 7 6 210
                         (Some 215) 5 503 "busy" "HTTP 503: Service Unavailable"
                         sampleLastDB)))) = Some r2
       /\ getAttempt 6 (Retries r2)
          = Some (mkRetryAttempt (Some 310) (Some 315) (Some 5) (Some 200)
                    (Some "ok") (Some "HTTP 503: Service Unavailable"))
       /\ LastHTTPStatus r2 = 200
       /\ LastError r2 = "HTTP 503: Service Unavailable".
Proof.
  assert (H1 : 0 <= 6 <= 6) by lia.
  assert (H3 : "HTTP 503: Service Unavailable" <> "") by discriminate.
  split; [exact H1|]. split; [reflexivity|]. split; [exact H3|].
  destruct (X27_second_record_keeps_the_first_error 6 7 sampleLastDB sampleLast
              220 320 210 310 215 315 5 5 503 200 "busy" "ok"
              "HTTP 503: Service Unavailable" H1 eq_refl H3)
    as (r2 & F & S & L & E & _).
  exists r2. split; [exact F|]. split; [exact S|]. split; [exact L|exact E].
Defined.

Section MissingRow.

Variable float64 : Q -> Q.
Variable http_StatusText : Z -> string.

(** X28. [ProcessWebhook] for an entity whose row is not in the table writes
    nothing, whatever the faults.  Without driver faults it reports no error
    after a successful delivery and after a failed last attempt, although
    nothing was stored; only the retry branch notices, with
    [failed to get current webhook state: record not found]. *)
Theorem X28_ProcessWebhook_without_its_row :
  forall (send : SendResult) (clk : WebhookProcessor.Clock)
         (flt : WebhookProcessor.Faults) (sample : Q)
         (webhook : WebhookQueue) (db : DB),
    gorm.FirstByID (ID webhook) db = None ->
    let '(e, _, db') :=
      WebhookProcessor.ProcessWebhook float64 http_StatusText send clk flt sample
        webhook db in
    db' = db
    /\ (flt = WebhookProcessor.noFaults ->
        e = if WebhookProcessor.succeeded send then None
            else if CanRetry webhook
                 then Some "failed to get current webhook state: record not found"
                 else None).
Proof.
  intros send clk flt sample webhook db Hmiss.
  unfold WebhookProcessor.ProcessWebhook. cbv zeta.
  assert (H1 : forall f n k s c d h b em,
             snd (WebhookQueueRepository.UpdateRetryAttempt f n (ID webhook) k s c
                    d h b em db) = db).
  { intros. unfold WebhookQueueRepository.UpdateRetryAttempt. cbv zeta.
    destruct f; [reflexivity|]. cbn [snd]. apply Updates_missing. exact Hmiss. }
  rewrite H1.
  destruct (withLastStatus_fields http_StatusText send webhook) as (Hid & _).
  rewrite (CanRetry_withLastStatus http_StatusText send webhook).
  destruct (WebhookProcessor.succeeded send).
  - unfold WebhookQueueRepository.MarkCompleted. rewrite Hid.
    destruct (WebhookProcessor.writeFault flt) eqn:Ew.
    + split; [reflexivity|]. intros ->. discriminate.
    + rewrite Updates_missing by exact Hmiss. split; reflexivity.
  - destruct (CanRetry webhook).
    + unfold WebhookQueueRepository.Update.
      replace (ID (WebhookProcessor.rescheduled float64 clk sample
                     (WebhookProcessor.withLastStatus http_StatusText send webhook)))
        with (ID webhook) by (symmetry; exact Hid).
      rewrite Hmiss.
      destruct (WebhookProcessor.readFault flt) eqn:Er.
      * split; [reflexivity|]. intros ->. discriminate.
      * split; reflexivity.
    + unfold WebhookQueueRepository.MarkFailed. rewrite Hid.
      destruct (WebhookProcessor.writeFault flt) eqn:Ew.
      * split; [reflexivity|]. intros ->. discriminate.
      * rewrite Updates_missing by exact Hmiss. split; reflexivity.
Qed.

End MissingRow.

Lemma X28_ProcessWebhook_without_its_row_witness :
  gorm.FirstByID (ID sampleClaimed) emptyDB = None
  /\ let '(e, _, db') :=
       WebhookProcessor.ProcessWebhook exactFloat64 sampleStatusText send200
         sampleClock WebhookProcessor.noFaults (1 # 2) sampleClaimed emptyDB in
     db' = emptyDB
     /\ (WebhookProcessor.noFaults = WebhookProcessor.noFaults ->
         e = if WebhookProcessor.succeeded send200 then None
             else if CanRetry sampleClaimed
                  then Some "failed to get current webhook state: record not found"
                  else None).
Proof.
  split; [reflexivity|].
  exact (X28_ProcessWebhook_without_its_row exactFloat64 sampleStatusText send200
           sampleClock WebhookProcessor.noFaults (1 # 2) sampleClaimed emptyDB
           eq_refl).
Defined.

(** * Further properties of a single worker *)

(** X29. A worker is good for one run.  [Start], [Stop] and [Start] again on
    a worker that is not running all succeed, and the worker is then marked
    running, but its context, made once by [NewWebhookWorker] and cancelled by
    [Stop], is still cancelled; no later [Start] or [Stop] clears it.  (The
    pool never restarts a worker: each [Start] of the pool makes new ones.) *)
Theorem X29_worker_context_stays_cancelled :
  forall w : WebhookWorker.t,
    WebhookWorker.running w = false ->
    let '(e1, w1) := WebhookWorker.Start w in
    let '(e2, w2) := WebhookWorker.Stop w1 in
    let '(e3, w3) := WebhookWorker.Start w2 in
    e1 = None /\ e2 = None /\ e3 = None
    /\ WebhookWorker.running w3 = true
    /\ WebhookWorker.cancelled w3 = true
    /\ (forall v, WebhookWorker.cancelled v = true ->
          WebhookWorker.cancelled (snd (WebhookWorker.Start v)) = true
          /\ WebhookWorker.cancelled (snd (WebhookWorker.Stop v)) = true).
Proof.
  intros w Hr. unfold WebhookWorker.Start at 1. rewrite Hr.
  cbv beta iota. unfold WebhookWorker.Stop at 1. cbn [WebhookWorker.running negb].
  cbv beta iota. unfold WebhookWorker.Start at 1. cbn [WebhookWorker.running].
  cbv beta iota.
  split; [reflexivity|]. split; [reflexivity|]. split; [reflexivity|].
  split; [reflexivity|]. split; [reflexivity|].
  intros v Hv. unfold WebhookWorker.Start, WebhookWorker.Stop.
  destruct (WebhookWorker.running v); simpl; split; first [exact Hv|reflexivity].
Qed.

Lemma X29_worker_context_stays_cancelled_witness :
  WebhookWorker.running (WebhookWorker.NewWebhookWorker "0a1b2c3d" 0 (5 * time_Second))
  = false
  /\ let '(e1, w1) :=
       WebhookWorker.Start
         (WebhookWorker.NewWebhookWorker "0a1b2c3d" 0 (5 * time_Second)) in
     let '(e2, w2) := WebhookWorker.Stop w1 in
     let '(e3, w3) := WebhookWorker.Start w2 in
     e1 = None /\ e2 = None /\ e3 = None
     /\ WebhookWorker.running w3 = true
     /\ WebhookWorker.cancelled w3 = true
     /\ (forall v, WebhookWorker.cancelled v = true ->
           WebhookWorker.cancelled (snd (WebhookWorker.Start v)) = true
           /\ WebhookWorker.cancelled (snd (WebhookWorker.Stop v)) = true).
Proof.
  split; [reflexivity|].
  exact (X29_worker_context_stays_cancelled
           (WebhookWorker.NewWebhookWorker "0a1b2c3d" 0 (5 * time_Second)) eq_refl).
Defined.

(** * A tick without faults *)

Section Progress.

Variable float64 : Q -> Q.
Variable http_StatusText : Z -> string.

(** X30. A tick without driver faults makes progress.  When some row is due
    at the worker's tier, the tick takes the due row that the claim orders
    first out of that tier for good: after a successful delivery the row is
    COMPLETED; after a failed one below [MaxRetryAttempts] it is PENDING one
    tier up; after a failed one at [MaxRetryAttempts] or above it is FAILED.
    In each case the row is not eligible for the worker's tier any more, at
    any instant. *)
Theorem X30_tick_without_faults_makes_progress :
  forall (w : WebhookWorker.t) (env : WebhookWorker.Tick) (db : DB)
         (m : WebhookQueue),
    primaryKey db ->
    0 <= WebhookWorker.retryLevel w ->
    WebhookWorker.claimFaults env = WebhookQueueRepository.noClaimFaults ->
    WebhookWorker.faults env = WebhookProcessor.noFaults ->
    gorm.FirstWhere
      (WebhookQueueRepository.eligible (WebhookWorker.retryLevel w)
         (WebhookWorker.claimNow env)) db = Some m ->
    let db' := WebhookWorker.processNextWebhook float64 http_StatusText w env db in
    let delivered :=
      WebhookProcessor.succeeded
        (WebhookWorker.send env
           (set_UpdatedAt (WebhookWorker.claimNow env)
              (set_Status enums.WebhookStatusProcessing m))) in
    exists r',
      gorm.FirstByID (ID m) db' = Some r'
      /\ (forall now,
            WebhookQueueRepository.eligible (WebhookWorker.retryLevel w) now r'
            = false)
      /\ if delivered
         then Status r' = enums.WebhookStatusCompleted
              /\ RetryCount r' = WebhookWorker.retryLevel w
         else if WebhookWorker.retryLevel w <? enums.MaxRetryAttempts
              then Status r' = enums.WebhookStatusPending
                   /\ RetryCount r' = WebhookWorker.retryLevel w + 1
              else Status r' = enums.WebhookStatusFailed
                   /\ RetryCount r' = WebhookWorker.retryLevel w.
Proof.
  intros w env db m Hpk Htier Hcf Hf Hm db' delivered. subst db' delivered.
  pose proof (FirstWhere_In _ _ _ Hm) as [Hin Hel].
  apply eligible_iff in Hel. destruct Hel as (Hs & Hrc & _).
  pose proof (In_FirstByID _ _ Hpk Hin) as Hfind.
  unfold WebhookWorker.processNextWebhook,
    WebhookProcessor.GetNextWebhookForProcessing,
    WebhookQueueRepository.GetNextWebhookForProcessing.
  rewrite Hcf. cbn [WebhookQueueRepository.beginFault
                      WebhookQueueRepository.selectFault
                      WebhookQueueRepository.updateFault
                      WebhookQueueRepository.commitFault
                      WebhookQueueRepository.noClaimFaults].
  rewrite Hm. cbv zeta.
  set (ent := WebhookQueueRepository.modelToEntity
                (set_UpdatedAt (WebhookWorker.claimNow env)
                   (set_Status enums.WebhookStatusProcessing m))).
  set (db1 := gorm.Updates (ID m)
                [col_status enums.WebhookStatusProcessing;
                 col_updated_at (WebhookWorker.claimNow env)] db).
  set (c1 := applyUpdates [col_status enums.WebhookStatusProcessing;
                           col_updated_at (WebhookWorker.claimNow env)] m).
  assert (Hc1 : gorm.FirstByID (ID ent) db1 = Some c1).
  { subst db1 ent. rewrite FirstByID_Updates. simpl ID.
    unfold gorm.FirstByID. rewrite Hfind. cbn [option_map].
    rewrite Z.eqb_refl. reflexivity. }
  assert (Hcan : CanRetry ent
                 = (WebhookWorker.retryLevel w <? enums.MaxRetryAttempts)).
  { subst ent. unfold CanRetry. simpl. rewrite Hrc. apply andb_true_r. }
  assert (Hsend : WebhookWorker.send env
                    (set_UpdatedAt (WebhookWorker.claimNow env)
                       (set_Status enums.WebhookStatusProcessing m))
                  = WebhookWorker.send env ent) by reflexivity.
  rewrite Hsend.
  pose proof (ProcessWebhook_row float64 http_StatusText
                (WebhookWorker.send env ent) (WebhookWorker.clock env)
                (WebhookWorker.faults env) (WebhookWorker.sample env)
                ent c1 db1 Hc1) as HR.
  destruct (WebhookProcessor.ProcessWebhook float64 http_StatusText
              (WebhookWorker.send env ent) (WebhookWorker.clock env)
              (WebhookWorker.faults env) (WebhookWorker.sample env) ent db1)
    as [[err ent'] db2].
  destruct HR as (Hiff & _ & c2 & Hc2 & _ & _ & _ & Hok1 & Hok2 & Hok3).
  assert (He : err = None).
  { apply Hiff. rewrite Hf. split; [reflexivity|]. intros _ _. reflexivity. }
  subst err.
  change (ID ent) with (ID m) in Hc2.
  change (RetryCount c1) with (RetryCount m) in *.
  change (RetryCount ent) with (RetryCount m) in *.
  rewrite Hcan in Hok2, Hok3. rewrite Hrc in *.
  exists c2. split; [exact Hc2|].
  destruct (WebhookProcessor.succeeded (WebhookWorker.send env ent)).
  - destruct (Hok1 eq_refl eq_refl) as [St Rc].
    split; [|split; assumption].
    intro now. unfold WebhookQueueRepository.eligible. rewrite St. reflexivity.
  - destruct (WebhookWorker.retryLevel w <? enums.MaxRetryAttempts).
    + destruct (Hok2 eq_refl eq_refl eq_refl) as (St & _ & Rc).
      specialize (Rc Htier).
      split; [|split; assumption].
      intro now. unfold WebhookQueueRepository.eligible. rewrite Rc.
      replace (WebhookWorker.retryLevel w + 1 =? WebhookWorker.retryLevel w)
        with false by (symmetry; apply Z.eqb_neq; lia).
      rewrite andb_false_r. reflexivity.
    + destruct (Hok3 eq_refl eq_refl eq_refl) as [St Rc].
      split; [|split; assumption].
      intro now. unfold WebhookQueueRepository.eligible. rewrite St. reflexivity.
Qed.

End Progress.

Lemma X30_tick_without_faults_makes_progress_witness :
  primaryKey sampleDB
  /\ 0 <= WebhookWorker.retryLevel sampleWorker0
  /\ gorm.FirstWhere
       (WebhookQueueRepository.eligible (WebhookWorker.retryLevel sampleWorker0)
          (WebhookWorker.claimNow sampleTick503)) sampleDB
     = Some (sampleRow 2 enums.WebhookStatusPending 0 90)
  /\ exists r',
       gorm.FirstByID 2
         (WebhookWorker.processNextWebhook exactFloat64 sampleStatusText
            sampleWorker0 sampleTick503 sampleDB) = Some r'
       /\ Status r' = enums.WebhookStatusPending
       /\ RetryCount r' = 1.
Proof.
  assert (H0 : 0 <= WebhookWorker.retryLevel sampleWorker0) by (simpl; lia).
  split; [exact primaryKey_sampleDB|]. split; [exact H0|].
  split; [reflexivity|].
  destruct (X30_tick_without_faults_makes_progress exactFloat64 sampleStatusText
              sampleWorker0 sampleTick503 sampleDB
              (sampleRow 2 enums.WebhookStatusPending 0 90)
              primaryKey_sampleDB H0 eq_refl eq_refl eq_refl)
    as (r' & Hr' & _ & Hout).
  exists r'. split; [exact Hr'|]. exact Hout.
Defined.

(** * More instances

    The services run on the sample data. *)

(** A request for the active configuration is stored; one for the inactive
    configuration and one with an unknown event type are refused. *)
Example intake_accepted_sample :
  services.CreateWebhook sampleIntake sampleConfigs
    (services.mkCreateWebhookCommand enums.EventTypeCredit "e1" 1) emptyDB
  = (services.mkCreateWebhookResult true "Webhook created successfully" "" 101,
     None,
     mkDB [set_QueueID 42%N (set_ID 1 freshEntity)] 2).
Proof. reflexivity. Qed.

Example intake_inactive_sample :
  services.CreateWebhook sampleIntake sampleConfigs
    (services.mkCreateWebhookCommand enums.EventTypeDebit "e2" 2) sampleDB
  = (services.mkCreateWebhookResult false
       "Failed to create webhook: webhook config is not active: 2" "" 0,
     Some "webhook config is not active: 2",
     sampleDB).
Proof. reflexivity. Qed.

Example http_unknown_type_sample :
  transport.CreateWebhook sampleFormat sampleIntake sampleConfigs
    (transport.mkCreateWebhookRequest "REFUND" "e1" 1) sampleDB
  = (transport.mkCreateWebhookResponse false
       "Failed to create webhook: invalid event type: REFUND (must be one of: CREDIT, DEBIT)"
       "" "",
     Some "invalid event type: REFUND (must be one of: CREDIT, DEBIT)",
     sampleDB).
Proof. reflexivity. Qed.

Example http_accepted_sample :
  fst (fst (transport.CreateWebhook sampleFormat sampleIntake sampleConfigs
              (transport.mkCreateWebhookRequest enums.EventTypeCredit "e1" 1)
              emptyDB))
  = transport.mkCreateWebhookResponse true "Webhook created successfully" ""
      "t101".
Proof. reflexivity. Qed.

(** A 200 whose body cannot be read. *)
Example send_unreadable_body_sample :
  WebhookService.SendWebhook sampleNet 210 220 sampleClaimed
  = (Some (mkWebhookResponse 200 "" 10 (Some "unexpected EOF")),
     Some "failed to read response body: unexpected EOF").
Proof. reflexivity. Qed.

(** The metric of three ticks: a 503 that is rescheduled; a refused
    connection that is rescheduled; a refused connection at the last tier
    whose final write is lost. *)
Example metric_503_sample :
  metrics.processNextWebhook_deferred exactFloat64 sampleStatusText
    sampleWorker0 sampleTick503 200 250 sampleDB []
  = [metrics.mkObservation "503" "0" 50].
Proof. vm_compute. reflexivity. Qed.

Example metric_refused_sample :
  metrics.processNextWebhook_deferred exactFloat64 sampleStatusText
    sampleWorker0 sampleTickRefused 200 250 sampleDB []
  = [].
Proof. vm_compute. reflexivity. Qed.

Example metric_lost_write_sample :
  metrics.processNextWebhook_deferred exactFloat64 sampleStatusText
    sampleWorker6 sampleTickLostWrite 200 250 sampleDueLastDB []
  = [metrics.mkObservation "500" "6" 50].
Proof. vm_compute. reflexivity. Qed.

(** An environment without variables gives the defaults. *)
Example LoadConfig_defaults :
  config.LoadConfig (fun _ => "") sampleAtoi sampleParseDuration
  = Ok (config.mkConfig
          (config.mkDatabaseConfig "localhost" 5432 "postgres" "root"
             "webhook_processor" "disable" 25 5 (5 * time_Minute))
          (config.mkHTTPClientConfig (30 * time_Second) 100 (90 * time_Second))
          (config.mkHTTPServerConfig 8080 (30 * time_Second) (30 * time_Second)
             (120 * time_Second))).
Proof. reflexivity. Qed.

Example GetDatabaseDSN_defaults :
  config.GetDatabaseDSN
    (config.mkConfig
       (config.mkDatabaseConfig "localhost" 5432 "postgres" "root"
          "webhook_processor" "disable" 25 5 (5 * time_Minute))
       (config.mkHTTPClientConfig (30 * time_Second) 100 (90 * time_Second))
       (config.mkHTTPServerConfig 8080 (30 * time_Second) (30 * time_Second)
          (120 * time_Second)))
  = "host=localhost port=5432 user=postgres password=root dbname=webhook_processor sslmode=disable timezone=UTC".
Proof. reflexivity. Qed.

Example event_type_test_table :
  map event_type.IsValid ["CREDIT"; "DEBIT"; "credit"; ""; "REFUND"]
  = [true; true; false; false; false].
Proof. reflexivity. Qed.
